(** * Speed_Serve workload parser: a shallow embedding of
    [src/workload_parser.py] and the properties of its replay driver,
    tokenizer and command dispatcher.

    Modelling conventions.
    - A Python [str] is the list of its Unicode code points, [list N].  A
      literal ["..."] stands for the code points that its UTF-8 bytes encode.
      The whitespace class, the case mappings and the decimal digits are
      those of the Unicode database that [str.strip], [str.split],
      [str.upper], [str.lower] and [int] consult (version 14.0.0).
    - A Python [dict] with string keys is a [gmap (list N) _]; [d[k] = v] is
      [<[k:=v]> d].
    - The file system is a finite map from paths to the contents of regular
      files.  [os.path.exists], [os.remove] and [open(p, 'w')] are lookup,
      deletion and insertion; [os.makedirs] creates directories only, which
      the map does not record.  I/O errors (permissions, a full disk, a file
      that is not valid UTF-8) are never caught by the source and end the
      run; they are not modelled.
    - [print], the calls into [requests] and the exceptions that the [try]
      blocks intercept are explicit: a state-and-exception monad over a
      [world] that records the file system, the printed lines and the HTTP
      calls issued so far.
    - The downstream service is a function from the calls issued so far and
      the current call to a reply; [float] is a parameter. *)

From Stdlib Require Import ZArith NArith Lia Strings.Byte.
From Stdlib Require Import Floats.SpecFloat.
From stdpp Require Import base list gmap.

Local Open Scope list_scope.

(** ** String literals *)

Module Utf8.

Local Open Scope N_scope.

(** A continuation byte. *)
Definition cont (b : N) : bool := (128 <=? b) && (b <=? 191).

(** The code points that a sequence of bytes encodes; [None] when it is not
    valid UTF-8. *)
Fixpoint decode (l : list N) : option (list N) :=
  match l with
  | [] => Some []
  | b0 :: l0 =>
      if b0 <? 128 then cons b0 <$> decode l0
      else if (194 <=? b0) && (b0 <=? 223) then
        match l0 with
        | b1 :: l1 =>
            if cont b1 then cons ((b0 - 192) * 64 + (b1 - 128)) <$> decode l1
            else None
        | _ => None
        end
      else if (224 <=? b0) && (b0 <=? 239) then
        match l0 with
        | b1 :: b2 :: l2 =>
            let c := (b0 - 224) * 4096 + (b1 - 128) * 64 + (b2 - 128) in
            if cont b1 && cont b2 && (2048 <=? c)
               && negb ((55296 <=? c) && (c <=? 57343))
            then cons c <$> decode l2
            else None
        | _ => None
        end
      else if (240 <=? b0) && (b0 <=? 244) then
        match l0 with
        | b1 :: b2 :: b3 :: l3 =>
            let c := (b0 - 240) * 262144 + (b1 - 128) * 4096
                     + (b2 - 128) * 64 + (b3 - 128) in
            if cont b1 && cont b2 && cont b3 && (65536 <=? c) && (c <? 1114112)
            then cons c <$> decode l3
            else None
        | _ => None
        end
      else None
  end.

(** The bytes of one code point. *)
Definition encode1 (c : N) : list N :=
  if c <? 128 then [c]
  else if c <? 2048 then [192 + c / 64; 128 + c mod 64]
  else if c <? 65536 then [224 + c / 4096; 128 + (c / 64) mod 64; 128 + c mod 64]
  else [240 + c / 262144; 128 + (c / 4096) mod 64; 128 + (c / 64) mod 64; 128 + c mod 64].

Inductive literal : Set := Nil | Cons (c : N) (s : literal).

Fixpoint of_list (l : list N) : literal :=
  match l with
  | [] => Nil
  | c :: l' => Cons c (of_list l')
  end.

Fixpoint to_list (s : literal) : list N :=
  match s with
  | Nil => []
  | Cons c s' => c :: to_list s'
  end.

Definition parse (bytes : list Byte.byte) : option literal :=
  of_list <$> decode (Byte.to_N <$> bytes).

Definition print (s : literal) : option (list Byte.byte) :=
  mapM Byte.of_N (mbind encode1 (to_list s)).

End Utf8.

(** The type that string literals are read at. *)
Definition text : Type := list N.

Declare Scope str_scope.
Delimit Scope str_scope with str.
#[local] Set Warnings "-via-type-mismatch,-via-type-remapping".
String Notation text Utf8.parse Utf8.print
  (via Utf8.literal mapping [[nil] => Utf8.Nil, [cons] => Utf8.Cons]) : str_scope.
#[local] Set Warnings "via-type-mismatch,via-type-remapping".
Local Open Scope str_scope.

(** ** Python string primitives *)

Module PyStr.

Local Open Scope N_scope.

(** The code points for which [str.isspace] holds. *)
Definition whitespace : list N :=
  [9; 10; 11; 12; 13; 28; 29; 30; 31; 32; 133; 160; 5760; 8192; 8193; 8194; 8195; 8196; 8197; 8198; 8199; 8200; 8201; 8202; 8232; 8233; 8239; 8287; 12288].

(** The first code point of each run of ten decimal digits. *)
Definition digit_zeros : list N :=
  [
  48; 1632; 1776; 1984; 2406; 2534; 2662; 2790; 2918; 3046;
  3174; 3302; 3430; 3558; 3664; 3792; 3872; 4160; 4240; 6112;
  6160; 6470; 6608; 6784; 6800; 6992; 7088; 7232; 7248; 42528;
  43216; 43264; 43472; 43504; 43600; 44016; 65296; 66720; 68912; 69734;
  69872; 69942; 70096; 70384; 70736; 70864; 71248; 71360; 71472; 71904;
  72016; 72784; 73040; 73120; 92768; 92864; 93008; 120782; 120792; 120802;
  120812; 120822; 123200; 123632; 125264; 130032].

(** The code points that [str.upper] changes, with what it puts in their place. *)
Definition upper_table : list (N * list N) :=
  [
  (97, [65]); (98, [66]); (99, [67]); (100, [68]); (101, [69]);
  (102, [70]); (103, [71]); (104, [72]); (105, [73]); (106, [74]);
  (107, [75]); (108, [76]); (109, [77]); (110, [78]); (111, [79]);
  (112, [80]); (113, [81]); (114, [82]); (115, [83]); (116, [84]);
  (117, [85]); (118, [86]); (119, [87]); (120, [88]); (121, [89]);
  (122, [90]); (181, [924]); (223, [83; 83]); (224, [192]); (225, [193]);
  (226, [194]); (227, [195]); (228, [196]); (229, [197]); (230, [198]);
  (231, [199]); (232, [200]); (233, [201]); (234, [202]); (235, [203]);
  (236, [204]); (237, [205]); (238, [206]); (239, [207]); (240, [208]);
  (241, [209]); (242, [210]); (243, [211]); (244, [212]); (245, [213]);
  (246, [214]); (248, [216]); (249, [217]); (250, [218]); (251, [219]);
  (252, [220]); (253, [221]); (254, [222]); (255, [376]); (257, [256]);
  (259, [258]); (261, [260]); (263, [262]); (265, [264]); (267, [266]);
  (269, [268]); (271, [270]); (273, [272]); (275, [274]); (277, [276]);
  (279, [278]); (281, [280]); (283, [282]); (285, [284]); (287, [286]);
  (289, [288]); (291, [290]); (293, [292]); (295, [294]); (297, [296]);
  (299, [298]); (301, [300]); (303, [302]); (305, [73]); (307, [306]);
  (309, [308]); (311, [310]); (314, [313]); (316, [315]); (318, [317]);
  (320, [319]); (322, [321]); (324, [323]); (326, [325]); (328, [327]);
  (329, [700; 78]); (331, [330]); (333, [332]); (335, [334]); (337, [336]);
  (339, [338]); (341, [340]); (343, [342]); (345, [344]); (347, [346]);
  (349, [348]); (351, [350]); (353, [352]); (355, [354]); (357, [356]);
  (359, [358]); (361, [360]); (363, [362]); (365, [364]); (367, [366]);
  (369, [368]); (371, [370]); (373, [372]); (375, [374]); (378, [377]);
  (380, [379]); (382, [381]); (383, [83]); (384, [579]); (387, [386]);
  (389, [388]); (392, [391]); (396, [395]); (402, [401]); (405, [502]);
  (409, [408]); (410, [573]); (414, [544]); (417, [416]); (419, [418]);
  (421, [420]); (424, [423]); (429, [428]); (432, [431]); (436, [435]);
  (438, [437]); (441, [440]); (445, [444]); (447, [503]); (453, [452]);
  (454, [452]); (456, [455]); (457, [455]); (459, [458]); (460, [458]);
  (462, [461]); (464, [463]); (466, [465]); (468, [467]); (470, [469]);
  (472, [471]); (474, [473]); (476, [475]); (477, [398]); (479, [478]);
  (481, [480]); (483, [482]); (485, [484]); (487, [486]); (489, [488]);
  (491, [490]); (493, [492]); (495, [494]); (496, [74; 780]); (498, [497]);
  (499, [497]); (501, [500]); (505, [504]); (507, [506]); (509, [508]);
  (511, [510]); (513, [512]); (515, [514]); (517, [516]); (519, [518]);
  (521, [520]); (523, [522]); (525, [524]); (527, [526]); (529, [528]);
  (531, [530]); (533, [532]); (535, [534]); (537, [536]); (539, [538]);
  (541, [540]); (543, [542]); (547, [546]); (549, [548]); (551, [550]);
  (553, [552]); (555, [554]); (557, [556]); (559, [558]); (561, [560]);
  (563, [562]); (572, [571]); (575, [11390]); (576, [11391]); (578, [577]);
  (583, [582]); (585, [584]); (587, [586]); (589, [588]); (591, [590]);
  (592, [11375]); (593, [11373]); (594, [11376]); (595, [385]); (596, [390]);
  (598, [393]); (599, [394]); (601, [399]); (603, [400]); (604, [42923]);
  (608, [403]); (609, [42924]); (611, [404]); (613, [42893]); (614, [42922]);
  (616, [407]); (617, [406]); (618, [42926]); (619, [11362]); (620, [42925]);
  (623, [412]); (625, [11374]); (626, [413]); (629, [415]); (637, [11364]);
  (640, [422]); (642, [42949]); (643, [425]); (647, [42929]); (648, [430]);
  (649, [580]); (650, [433]); (651, [434]); (652, [581]); (658, [439]);
  (669, [42930]); (670, [42928]); (837, [921]); (881, [880]); (883, [882]);
  (887, [886]); (891, [1021]); (892, [1022]); (893, [1023]); (912, [921; 776; 769]);
  (940, [902]); (941, [904]); (942, [905]); (943, [906]); (944, [933; 776; 769]);
  (945, [913]); (946, [914]); (947, [915]); (948, [916]); (949, [917]);
  (950, [918]); (951, [919]); (952, [920]); (953, [921]); (954, [922]);
  (955, [923]); (956, [924]); (957, [925]); (958, [926]); (959, [927]);
  (960, [928]); (961, [929]); (962, [931]); (963, [931]); (964, [932]);
  (965, [933]); (966, [934]); (967, [935]); (968, [936]); (969, [937]);
  (970, [938]); (971, [939]); (972, [908]); (973, [910]); (974, [911]);
  (976, [914]); (977, [920]); (981, [934]); (982, [928]); (983, [975]);
  (985, [984]); (987, [986]); (989, [988]); (991, [990]); (993, [992]);
  (995, [994]); (997, [996]); (999, [998]); (1001, [1000]); (1003, [1002]);
  (1005, [1004]); (1007, [1006]); (1008, [922]); (1009, [929]); (1010, [1017]);
  (1011, [895]); (1013, [917]); (1016, [1015]); (1019, [1018]); (1072, [1040]);
  (1073, [1041]); (1074, [1042]); (1075, [1043]); (1076, [1044]); (1077, [1045]);
  (1078, [1046]); (1079, [1047]); (1080, [1048]); (1081, [1049]); (1082, [1050]);
  (1083, [1051]); (1084, [1052]); (1085, [1053]); (1086, [1054]); (1087, [1055]);
  (1088, [1056]); (1089, [1057]); (1090, [1058]); (1091, [1059]); (1092, [1060]);
  (1093, [1061]); (1094, [1062]); (1095, [1063]); (1096, [1064]); (1097, [1065]);
  (1098, [1066]); (1099, [1067]); (1100, [1068]); (1101, [1069]); (1102, [1070]);
  (1103, [1071]); (1104, [1024]); (1105, [1025]); (1106, [1026]); (1107, [1027]);
  (1108, [1028]); (1109, [1029]); (1110, [1030]); (1111, [1031]); (1112, [1032]);
  (1113, [1033]); (1114, [1034]); (1115, [1035]); (1116, [1036]); (1117, [1037]);
  (1118, [1038]); (1119, [1039]); (1121, [1120]); (1123, [1122]); (1125, [1124]);
  (1127, [1126]); (1129, [1128]); (1131, [1130]); (1133, [1132]); (1135, [1134]);
  (1137, [1136]); (1139, [1138]); (1141, [1140]); (1143, [1142]); (1145, [1144]);
  (1147, [1146]); (1149, [1148]); (1151, [1150]); (1153, [1152]); (1163, [1162]);
  (1165, [1164]); (1167, [1166]); (1169, [1168]); (1171, [1170]); (1173, [1172]);
  (1175, [1174]); (1177, [1176]); (1179, [1178]); (1181, [1180]); (1183, [1182]);
  (1185, [1184]); (1187, [1186]); (1189, [1188]); (1191, [1190]); (1193, [1192]);
  (1195, [1194]); (1197, [1196]); (1199, [1198]); (1201, [1200]); (1203, [1202]);
  (1205, [1204]); (1207, [1206]); (1209, [1208]); (1211, [1210]); (1213, [1212]);
  (1215, [1214]); (1218, [1217]); (1220, [1219]); (1222, [1221]); (1224, [1223]);
  (1226, [1225]); (1228, [1227]); (1230, [1229]); (1231, [1216]); (1233, [1232]);
  (1235, [1234]); (1237, [1236]); (1239, [1238]); (1241, [1240]); (1243, [1242]);
  (1245, [1244]); (1247, [1246]); (1249, [1248]); (1251, [1250]); (1253, [1252]);
  (1255, [1254]); (1257, [1256]); (1259, [1258]); (1261, [1260]); (1263, [1262]);
  (1265, [1264]); (1267, [1266]); (1269, [1268]); (1271, [1270]); (1273, [1272]);
  (1275, [1274]); (1277, [1276]); (1279, [1278]); (1281, [1280]); (1283, [1282]);
  (1285, [1284]); (1287, [1286]); (1289, [1288]); (1291, [1290]); (1293, [1292]);
  (1295, [1294]); (1297, [1296]); (1299, [1298]); (1301, [1300]); (1303, [1302]);
  (1305, [1304]); (1307, [1306]); (1309, [1308]); (1311, [1310]); (1313, [1312]);
  (1315, [1314]); (1317, [1316]); (1319, [1318]); (1321, [1320]); (1323, [1322]);
  (1325, [1324]); (1327, [1326]); (1377, [1329]); (1378, [1330]); (1379, [1331]);
  (1380, [1332]); (1381, [1333]); (1382, [1334]); (1383, [1335]); (1384, [1336]);
  (1385, [1337]); (1386, [1338]); (1387, [1339]); (1388, [1340]); (1389, [1341]);
  (1390, [1342]); (1391, [1343]); (1392, [1344]); (1393, [1345]); (1394, [1346]);
  (1395, [1347]); (1396, [1348]); (1397, [1349]); (1398, [1350]); (1399, [1351]);
  (1400, [1352]); (1401, [1353]); (1402, [1354]); (1403, [1355]); (1404, [1356]);
  (1405, [1357]); (1406, [1358]); (1407, [1359]); (1408, [1360]); (1409, [1361]);
  (1410, [1362]); (1411, [1363]); (1412, [1364]); (1413, [1365]); (1414, [1366]);
  (1415, [1333; 1362]); (4304, [7312]); (4305, [7313]); (4306, [7314]); (4307, [7315]);
  (4308, [7316]); (4309, [7317]); (4310, [7318]); (4311, [7319]); (4312, [7320]);
  (4313, [7321]); (4314, [7322]); (4315, [7323]); (4316, [7324]); (4317, [7325]);
  (4318, [7326]); (4319, [7327]); (4320, [7328]); (4321, [7329]); (4322, [7330]);
  (4323, [7331]); (4324, [7332]); (4325, [7333]); (4326, [7334]); (4327, [7335]);
  (4328, [7336]); (4329, [7337]); (4330, [7338]); (4331, [7339]); (4332, [7340]);
  (4333, [7341]); (4334, [7342]); (4335, [7343]); (4336, [7344]); (4337, [7345]);
  (4338, [7346]); (4339, [7347]); (4340, [7348]); (4341, [7349]); (4342, [7350]);
  (4343, [7351]); (4344, [7352]); (4345, [7353]); (4346, [7354]); (4349, [7357]);
  (4350, [7358]); (4351, [7359]); (5112, [5104]); (5113, [5105]); (5114, [5106]);
  (5115, [5107]); (5116, [5108]); (5117, [5109]); (7296, [1042]); (7297, [1044]);
  (7298, [1054]); (7299, [1057]); (7300, [1058]); (7301, [1058]); (7302, [1066]);
  (7303, [1122]); (7304, [42570]); (7545, [42877]); (7549, [11363]); (7566, [42950]);
  (7681, [7680]); (7683, [7682]); (7685, [7684]); (7687, [7686]); (7689, [7688]);
  (7691, [7690]); (7693, [7692]); (7695, [7694]); (7697, [7696]); (7699, [7698]);
  (7701, [7700]); (7703, [7702]); (7705, [7704]); (7707, [7706]); (7709, [7708]);
  (7711, [7710]); (7713, [7712]); (7715, [7714]); (7717, [7716]); (7719, [7718]);
  (7721, [7720]); (7723, [7722]); (7725, [7724]); (7727, [7726]); (7729, [7728]);
  (7731, [7730]); (7733, [7732]); (7735, [7734]); (7737, [7736]); (7739, [7738]);
  (7741, [7740]); (7743, [7742]); (7745, [7744]); (7747, [7746]); (7749, [7748]);
  (7751, [7750]); (7753, [7752]); (7755, [7754]); (7757, [7756]); (7759, [7758]);
  (7761, [7760]); (7763, [7762]); (7765, [7764]); (7767, [7766]); (7769, [7768]);
  (7771, [7770]); (7773, [7772]); (7775, [7774]); (7777, [7776]); (7779, [7778]);
  (7781, [7780]); (7783, [7782]); (7785, [7784]); (7787, [7786]); (7789, [7788]);
  (7791, [7790]); (7793, [7792]); (7795, [7794]); (7797, [7796]); (7799, [7798]);
  (7801, [7800]); (7803, [7802]); (7805, [7804]); (7807, [7806]); (7809, [7808]);
  (7811, [7810]); (7813, [7812]); (7815, [7814]); (7817, [7816]); (7819, [7818]);
  (7821, [7820]); (7823, [7822]); (7825, [7824]); (7827, [7826]); (7829, [7828]);
  (7830, [72; 817]); (7831, [84; 776]); (7832, [87; 778]); (7833, [89; 778]); (7834, [65; 702]);
  (7835, [7776]); (7841, [7840]); (7843, [7842]); (7845, [7844]); (7847, [7846]);
  (7849, [7848]); (7851, [7850]); (7853, [7852]); (7855, [7854]); (7857, [7856]);
  (7859, [7858]); (7861, [7860]); (7863, [7862]); (7865, [7864]); (7867, [7866]);
  (7869, [7868]); (7871, [7870]); (7873, [7872]); (7875, [7874]); (7877, [7876]);
  (7879, [7878]); (7881, [7880]); (7883, [7882]); (7885, [7884]); (7887, [7886]);
  (7889, [7888]); (7891, [7890]); (7893, [7892]); (7895, [7894]); (7897, [7896]);
  (7899, [7898]); (7901, [7900]); (7903, [7902]); (7905, [7904]); (7907, [7906]);
  (7909, [7908]); (7911, [7910]); (7913, [7912]); (7915, [7914]); (7917, [7916]);
  (7919, [7918]); (7921, [7920]); (7923, [7922]); (7925, [7924]); (7927, [7926]);
  (7929, [7928]); (7931, [7930]); (7933, [7932]); (7935, [7934]); (7936, [7944]);
  (7937, [7945]); (7938, [7946]); (7939, [7947]); (7940, [7948]); (7941, [7949]);
  (7942, [7950]); (7943, [7951]); (7952, [7960]); (7953, [7961]); (7954, [7962]);
  (7955, [7963]); (7956, [7964]); (7957, [7965]); (7968, [7976]); (7969, [7977]);
  (7970, [7978]); (7971, [7979]); (7972, [7980]); (7973, [7981]); (7974, [7982]);
  (7975, [7983]); (7984, [7992]); (7985, [7993]); (7986, [7994]); (7987, [7995]);
  (7988, [7996]); (7989, [7997]); (7990, [7998]); (7991, [7999]); (8000, [8008]);
  (8001, [8009]); (8002, [8010]); (8003, [8011]); (8004, [8012]); (8005, [8013]);
  (8016, [933; 787]); (8017, [8025]); (8018, [933; 787; 768]); (8019, [8027]); (8020, [933; 787; 769]);
  (8021, [8029]); (8022, [933; 787; 834]); (8023, [8031]); (8032, [8040]); (8033, [8041]);
  (8034, [8042]); (8035, [8043]); (8036, [8044]); (8037, [8045]); (8038, [8046]);
  (8039, [8047]); (8048, [8122]); (8049, [8123]); (8050, [8136]); (8051, [8137]);
  (8052, [8138]); (8053, [8139]); (8054, [8154]); (8055, [8155]); (8056, [8184]);
  (8057, [8185]); (8058, [8170]); (8059, [8171]); (8060, [8186]); (8061, [8187]);
  (8064, [7944; 921]); (8065, [7945; 921]); (8066, [7946; 921]); (8067, [7947; 921]); (8068, [7948; 921]);
  (8069, [7949; 921]); (8070, [7950; 921]); (8071, [7951; 921]); (8072, [7944; 921]); (8073, [7945; 921]);
  (8074, [7946; 921]); (8075, [7947; 921]); (8076, [7948; 921]); (8077, [7949; 921]); (8078, [7950; 921]);
  (8079, [7951; 921]); (8080, [7976; 921]); (8081, [7977; 921]); (8082, [7978; 921]); (8083, [7979; 921]);
  (8084, [7980; 921]); (8085, [7981; 921]); (8086, [7982; 921]); (8087, [7983; 921]); (8088, [7976; 921]);
  (8089, [7977; 921]); (8090, [7978; 921]); (8091, [7979; 921]); (8092, [7980; 921]); (8093, [7981; 921]);
  (8094, [7982; 921]); (8095, [7983; 921]); (8096, [8040; 921]); (8097, [8041; 921]); (8098, [8042; 921]);
  (8099, [8043; 921]); (8100, [8044; 921]); (8101, [8045; 921]); (8102, [8046; 921]); (8103, [8047; 921]);
  (8104, [8040; 921]); (8105, [8041; 921]); (8106, [8042; 921]); (8107, [8043; 921]); (8108, [8044; 921]);
  (8109, [8045; 921]); (8110, [8046; 921]); (8111, [8047; 921]); (8112, [8120]); (8113, [8121]);
  (8114, [8122; 921]); (8115, [913; 921]); (8116, [902; 921]); (8118, [913; 834]); (8119, [913; 834; 921]);
  (8124, [913; 921]); (8126, [921]); (8130, [8138; 921]); (8131, [919; 921]); (8132, [905; 921]);
  (8134, [919; 834]); (8135, [919; 834; 921]); (8140, [919; 921]); (8144, [8152]); (8145, [8153]);
  (8146, [921; 776; 768]); (8147, [921; 776; 769]); (8150, [921; 834]); (8151, [921; 776; 834]); (8160, [8168]);
  (8161, [8169]); (8162, [933; 776; 768]); (8163, [933; 776; 769]); (8164, [929; 787]); (8165, [8172]);
  (8166, [933; 834]); (8167, [933; 776; 834]); (8178, [8186; 921]); (8179, [937; 921]); (8180, [911; 921]);
  (8182, [937; 834]); (8183, [937; 834; 921]); (8188, [937; 921]); (8526, [8498]); (8560, [8544]);
  (8561, [8545]); (8562, [8546]); (8563, [8547]); (8564, [8548]); (8565, [8549]);
  (8566, [8550]); (8567, [8551]); (8568, [8552]); (8569, [8553]); (8570, [8554]);
  (8571, [8555]); (8572, [8556]); (8573, [8557]); (8574, [8558]); (8575, [8559]);
  (8580, [8579]); (9424, [9398]); (9425, [9399]); (9426, [9400]); (9427, [9401]);
  (9428, [9402]); (9429, [9403]); (9430, [9404]); (9431, [9405]); (9432, [9406]);
  (9433, [9407]); (9434, [9408]); (9435, [9409]); (9436, [9410]); (9437, [9411]);
  (9438, [9412]); (9439, [9413]); (9440, [9414]); (9441, [9415]); (9442, [9416]);
  (9443, [9417]); (9444, [9418]); (9445, [9419]); (9446, [9420]); (9447, [9421]);
  (9448, [9422]); (9449, [9423]); (11312, [11264]); (11313, [11265]); (11314, [11266]);
  (11315, [11267]); (11316, [11268]); (11317, [11269]); (11318, [11270]); (11319, [11271]);
  (11320, [11272]); (11321, [11273]); (11322, [11274]); (11323, [11275]); (11324, [11276]);
  (11325, [11277]); (11326, [11278]); (11327, [11279]); (11328, [11280]); (11329, [11281]);
  (11330, [11282]); (11331, [11283]); (11332, [11284]); (11333, [11285]); (11334, [11286]);
  (11335, [11287]); (11336, [11288]); (11337, [11289]); (11338, [11290]); (11339, [11291]);
  (11340, [11292]); (11341, [11293]); (11342, [11294]); (11343, [11295]); (11344, [11296]);
  (11345, [11297]); (11346, [11298]); (11347, [11299]); (11348, [11300]); (11349, [11301]);
  (11350, [11302]); (11351, [11303]); (11352, [11304]); (11353, [11305]); (11354, [11306]);
  (11355, [11307]); (11356, [11308]); (11357, [11309]); (11358, [11310]); (11359, [11311]);
  (11361, [11360]); (11365, [570]); (11366, [574]); (11368, [11367]); (11370, [11369]);
  (11372, [11371]); (11379, [11378]); (11382, [11381]); (11393, [11392]); (11395, [11394]);
  (11397, [11396]); (11399, [11398]); (11401, [11400]); (11403, [11402]); (11405, [11404]);
  (11407, [11406]); (11409, [11408]); (11411, [11410]); (11413, [11412]); (11415, [11414]);
  (11417, [11416]); (11419, [11418]); (11421, [11420]); (11423, [11422]); (11425, [11424]);
  (11427, [11426]); (11429, [11428]); (11431, [11430]); (11433, [11432]); (11435, [11434]);
  (11437, [11436]); (11439, [11438]); (11441, [11440]); (11443, [11442]); (11445, [11444]);
  (11447, [11446]); (11449, [11448]); (11451, [11450]); (11453, [11452]); (11455, [11454]);
  (11457, [11456]); (11459, [11458]); (11461, [11460]); (11463, [11462]); (11465, [11464]);
  (11467, [11466]); (11469, [11468]); (11471, [11470]); (11473, [11472]); (11475, [11474]);
  (11477, [11476]); (11479, [11478]); (11481, [11480]); (11483, [11482]); (11485, [11484]);
  (11487, [11486]); (11489, [11488]); (11491, [11490]); (11500, [11499]); (11502, [11501]);
  (11507, [11506]); (11520, [4256]); (11521, [4257]); (11522, [4258]); (11523, [4259]);
  (11524, [4260]); (11525, [4261]); (11526, [4262]); (11527, [4263]); (11528, [4264]);
  (11529, [4265]); (11530, [4266]); (11531, [4267]); (11532, [4268]); (11533, [4269]);
  (11534, [4270]); (11535, [4271]); (11536, [4272]); (11537, [4273]); (11538, [4274]);
  (11539, [4275]); (11540, [4276]); (11541, [4277]); (11542, [4278]); (11543, [4279]);
  (11544, [4280]); (11545, [4281]); (11546, [4282]); (11547, [4283]); (11548, [4284]);
  (11549, [4285]); (11550, [4286]); (11551, [4287]); (11552, [4288]); (11553, [4289]);
  (11554, [4290]); (11555, [4291]); (11556, [4292]); (11557, [4293]); (11559, [4295]);
  (11565, [4301]); (42561, [42560]); (42563, [42562]); (42565, [42564]); (42567, [42566]);
  (42569, [42568]); (42571, [42570]); (42573, [42572]); (42575, [42574]); (42577, [42576]);
  (42579, [42578]); (42581, [42580]); (42583, [42582]); (42585, [42584]); (42587, [42586]);
  (42589, [42588]); (42591, [42590]); (42593, [42592]); (42595, [42594]); (42597, [42596]);
  (42599, [42598]); (42601, [42600]); (42603, [42602]); (42605, [42604]); (42625, [42624]);
  (42627, [42626]); (42629, [42628]); (42631, [42630]); (42633, [42632]); (42635, [42634]);
  (42637, [42636]); (42639, [42638]); (42641, [42640]); (42643, [42642]); (42645, [42644]);
  (42647, [42646]); (42649, [42648]); (42651, [42650]); (42787, [42786]); (42789, [42788]);
  (42791, [42790]); (42793, [42792]); (42795, [42794]); (42797, [42796]); (42799, [42798]);
  (42803, [42802]); (42805, [42804]); (42807, [42806]); (42809, [42808]); (42811, [42810]);
  (42813, [42812]); (42815, [42814]); (42817, [42816]); (42819, [42818]); (42821, [42820]);
  (42823, [42822]); (42825, [42824]); (42827, [42826]); (42829, [42828]); (42831, [42830]);
  (42833, [42832]); (42835, [42834]); (42837, [42836]); (42839, [42838]); (42841, [42840]);
  (42843, [42842]); (42845, [42844]); (42847, [42846]); (42849, [42848]); (42851, [42850]);
  (42853, [42852]); (42855, [42854]); (42857, [42856]); (42859, [42858]); (42861, [42860]);
  (42863, [42862]); (42874, [42873]); (42876, [42875]); (42879, [42878]); (42881, [42880]);
  (42883, [42882]); (42885, [42884]); (42887, [42886]); (42892, [42891]); (42897, [42896]);
  (42899, [42898]); (42900, [42948]); (42903, [42902]); (42905, [42904]); (42907, [42906]);
  (42909, [42908]); (42911, [42910]); (42913, [42912]); (42915, [42914]); (42917, [42916]);
  (42919, [42918]); (42921, [42920]); (42933, [42932]); (42935, [42934]); (42937, [42936]);
  (42939, [42938]); (42941, [42940]); (42943, [42942]); (42945, [42944]); (42947, [42946]);
  (42952, [42951]); (42954, [42953]); (42961, [42960]); (42967, [42966]); (42969, [42968]);
  (42998, [42997]); (43859, [42931]); (43888, [5024]); (43889, [5025]); (43890, [5026]);
  (43891, [5027]); (43892, [5028]); (43893, [5029]); (43894, [5030]); (43895, [5031]);
  (43896, [5032]); (43897, [5033]); (43898, [5034]); (43899, [5035]); (43900, [5036]);
  (43901, [5037]); (43902, [5038]); (43903, [5039]); (43904, [5040]); (43905, [5041]);
  (43906, [5042]); (43907, [5043]); (43908, [5044]); (43909, [5045]); (43910, [5046]);
  (43911, [5047]); (43912, [5048]); (43913, [5049]); (43914, [5050]); (43915, [5051]);
  (43916, [5052]); (43917, [5053]); (43918, [5054]); (43919, [5055]); (43920, [5056]);
  (43921, [5057]); (43922, [5058]); (43923, [5059]); (43924, [5060]); (43925, [5061]);
  (43926, [5062]); (43927, [5063]); (43928, [5064]); (43929, [5065]); (43930, [5066]);
  (43931, [5067]); (43932, [5068]); (43933, [5069]); (43934, [5070]); (43935, [5071]);
  (43936, [5072]); (43937, [5073]); (43938, [5074]); (43939, [5075]); (43940, [5076]);
  (43941, [5077]); (43942, [5078]); (43943, [5079]); (43944, [5080]); (43945, [5081]);
  (43946, [5082]); (43947, [5083]); (43948, [5084]); (43949, [5085]); (43950, [5086]);
  (43951, [5087]); (43952, [5088]); (43953, [5089]); (43954, [5090]); (43955, [5091]);
  (43956, [5092]); (43957, [5093]); (43958, [5094]); (43959, [5095]); (43960, [5096]);
  (43961, [5097]); (43962, [5098]); (43963, [5099]); (43964, [5100]); (43965, [5101]);
  (43966, [5102]); (43967, [5103]); (64256, [70; 70]); (64257, [70; 73]); (64258, [70; 76]);
  (64259, [70; 70; 73]); (64260, [70; 70; 76]); (64261, [83; 84]); (64262, [83; 84]); (64275, [1348; 1350]);
  (64276, [1348; 1333]); (64277, [1348; 1339]); (64278, [1358; 1350]); (64279, [1348; 1341]); (65345, [65313]);
  (65346, [65314]); (65347, [65315]); (65348, [65316]); (65349, [65317]); (65350, [65318]);
  (65351, [65319]); (65352, [65320]); (65353, [65321]); (65354, [65322]); (65355, [65323]);
  (65356, [65324]); (65357, [65325]); (65358, [65326]); (65359, [65327]); (65360, [65328]);
  (65361, [65329]); (65362, [65330]); (65363, [65331]); (65364, [65332]); (65365, [65333]);
  (65366, [65334]); (65367, [65335]); (65368, [65336]); (65369, [65337]); (65370, [65338]);
  (66600, [66560]); (66601, [66561]); (66602, [66562]); (66603, [66563]); (66604, [66564]);
  (66605, [66565]); (66606, [66566]); (66607, [66567]); (66608, [66568]); (66609, [66569]);
  (66610, [66570]); (66611, [66571]); (66612, [66572]); (66613, [66573]); (66614, [66574]);
  (66615, [66575]); (66616, [66576]); (66617, [66577]); (66618, [66578]); (66619, [66579]);
  (66620, [66580]); (66621, [66581]); (66622, [66582]); (66623, [66583]); (66624, [66584]);
  (66625, [66585]); (66626, [66586]); (66627, [66587]); (66628, [66588]); (66629, [66589]);
  (66630, [66590]); (66631, [66591]); (66632, [66592]); (66633, [66593]); (66634, [66594]);
  (66635, [66595]); (66636, [66596]); (66637, [66597]); (66638, [66598]); (66639, [66599]);
  (66776, [66736]); (66777, [66737]); (66778, [66738]); (66779, [66739]); (66780, [66740]);
  (66781, [66741]); (66782, [66742]); (66783, [66743]); (66784, [66744]); (66785, [66745]);
  (66786, [66746]); (66787, [66747]); (66788, [66748]); (66789, [66749]); (66790, [66750]);
  (66791, [66751]); (66792, [66752]); (66793, [66753]); (66794, [66754]); (66795, [66755]);
  (66796, [66756]); (66797, [66757]); (66798, [66758]); (66799, [66759]); (66800, [66760]);
  (66801, [66761]); (66802, [66762]); (66803, [66763]); (66804, [66764]); (66805, [66765]);
  (66806, [66766]); (66807, [66767]); (66808, [66768]); (66809, [66769]); (66810, [66770]);
  (66811, [66771]); (66967, [66928]); (66968, [66929]); (66969, [66930]); (66970, [66931]);
  (66971, [66932]); (66972, [66933]); (66973, [66934]); (66974, [66935]); (66975, [66936]);
  (66976, [66937]); (66977, [66938]); (66979, [66940]); (66980, [66941]); (66981, [66942]);
  (66982, [66943]); (66983, [66944]); (66984, [66945]); (66985, [66946]); (66986, [66947]);
  (66987, [66948]); (66988, [66949]); (66989, [66950]); (66990, [66951]); (66991, [66952]);
  (66992, [66953]); (66993, [66954]); (66995, [66956]); (66996, [66957]); (66997, [66958]);
  (66998, [66959]); (66999, [66960]); (67000, [66961]); (67001, [66962]); (67003, [66964]);
  (67004, [66965]); (68800, [68736]); (68801, [68737]); (68802, [68738]); (68803, [68739]);
  (68804, [68740]); (68805, [68741]); (68806, [68742]); (68807, [68743]); (68808, [68744]);
  (68809, [68745]); (68810, [68746]); (68811, [68747]); (68812, [68748]); (68813, [68749]);
  (68814, [68750]); (68815, [68751]); (68816, [68752]); (68817, [68753]); (68818, [68754]);
  (68819, [68755]); (68820, [68756]); (68821, [68757]); (68822, [68758]); (68823, [68759]);
  (68824, [68760]); (68825, [68761]); (68826, [68762]); (68827, [68763]); (68828, [68764]);
  (68829, [68765]); (68830, [68766]); (68831, [68767]); (68832, [68768]); (68833, [68769]);
  (68834, [68770]); (68835, [68771]); (68836, [68772]); (68837, [68773]); (68838, [68774]);
  (68839, [68775]); (68840, [68776]); (68841, [68777]); (68842, [68778]); (68843, [68779]);
  (68844, [68780]); (68845, [68781]); (68846, [68782]); (68847, [68783]); (68848, [68784]);
  (68849, [68785]); (68850, [68786]); (71872, [71840]); (71873, [71841]); (71874, [71842]);
  (71875, [71843]); (71876, [71844]); (71877, [71845]); (71878, [71846]); (71879, [71847]);
  (71880, [71848]); (71881, [71849]); (71882, [71850]); (71883, [71851]); (71884, [71852]);
  (71885, [71853]); (71886, [71854]); (71887, [71855]); (71888, [71856]); (71889, [71857]);
  (71890, [71858]); (71891, [71859]); (71892, [71860]); (71893, [71861]); (71894, [71862]);
  (71895, [71863]); (71896, [71864]); (71897, [71865]); (71898, [71866]); (71899, [71867]);
  (71900, [71868]); (71901, [71869]); (71902, [71870]); (71903, [71871]); (93792, [93760]);
  (93793, [93761]); (93794, [93762]); (93795, [93763]); (93796, [93764]); (93797, [93765]);
  (93798, [93766]); (93799, [93767]); (93800, [93768]); (93801, [93769]); (93802, [93770]);
  (93803, [93771]); (93804, [93772]); (93805, [93773]); (93806, [93774]); (93807, [93775]);
  (93808, [93776]); (93809, [93777]); (93810, [93778]); (93811, [93779]); (93812, [93780]);
  (93813, [93781]); (93814, [93782]); (93815, [93783]); (93816, [93784]); (93817, [93785]);
  (93818, [93786]); (93819, [93787]); (93820, [93788]); (93821, [93789]); (93822, [93790]);
  (93823, [93791]); (125218, [125184]); (125219, [125185]); (125220, [125186]); (125221, [125187]);
  (125222, [125188]); (125223, [125189]); (125224, [125190]); (125225, [125191]); (125226, [125192]);
  (125227, [125193]); (125228, [125194]); (125229, [125195]); (125230, [125196]); (125231, [125197]);
  (125232, [125198]); (125233, [125199]); (125234, [125200]); (125235, [125201]); (125236, [125202]);
  (125237, [125203]); (125238, [125204]); (125239, [125205]); (125240, [125206]); (125241, [125207]);
  (125242, [125208]); (125243, [125209]); (125244, [125210]); (125245, [125211]); (125246, [125212]);
  (125247, [125213]); (125248, [125214]); (125249, [125215]); (125250, [125216]); (125251, [125217])].

(** The code points that [str.lower] changes, capital sigma apart. *)
Definition lower_table : list (N * list N) :=
  [
  (65, [97]); (66, [98]); (67, [99]); (68, [100]); (69, [101]);
  (70, [102]); (71, [103]); (72, [104]); (73, [105]); (74, [106]);
  (75, [107]); (76, [108]); (77, [109]); (78, [110]); (79, [111]);
  (80, [112]); (81, [113]); (82, [114]); (83, [115]); (84, [116]);
  (85, [117]); (86, [118]); (87, [119]); (88, [120]); (89, [121]);
  (90, [122]); (192, [224]); (193, [225]); (194, [226]); (195, [227]);
  (196, [228]); (197, [229]); (198, [230]); (199, [231]); (200, [232]);
  (201, [233]); (202, [234]); (203, [235]); (204, [236]); (205, [237]);
  (206, [238]); (207, [239]); (208, [240]); (209, [241]); (210, [242]);
  (211, [243]); (212, [244]); (213, [245]); (214, [246]); (216, [248]);
  (217, [249]); (218, [250]); (219, [251]); (220, [252]); (221, [253]);
  (222, [254]); (256, [257]); (258, [259]); (260, [261]); (262, [263]);
  (264, [265]); (266, [267]); (268, [269]); (270, [271]); (272, [273]);
  (274, [275]); (276, [277]); (278, [279]); (280, [281]); (282, [283]);
  (284, [285]); (286, [287]); (288, [289]); (290, [291]); (292, [293]);
  (294, [295]); (296, [297]); (298, [299]); (300, [301]); (302, [303]);
  (304, [105; 775]); (306, [307]); (308, [309]); (310, [311]); (313, [314]);
  (315, [316]); (317, [318]); (319, [320]); (321, [322]); (323, [324]);
  (325, [326]); (327, [328]); (330, [331]); (332, [333]); (334, [335]);
  (336, [337]); (338, [339]); (340, [341]); (342, [343]); (344, [345]);
  (346, [347]); (348, [349]); (350, [351]); (352, [353]); (354, [355]);
  (356, [357]); (358, [359]); (360, [361]); (362, [363]); (364, [365]);
  (366, [367]); (368, [369]); (370, [371]); (372, [373]); (374, [375]);
  (376, [255]); (377, [378]); (379, [380]); (381, [382]); (385, [595]);
  (386, [387]); (388, [389]); (390, [596]); (391, [392]); (393, [598]);
  (394, [599]); (395, [396]); (398, [477]); (399, [601]); (400, [603]);
  (401, [402]); (403, [608]); (404, [611]); (406, [617]); (407, [616]);
  (408, [409]); (412, [623]); (413, [626]); (415, [629]); (416, [417]);
  (418, [419]); (420, [421]); (422, [640]); (423, [424]); (425, [643]);
  (428, [429]); (430, [648]); (431, [432]); (433, [650]); (434, [651]);
  (435, [436]); (437, [438]); (439, [658]); (440, [441]); (444, [445]);
  (452, [454]); (453, [454]); (455, [457]); (456, [457]); (458, [460]);
  (459, [460]); (461, [462]); (463, [464]); (465, [466]); (467, [468]);
  (469, [470]); (471, [472]); (473, [474]); (475, [476]); (478, [479]);
  (480, [481]); (482, [483]); (484, [485]); (486, [487]); (488, [489]);
  (490, [491]); (492, [493]); (494, [495]); (497, [499]); (498, [499]);
  (500, [501]); (502, [405]); (503, [447]); (504, [505]); (506, [507]);
  (508, [509]); (510, [511]); (512, [513]); (514, [515]); (516, [517]);
  (518, [519]); (520, [521]); (522, [523]); (524, [525]); (526, [527]);
  (528, [529]); (530, [531]); (532, [533]); (534, [535]); (536, [537]);
  (538, [539]); (540, [541]); (542, [543]); (544, [414]); (546, [547]);
  (548, [549]); (550, [551]); (552, [553]); (554, [555]); (556, [557]);
  (558, [559]); (560, [561]); (562, [563]); (570, [11365]); (571, [572]);
  (573, [410]); (574, [11366]); (577, [578]); (579, [384]); (580, [649]);
  (581, [652]); (582, [583]); (584, [585]); (586, [587]); (588, [589]);
  (590, [591]); (880, [881]); (882, [883]); (886, [887]); (895, [1011]);
  (902, [940]); (904, [941]); (905, [942]); (906, [943]); (908, [972]);
  (910, [973]); (911, [974]); (913, [945]); (914, [946]); (915, [947]);
  (916, [948]); (917, [949]); (918, [950]); (919, [951]); (920, [952]);
  (921, [953]); (922, [954]); (923, [955]); (924, [956]); (925, [957]);
  (926, [958]); (927, [959]); (928, [960]); (929, [961]); (931, [963]);
  (932, [964]); (933, [965]); (934, [966]); (935, [967]); (936, [968]);
  (937, [969]); (938, [970]); (939, [971]); (975, [983]); (984, [985]);
  (986, [987]); (988, [989]); (990, [991]); (992, [993]); (994, [995]);
  (996, [997]); (998, [999]); (1000, [1001]); (1002, [1003]); (1004, [1005]);
  (1006, [1007]); (1012, [952]); (1015, [1016]); (1017, [1010]); (1018, [1019]);
  (1021, [891]); (1022, [892]); (1023, [893]); (1024, [1104]); (1025, [1105]);
  (1026, [1106]); (1027, [1107]); (1028, [1108]); (1029, [1109]); (1030, [1110]);
  (1031, [1111]); (1032, [1112]); (1033, [1113]); (1034, [1114]); (1035, [1115]);
  (1036, [1116]); (1037, [1117]); (1038, [1118]); (1039, [1119]); (1040, [1072]);
  (1041, [1073]); (1042, [1074]); (1043, [1075]); (1044, [1076]); (1045, [1077]);
  (1046, [1078]); (1047, [1079]); (1048, [1080]); (1049, [1081]); (1050, [1082]);
  (1051, [1083]); (1052, [1084]); (1053, [1085]); (1054, [1086]); (1055, [1087]);
  (1056, [1088]); (1057, [1089]); (1058, [1090]); (1059, [1091]); (1060, [1092]);
  (1061, [1093]); (1062, [1094]); (1063, [1095]); (1064, [1096]); (1065, [1097]);
  (1066, [1098]); (1067, [1099]); (1068, [1100]); (1069, [1101]); (1070, [1102]);
  (1071, [1103]); (1120, [1121]); (1122, [1123]); (1124, [1125]); (1126, [1127]);
  (1128, [1129]); (1130, [1131]); (1132, [1133]); (1134, [1135]); (1136, [1137]);
  (1138, [1139]); (1140, [1141]); (1142, [1143]); (1144, [1145]); (1146, [1147]);
  (1148, [1149]); (1150, [1151]); (1152, [1153]); (1162, [1163]); (1164, [1165]);
  (1166, [1167]); (1168, [1169]); (1170, [1171]); (1172, [1173]); (1174, [1175]);
  (1176, [1177]); (1178, [1179]); (1180, [1181]); (1182, [1183]); (1184, [1185]);
  (1186, [1187]); (1188, [1189]); (1190, [1191]); (1192, [1193]); (1194, [1195]);
  (1196, [1197]); (1198, [1199]); (1200, [1201]); (1202, [1203]); (1204, [1205]);
  (1206, [1207]); (1208, [1209]); (1210, [1211]); (1212, [1213]); (1214, [1215]);
  (1216, [1231]); (1217, [1218]); (1219, [1220]); (1221, [1222]); (1223, [1224]);
  (1225, [1226]); (1227, [1228]); (1229, [1230]); (1232, [1233]); (1234, [1235]);
  (1236, [1237]); (1238, [1239]); (1240, [1241]); (1242, [1243]); (1244, [1245]);
  (1246, [1247]); (1248, [1249]); (1250, [1251]); (1252, [1253]); (1254, [1255]);
  (1256, [1257]); (1258, [1259]); (1260, [1261]); (1262, [1263]); (1264, [1265]);
  (1266, [1267]); (1268, [1269]); (1270, [1271]); (1272, [1273]); (1274, [1275]);
  (1276, [1277]); (1278, [1279]); (1280, [1281]); (1282, [1283]); (1284, [1285]);
  (1286, [1287]); (1288, [1289]); (1290, [1291]); (1292, [1293]); (1294, [1295]);
  (1296, [1297]); (1298, [1299]); (1300, [1301]); (1302, [1303]); (1304, [1305]);
  (1306, [1307]); (1308, [1309]); (1310, [1311]); (1312, [1313]); (1314, [1315]);
  (1316, [1317]); (1318, [1319]); (1320, [1321]); (1322, [1323]); (1324, [1325]);
  (1326, [1327]); (1329, [1377]); (1330, [1378]); (1331, [1379]); (1332, [1380]);
  (1333, [1381]); (1334, [1382]); (1335, [1383]); (1336, [1384]); (1337, [1385]);
  (1338, [1386]); (1339, [1387]); (1340, [1388]); (1341, [1389]); (1342, [1390]);
  (1343, [1391]); (1344, [1392]); (1345, [1393]); (1346, [1394]); (1347, [1395]);
  (1348, [1396]); (1349, [1397]); (1350, [1398]); (1351, [1399]); (1352, [1400]);
  (1353, [1401]); (1354, [1402]); (1355, [1403]); (1356, [1404]); (1357, [1405]);
  (1358, [1406]); (1359, [1407]); (1360, [1408]); (1361, [1409]); (1362, [1410]);
  (1363, [1411]); (1364, [1412]); (1365, [1413]); (1366, [1414]); (4256, [11520]);
  (4257, [11521]); (4258, [11522]); (4259, [11523]); (4260, [11524]); (4261, [11525]);
  (4262, [11526]); (4263, [11527]); (4264, [11528]); (4265, [11529]); (4266, [11530]);
  (4267, [11531]); (4268, [11532]); (4269, [11533]); (4270, [11534]); (4271, [11535]);
  (4272, [11536]); (4273, [11537]); (4274, [11538]); (4275, [11539]); (4276, [11540]);
  (4277, [11541]); (4278, [11542]); (4279, [11543]); (4280, [11544]); (4281, [11545]);
  (4282, [11546]); (4283, [11547]); (4284, [11548]); (4285, [11549]); (4286, [11550]);
  (4287, [11551]); (4288, [11552]); (4289, [11553]); (4290, [11554]); (4291, [11555]);
  (4292, [11556]); (4293, [11557]); (4295, [11559]); (4301, [11565]); (5024, [43888]);
  (5025, [43889]); (5026, [43890]); (5027, [43891]); (5028, [43892]); (5029, [43893]);
  (5030, [43894]); (5031, [43895]); (5032, [43896]); (5033, [43897]); (5034, [43898]);
  (5035, [43899]); (5036, [43900]); (5037, [43901]); (5038, [43902]); (5039, [43903]);
  (5040, [43904]); (5041, [43905]); (5042, [43906]); (5043, [43907]); (5044, [43908]);
  (5045, [43909]); (5046, [43910]); (5047, [43911]); (5048, [43912]); (5049, [43913]);
  (5050, [43914]); (5051, [43915]); (5052, [43916]); (5053, [43917]); (5054, [43918]);
  (5055, [43919]); (5056, [43920]); (5057, [43921]); (5058, [43922]); (5059, [43923]);
  (5060, [43924]); (5061, [43925]); (5062, [43926]); (5063, [43927]); (5064, [43928]);
  (5065, [43929]); (5066, [43930]); (5067, [43931]); (5068, [43932]); (5069, [43933]);
  (5070, [43934]); (5071, [43935]); (5072, [43936]); (5073, [43937]); (5074, [43938]);
  (5075, [43939]); (5076, [43940]); (5077, [43941]); (5078, [43942]); (5079, [43943]);
  (5080, [43944]); (5081, [43945]); (5082, [43946]); (5083, [43947]); (5084, [43948]);
  (5085, [43949]); (5086, [43950]); (5087, [43951]); (5088, [43952]); (5089, [43953]);
  (5090, [43954]); (5091, [43955]); (5092, [43956]); (5093, [43957]); (5094, [43958]);
  (5095, [43959]); (5096, [43960]); (5097, [43961]); (5098, [43962]); (5099, [43963]);
  (5100, [43964]); (5101, [43965]); (5102, [43966]); (5103, [43967]); (5104, [5112]);
  (5105, [5113]); (5106, [5114]); (5107, [5115]); (5108, [5116]); (5109, [5117]);
  (7312, [4304]); (7313, [4305]); (7314, [4306]); (7315, [4307]); (7316, [4308]);
  (7317, [4309]); (7318, [4310]); (7319, [4311]); (7320, [4312]); (7321, [4313]);
  (7322, [4314]); (7323, [4315]); (7324, [4316]); (7325, [4317]); (7326, [4318]);
  (7327, [4319]); (7328, [4320]); (7329, [4321]); (7330, [4322]); (7331, [4323]);
  (7332, [4324]); (7333, [4325]); (7334, [4326]); (7335, [4327]); (7336, [4328]);
  (7337, [4329]); (7338, [4330]); (7339, [4331]); (7340, [4332]); (7341, [4333]);
  (7342, [4334]); (7343, [4335]); (7344, [4336]); (7345, [4337]); (7346, [4338]);
  (7347, [4339]); (7348, [4340]); (7349, [4341]); (7350, [4342]); (7351, [4343]);
  (7352, [4344]); (7353, [4345]); (7354, [4346]); (7357, [4349]); (7358, [4350]);
  (7359, [4351]); (7680, [7681]); (7682, [7683]); (7684, [7685]); (7686, [7687]);
  (7688, [7689]); (7690, [7691]); (7692, [7693]); (7694, [7695]); (7696, [7697]);
  (7698, [7699]); (7700, [7701]); (7702, [7703]); (7704, [7705]); (7706, [7707]);
  (7708, [7709]); (7710, [7711]); (7712, [7713]); (7714, [7715]); (7716, [7717]);
  (7718, [7719]); (7720, [7721]); (7722, [7723]); (7724, [7725]); (7726, [7727]);
  (7728, [7729]); (7730, [7731]); (7732, [7733]); (7734, [7735]); (7736, [7737]);
  (7738, [7739]); (7740, [7741]); (7742, [7743]); (7744, [7745]); (7746, [7747]);
  (7748, [7749]); (7750, [7751]); (7752, [7753]); (7754, [7755]); (7756, [7757]);
  (7758, [7759]); (7760, [7761]); (7762, [7763]); (7764, [7765]); (7766, [7767]);
  (7768, [7769]); (7770, [7771]); (7772, [7773]); (7774, [7775]); (7776, [7777]);
  (7778, [7779]); (7780, [7781]); (7782, [7783]); (7784, [7785]); (7786, [7787]);
  (7788, [7789]); (7790, [7791]); (7792, [7793]); (7794, [7795]); (7796, [7797]);
  (7798, [7799]); (7800, [7801]); (7802, [7803]); (7804, [7805]); (7806, [7807]);
  (7808, [7809]); (7810, [7811]); (7812, [7813]); (7814, [7815]); (7816, [7817]);
  (7818, [7819]); (7820, [7821]); (7822, [7823]); (7824, [7825]); (7826, [7827]);
  (7828, [7829]); (7838, [223]); (7840, [7841]); (7842, [7843]); (7844, [7845]);
  (7846, [7847]); (7848, [7849]); (7850, [7851]); (7852, [7853]); (7854, [7855]);
  (7856, [7857]); (7858, [7859]); (7860, [7861]); (7862, [7863]); (7864, [7865]);
  (7866, [7867]); (7868, [7869]); (7870, [7871]); (7872, [7873]); (7874, [7875]);
  (7876, [7877]); (7878, [7879]); (7880, [7881]); (7882, [7883]); (7884, [7885]);
  (7886, [7887]); (7888, [7889]); (7890, [7891]); (7892, [7893]); (7894, [7895]);
  (7896, [7897]); (7898, [7899]); (7900, [7901]); (7902, [7903]); (7904, [7905]);
  (7906, [7907]); (7908, [7909]); (7910, [7911]); (7912, [7913]); (7914, [7915]);
  (7916, [7917]); (7918, [7919]); (7920, [7921]); (7922, [7923]); (7924, [7925]);
  (7926, [7927]); (7928, [7929]); (7930, [7931]); (7932, [7933]); (7934, [7935]);
  (7944, [7936]); (7945, [7937]); (7946, [7938]); (7947, [7939]); (7948, [7940]);
  (7949, [7941]); (7950, [7942]); (7951, [7943]); (7960, [7952]); (7961, [7953]);
  (7962, [7954]); (7963, [7955]); (7964, [7956]); (7965, [7957]); (7976, [7968]);
  (7977, [7969]); (7978, [7970]); (7979, [7971]); (7980, [7972]); (7981, [7973]);
  (7982, [7974]); (7983, [7975]); (7992, [7984]); (7993, [7985]); (7994, [7986]);
  (7995, [7987]); (7996, [7988]); (7997, [7989]); (7998, [7990]); (7999, [7991]);
  (8008, [8000]); (8009, [8001]); (8010, [8002]); (8011, [8003]); (8012, [8004]);
  (8013, [8005]); (8025, [8017]); (8027, [8019]); (8029, [8021]); (8031, [8023]);
  (8040, [8032]); (8041, [8033]); (8042, [8034]); (8043, [8035]); (8044, [8036]);
  (8045, [8037]); (8046, [8038]); (8047, [8039]); (8072, [8064]); (8073, [8065]);
  (8074, [8066]); (8075, [8067]); (8076, [8068]); (8077, [8069]); (8078, [8070]);
  (8079, [8071]); (8088, [8080]); (8089, [8081]); (8090, [8082]); (8091, [8083]);
  (8092, [8084]); (8093, [8085]); (8094, [8086]); (8095, [8087]); (8104, [8096]);
  (8105, [8097]); (8106, [8098]); (8107, [8099]); (8108, [8100]); (8109, [8101]);
  (8110, [8102]); (8111, [8103]); (8120, [8112]); (8121, [8113]); (8122, [8048]);
  (8123, [8049]); (8124, [8115]); (8136, [8050]); (8137, [8051]); (8138, [8052]);
  (8139, [8053]); (8140, [8131]); (8152, [8144]); (8153, [8145]); (8154, [8054]);
  (8155, [8055]); (8168, [8160]); (8169, [8161]); (8170, [8058]); (8171, [8059]);
  (8172, [8165]); (8184, [8056]); (8185, [8057]); (8186, [8060]); (8187, [8061]);
  (8188, [8179]); (8486, [969]); (8490, [107]); (8491, [229]); (8498, [8526]);
  (8544, [8560]); (8545, [8561]); (8546, [8562]); (8547, [8563]); (8548, [8564]);
  (8549, [8565]); (8550, [8566]); (8551, [8567]); (8552, [8568]); (8553, [8569]);
  (8554, [8570]); (8555, [8571]); (8556, [8572]); (8557, [8573]); (8558, [8574]);
  (8559, [8575]); (8579, [8580]); (9398, [9424]); (9399, [9425]); (9400, [9426]);
  (9401, [9427]); (9402, [9428]); (9403, [9429]); (9404, [9430]); (9405, [9431]);
  (9406, [9432]); (9407, [9433]); (9408, [9434]); (9409, [9435]); (9410, [9436]);
  (9411, [9437]); (9412, [9438]); (9413, [9439]); (9414, [9440]); (9415, [9441]);
  (9416, [9442]); (9417, [9443]); (9418, [9444]); (9419, [9445]); (9420, [9446]);
  (9421, [9447]); (9422, [9448]); (9423, [9449]); (11264, [11312]); (11265, [11313]);
  (11266, [11314]); (11267, [11315]); (11268, [11316]); (11269, [11317]); (11270, [11318]);
  (11271, [11319]); (11272, [11320]); (11273, [11321]); (11274, [11322]); (11275, [11323]);
  (11276, [11324]); (11277, [11325]); (11278, [11326]); (11279, [11327]); (11280, [11328]);
  (11281, [11329]); (11282, [11330]); (11283, [11331]); (11284, [11332]); (11285, [11333]);
  (11286, [11334]); (11287, [11335]); (11288, [11336]); (11289, [11337]); (11290, [11338]);
  (11291, [11339]); (11292, [11340]); (11293, [11341]); (11294, [11342]); (11295, [11343]);
  (11296, [11344]); (11297, [11345]); (11298, [11346]); (11299, [11347]); (11300, [11348]);
  (11301, [11349]); (11302, [11350]); (11303, [11351]); (11304, [11352]); (11305, [11353]);
  (11306, [11354]); (11307, [11355]); (11308, [11356]); (11309, [11357]); (11310, [11358]);
  (11311, [11359]); (11360, [11361]); (11362, [619]); (11363, [7549]); (11364, [637]);
  (11367, [11368]); (11369, [11370]); (11371, [11372]); (11373, [593]); (11374, [625]);
  (11375, [592]); (11376, [594]); (11378, [11379]); (11381, [11382]); (11390, [575]);
  (11391, [576]); (11392, [11393]); (11394, [11395]); (11396, [11397]); (11398, [11399]);
  (11400, [11401]); (11402, [11403]); (11404, [11405]); (11406, [11407]); (11408, [11409]);
  (11410, [11411]); (11412, [11413]); (11414, [11415]); (11416, [11417]); (11418, [11419]);
  (11420, [11421]); (11422, [11423]); (11424, [11425]); (11426, [11427]); (11428, [11429]);
  (11430, [11431]); (11432, [11433]); (11434, [11435]); (11436, [11437]); (11438, [11439]);
  (11440, [11441]); (11442, [11443]); (11444, [11445]); (11446, [11447]); (11448, [11449]);
  (11450, [11451]); (11452, [11453]); (11454, [11455]); (11456, [11457]); (11458, [11459]);
  (11460, [11461]); (11462, [11463]); (11464, [11465]); (11466, [11467]); (11468, [11469]);
  (11470, [11471]); (11472, [11473]); (11474, [11475]); (11476, [11477]); (11478, [11479]);
  (11480, [11481]); (11482, [11483]); (11484, [11485]); (11486, [11487]); (11488, [11489]);
  (11490, [11491]); (11499, [11500]); (11501, [11502]); (11506, [11507]); (42560, [42561]);
  (42562, [42563]); (42564, [42565]); (42566, [42567]); (42568, [42569]); (42570, [42571]);
  (42572, [42573]); (42574, [42575]); (42576, [42577]); (42578, [42579]); (42580, [42581]);
  (42582, [42583]); (42584, [42585]); (42586, [42587]); (42588, [42589]); (42590, [42591]);
  (42592, [42593]); (42594, [42595]); (42596, [42597]); (42598, [42599]); (42600, [42601]);
  (42602, [42603]); (42604, [42605]); (42624, [42625]); (42626, [42627]); (42628, [42629]);
  (42630, [42631]); (42632, [42633]); (42634, [42635]); (42636, [42637]); (42638, [42639]);
  (42640, [42641]); (42642, [42643]); (42644, [42645]); (42646, [42647]); (42648, [42649]);
  (42650, [42651]); (42786, [42787]); (42788, [42789]); (42790, [42791]); (42792, [42793]);
  (42794, [42795]); (42796, [42797]); (42798, [42799]); (42802, [42803]); (42804, [42805]);
  (42806, [42807]); (42808, [42809]); (42810, [42811]); (42812, [42813]); (42814, [42815]);
  (42816, [42817]); (42818, [42819]); (42820, [42821]); (42822, [42823]); (42824, [42825]);
  (42826, [42827]); (42828, [42829]); (42830, [42831]); (42832, [42833]); (42834, [42835]);
  (42836, [42837]); (42838, [42839]); (42840, [42841]); (42842, [42843]); (42844, [42845]);
  (42846, [42847]); (42848, [42849]); (42850, [42851]); (42852, [42853]); (42854, [42855]);
  (42856, [42857]); (42858, [42859]); (42860, [42861]); (42862, [42863]); (42873, [42874]);
  (42875, [42876]); (42877, [7545]); (42878, [42879]); (42880, [42881]); (42882, [42883]);
  (42884, [42885]); (42886, [42887]); (42891, [42892]); (42893, [613]); (42896, [42897]);
  (42898, [42899]); (42902, [42903]); (42904, [42905]); (42906, [42907]); (42908, [42909]);
  (42910, [42911]); (42912, [42913]); (42914, [42915]); (42916, [42917]); (42918, [42919]);
  (42920, [42921]); (42922, [614]); (42923, [604]); (42924, [609]); (42925, [620]);
  (42926, [618]); (42928, [670]); (42929, [647]); (42930, [669]); (42931, [43859]);
  (42932, [42933]); (42934, [42935]); (42936, [42937]); (42938, [42939]); (42940, [42941]);
  (42942, [42943]); (42944, [42945]); (42946, [42947]); (42948, [42900]); (42949, [642]);
  (42950, [7566]); (42951, [42952]); (42953, [42954]); (42960, [42961]); (42966, [42967]);
  (42968, [42969]); (42997, [42998]); (65313, [65345]); (65314, [65346]); (65315, [65347]);
  (65316, [65348]); (65317, [65349]); (65318, [65350]); (65319, [65351]); (65320, [65352]);
  (65321, [65353]); (65322, [65354]); (65323, [65355]); (65324, [65356]); (65325, [65357]);
  (65326, [65358]); (65327, [65359]); (65328, [65360]); (65329, [65361]); (65330, [65362]);
  (65331, [65363]); (65332, [65364]); (65333, [65365]); (65334, [65366]); (65335, [65367]);
  (65336, [65368]); (65337, [65369]); (65338, [65370]); (66560, [66600]); (66561, [66601]);
  (66562, [66602]); (66563, [66603]); (66564, [66604]); (66565, [66605]); (66566, [66606]);
  (66567, [66607]); (66568, [66608]); (66569, [66609]); (66570, [66610]); (66571, [66611]);
  (66572, [66612]); (66573, [66613]); (66574, [66614]); (66575, [66615]); (66576, [66616]);
  (66577, [66617]); (66578, [66618]); (66579, [66619]); (66580, [66620]); (66581, [66621]);
  (66582, [66622]); (66583, [66623]); (66584, [66624]); (66585, [66625]); (66586, [66626]);
  (66587, [66627]); (66588, [66628]); (66589, [66629]); (66590, [66630]); (66591, [66631]);
  (66592, [66632]); (66593, [66633]); (66594, [66634]); (66595, [66635]); (66596, [66636]);
  (66597, [66637]); (66598, [66638]); (66599, [66639]); (66736, [66776]); (66737, [66777]);
  (66738, [66778]); (66739, [66779]); (66740, [66780]); (66741, [66781]); (66742, [66782]);
  (66743, [66783]); (66744, [66784]); (66745, [66785]); (66746, [66786]); (66747, [66787]);
  (66748, [66788]); (66749, [66789]); (66750, [66790]); (66751, [66791]); (66752, [66792]);
  (66753, [66793]); (66754, [66794]); (66755, [66795]); (66756, [66796]); (66757, [66797]);
  (66758, [66798]); (66759, [66799]); (66760, [66800]); (66761, [66801]); (66762, [66802]);
  (66763, [66803]); (66764, [66804]); (66765, [66805]); (66766, [66806]); (66767, [66807]);
  (66768, [66808]); (66769, [66809]); (66770, [66810]); (66771, [66811]); (66928, [66967]);
  (66929, [66968]); (66930, [66969]); (66931, [66970]); (66932, [66971]); (66933, [66972]);
  (66934, [66973]); (66935, [66974]); (66936, [66975]); (66937, [66976]); (66938, [66977]);
  (66940, [66979]); (66941, [66980]); (66942, [66981]); (66943, [66982]); (66944, [66983]);
  (66945, [66984]); (66946, [66985]); (66947, [66986]); (66948, [66987]); (66949, [66988]);
  (66950, [66989]); (66951, [66990]); (66952, [66991]); (66953, [66992]); (66954, [66993]);
  (66956, [66995]); (66957, [66996]); (66958, [66997]); (66959, [66998]); (66960, [66999]);
  (66961, [67000]); (66962, [67001]); (66964, [67003]); (66965, [67004]); (68736, [68800]);
  (68737, [68801]); (68738, [68802]); (68739, [68803]); (68740, [68804]); (68741, [68805]);
  (68742, [68806]); (68743, [68807]); (68744, [68808]); (68745, [68809]); (68746, [68810]);
  (68747, [68811]); (68748, [68812]); (68749, [68813]); (68750, [68814]); (68751, [68815]);
  (68752, [68816]); (68753, [68817]); (68754, [68818]); (68755, [68819]); (68756, [68820]);
  (68757, [68821]); (68758, [68822]); (68759, [68823]); (68760, [68824]); (68761, [68825]);
  (68762, [68826]); (68763, [68827]); (68764, [68828]); (68765, [68829]); (68766, [68830]);
  (68767, [68831]); (68768, [68832]); (68769, [68833]); (68770, [68834]); (68771, [68835]);
  (68772, [68836]); (68773, [68837]); (68774, [68838]); (68775, [68839]); (68776, [68840]);
  (68777, [68841]); (68778, [68842]); (68779, [68843]); (68780, [68844]); (68781, [68845]);
  (68782, [68846]); (68783, [68847]); (68784, [68848]); (68785, [68849]); (68786, [68850]);
  (71840, [71872]); (71841, [71873]); (71842, [71874]); (71843, [71875]); (71844, [71876]);
  (71845, [71877]); (71846, [71878]); (71847, [71879]); (71848, [71880]); (71849, [71881]);
  (71850, [71882]); (71851, [71883]); (71852, [71884]); (71853, [71885]); (71854, [71886]);
  (71855, [71887]); (71856, [71888]); (71857, [71889]); (71858, [71890]); (71859, [71891]);
  (71860, [71892]); (71861, [71893]); (71862, [71894]); (71863, [71895]); (71864, [71896]);
  (71865, [71897]); (71866, [71898]); (71867, [71899]); (71868, [71900]); (71869, [71901]);
  (71870, [71902]); (71871, [71903]); (93760, [93792]); (93761, [93793]); (93762, [93794]);
  (93763, [93795]); (93764, [93796]); (93765, [93797]); (93766, [93798]); (93767, [93799]);
  (93768, [93800]); (93769, [93801]); (93770, [93802]); (93771, [93803]); (93772, [93804]);
  (93773, [93805]); (93774, [93806]); (93775, [93807]); (93776, [93808]); (93777, [93809]);
  (93778, [93810]); (93779, [93811]); (93780, [93812]); (93781, [93813]); (93782, [93814]);
  (93783, [93815]); (93784, [93816]); (93785, [93817]); (93786, [93818]); (93787, [93819]);
  (93788, [93820]); (93789, [93821]); (93790, [93822]); (93791, [93823]); (125184, [125218]);
  (125185, [125219]); (125186, [125220]); (125187, [125221]); (125188, [125222]); (125189, [125223]);
  (125190, [125224]); (125191, [125225]); (125192, [125226]); (125193, [125227]); (125194, [125228]);
  (125195, [125229]); (125196, [125230]); (125197, [125231]); (125198, [125232]); (125199, [125233]);
  (125200, [125234]); (125201, [125235]); (125202, [125236]); (125203, [125237]); (125204, [125238]);
  (125205, [125239]); (125206, [125240]); (125207, [125241]); (125208, [125242]); (125209, [125243]);
  (125210, [125244]); (125211, [125245]); (125212, [125246]); (125213, [125247]); (125214, [125248]);
  (125215, [125249]); (125216, [125250]); (125217, [125251])].

(** The case-ignorable code points, as closed ranges. *)
Definition case_ignorable_ranges : list (N * N) :=
  [
  (39, 39); (46, 46); (58, 58); (94, 94); (96, 96); (168, 168);
  (173, 173); (175, 175); (180, 180); (183, 184); (688, 879); (884, 885);
  (890, 890); (900, 901); (903, 903); (1155, 1161); (1369, 1369); (1375, 1375);
  (1425, 1469); (1471, 1471); (1473, 1474); (1476, 1477); (1479, 1479); (1524, 1524);
  (1536, 1541); (1552, 1562); (1564, 1564); (1600, 1600); (1611, 1631); (1648, 1648);
  (1750, 1757); (1759, 1768); (1770, 1773); (1807, 1807); (1809, 1809); (1840, 1866);
  (1958, 1968); (2027, 2037); (2042, 2042); (2045, 2045); (2070, 2093); (2137, 2139);
  (2184, 2184); (2192, 2193); (2200, 2207); (2249, 2306); (2362, 2362); (2364, 2364);
  (2369, 2376); (2381, 2381); (2385, 2391); (2402, 2403); (2417, 2417); (2433, 2433);
  (2492, 2492); (2497, 2500); (2509, 2509); (2530, 2531); (2558, 2558); (2561, 2562);
  (2620, 2620); (2625, 2626); (2631, 2632); (2635, 2637); (2641, 2641); (2672, 2673);
  (2677, 2677); (2689, 2690); (2748, 2748); (2753, 2757); (2759, 2760); (2765, 2765);
  (2786, 2787); (2810, 2815); (2817, 2817); (2876, 2876); (2879, 2879); (2881, 2884);
  (2893, 2893); (2901, 2902); (2914, 2915); (2946, 2946); (3008, 3008); (3021, 3021);
  (3072, 3072); (3076, 3076); (3132, 3132); (3134, 3136); (3142, 3144); (3146, 3149);
  (3157, 3158); (3170, 3171); (3201, 3201); (3260, 3260); (3263, 3263); (3270, 3270);
  (3276, 3277); (3298, 3299); (3328, 3329); (3387, 3388); (3393, 3396); (3405, 3405);
  (3426, 3427); (3457, 3457); (3530, 3530); (3538, 3540); (3542, 3542); (3633, 3633);
  (3636, 3642); (3654, 3662); (3761, 3761); (3764, 3772); (3782, 3782); (3784, 3789);
  (3864, 3865); (3893, 3893); (3895, 3895); (3897, 3897); (3953, 3966); (3968, 3972);
  (3974, 3975); (3981, 3991); (3993, 4028); (4038, 4038); (4141, 4144); (4146, 4151);
  (4153, 4154); (4157, 4158); (4184, 4185); (4190, 4192); (4209, 4212); (4226, 4226);
  (4229, 4230); (4237, 4237); (4253, 4253); (4348, 4348); (4957, 4959); (5906, 5908);
  (5938, 5939); (5970, 5971); (6002, 6003); (6068, 6069); (6071, 6077); (6086, 6086);
  (6089, 6099); (6103, 6103); (6109, 6109); (6155, 6159); (6211, 6211); (6277, 6278);
  (6313, 6313); (6432, 6434); (6439, 6440); (6450, 6450); (6457, 6459); (6679, 6680);
  (6683, 6683); (6742, 6742); (6744, 6750); (6752, 6752); (6754, 6754); (6757, 6764);
  (6771, 6780); (6783, 6783); (6823, 6823); (6832, 6862); (6912, 6915); (6964, 6964);
  (6966, 6970); (6972, 6972); (6978, 6978); (7019, 7027); (7040, 7041); (7074, 7077);
  (7080, 7081); (7083, 7085); (7142, 7142); (7144, 7145); (7149, 7149); (7151, 7153);
  (7212, 7219); (7222, 7223); (7288, 7293); (7376, 7378); (7380, 7392); (7394, 7400);
  (7405, 7405); (7412, 7412); (7416, 7417); (7468, 7530); (7544, 7544); (7579, 7679);
  (8125, 8125); (8127, 8129); (8141, 8143); (8157, 8159); (8173, 8175); (8189, 8190);
  (8203, 8207); (8216, 8217); (8228, 8228); (8231, 8231); (8234, 8238); (8288, 8292);
  (8294, 8303); (8305, 8305); (8319, 8319); (8336, 8348); (8400, 8432); (11388, 11389);
  (11503, 11505); (11631, 11631); (11647, 11647); (11744, 11775); (11823, 11823); (12293, 12293);
  (12330, 12333); (12337, 12341); (12347, 12347); (12441, 12446); (12540, 12542); (40981, 40981);
  (42232, 42237); (42508, 42508); (42607, 42610); (42612, 42621); (42623, 42623); (42652, 42655);
  (42736, 42737); (42752, 42785); (42864, 42864); (42888, 42890); (42994, 42996); (43000, 43001);
  (43010, 43010); (43014, 43014); (43019, 43019); (43045, 43046); (43052, 43052); (43204, 43205);
  (43232, 43249); (43263, 43263); (43302, 43309); (43335, 43345); (43392, 43394); (43443, 43443);
  (43446, 43449); (43452, 43453); (43471, 43471); (43493, 43494); (43561, 43566); (43569, 43570);
  (43573, 43574); (43587, 43587); (43596, 43596); (43632, 43632); (43644, 43644); (43696, 43696);
  (43698, 43700); (43703, 43704); (43710, 43711); (43713, 43713); (43741, 43741); (43756, 43757);
  (43763, 43764); (43766, 43766); (43867, 43871); (43881, 43883); (44005, 44005); (44008, 44008);
  (44013, 44013); (64286, 64286); (64434, 64450); (65024, 65039); (65043, 65043); (65056, 65071);
  (65106, 65106); (65109, 65109); (65279, 65279); (65287, 65287); (65294, 65294); (65306, 65306);
  (65342, 65342); (65344, 65344); (65392, 65392); (65438, 65439); (65507, 65507); (65529, 65531);
  (66045, 66045); (66272, 66272); (66422, 66426); (67456, 67461); (67463, 67504); (67506, 67514);
  (68097, 68099); (68101, 68102); (68108, 68111); (68152, 68154); (68159, 68159); (68325, 68326);
  (68900, 68903); (69291, 69292); (69446, 69456); (69506, 69509); (69633, 69633); (69688, 69702);
  (69744, 69744); (69747, 69748); (69759, 69761); (69811, 69814); (69817, 69818); (69821, 69821);
  (69826, 69826); (69837, 69837); (69888, 69890); (69927, 69931); (69933, 69940); (70003, 70003);
  (70016, 70017); (70070, 70078); (70089, 70092); (70095, 70095); (70191, 70193); (70196, 70196);
  (70198, 70199); (70206, 70206); (70367, 70367); (70371, 70378); (70400, 70401); (70459, 70460);
  (70464, 70464); (70502, 70508); (70512, 70516); (70712, 70719); (70722, 70724); (70726, 70726);
  (70750, 70750); (70835, 70840); (70842, 70842); (70847, 70848); (70850, 70851); (71090, 71093);
  (71100, 71101); (71103, 71104); (71132, 71133); (71219, 71226); (71229, 71229); (71231, 71232);
  (71339, 71339); (71341, 71341); (71344, 71349); (71351, 71351); (71453, 71455); (71458, 71461);
  (71463, 71467); (71727, 71735); (71737, 71738); (71995, 71996); (71998, 71998); (72003, 72003);
  (72148, 72151); (72154, 72155); (72160, 72160); (72193, 72202); (72243, 72248); (72251, 72254);
  (72263, 72263); (72273, 72278); (72281, 72283); (72330, 72342); (72344, 72345); (72752, 72758);
  (72760, 72765); (72767, 72767); (72850, 72871); (72874, 72880); (72882, 72883); (72885, 72886);
  (73009, 73014); (73018, 73018); (73020, 73021); (73023, 73029); (73031, 73031); (73104, 73105);
  (73109, 73109); (73111, 73111); (73459, 73460); (78896, 78904); (92912, 92916); (92976, 92982);
  (92992, 92995); (94031, 94031); (94095, 94111); (94176, 94177); (94179, 94180); (110576, 110579);
  (110581, 110587); (110589, 110590); (113821, 113822); (113824, 113827); (118528, 118573); (118576, 118598);
  (119143, 119145); (119155, 119170); (119173, 119179); (119210, 119213); (119362, 119364); (121344, 121398);
  (121403, 121452); (121461, 121461); (121476, 121476); (121499, 121503); (121505, 121519); (122880, 122886);
  (122888, 122904); (122907, 122913); (122915, 122916); (122918, 122922); (123184, 123197); (123566, 123566);
  (123628, 123631); (125136, 125142); (125252, 125259); (127995, 127999); (917505, 917505); (917536, 917631);
  (917760, 917999)].

(** The cased code points that are not case-ignorable, as closed ranges. *)
Definition cased_ranges : list (N * N) :=
  [
  (65, 90); (97, 122); (170, 170); (181, 181); (186, 186); (192, 214);
  (216, 246); (248, 442); (444, 447); (452, 659); (661, 687); (880, 883);
  (886, 887); (891, 893); (895, 895); (902, 902); (904, 906); (908, 908);
  (910, 929); (931, 1013); (1015, 1153); (1162, 1327); (1329, 1366); (1376, 1416);
  (4256, 4293); (4295, 4295); (4301, 4301); (4304, 4346); (4349, 4351); (5024, 5109);
  (5112, 5117); (7296, 7304); (7312, 7354); (7357, 7359); (7424, 7467); (7531, 7543);
  (7545, 7578); (7680, 7957); (7960, 7965); (7968, 8005); (8008, 8013); (8016, 8023);
  (8025, 8025); (8027, 8027); (8029, 8029); (8031, 8061); (8064, 8116); (8118, 8124);
  (8126, 8126); (8130, 8132); (8134, 8140); (8144, 8147); (8150, 8155); (8160, 8172);
  (8178, 8180); (8182, 8188); (8450, 8450); (8455, 8455); (8458, 8467); (8469, 8469);
  (8473, 8477); (8484, 8484); (8486, 8486); (8488, 8488); (8490, 8493); (8495, 8500);
  (8505, 8505); (8508, 8511); (8517, 8521); (8526, 8526); (8544, 8575); (8579, 8580);
  (9398, 9449); (11264, 11387); (11390, 11492); (11499, 11502); (11506, 11507); (11520, 11557);
  (11559, 11559); (11565, 11565); (42560, 42605); (42624, 42651); (42786, 42863); (42865, 42887);
  (42891, 42894); (42896, 42954); (42960, 42961); (42963, 42963); (42965, 42969); (42997, 42998);
  (43002, 43002); (43824, 43866); (43872, 43880); (43888, 43967); (64256, 64262); (64275, 64279);
  (65313, 65338); (65345, 65370); (66560, 66639); (66736, 66771); (66776, 66811); (66928, 66938);
  (66940, 66954); (66956, 66962); (66964, 66965); (66967, 66977); (66979, 66993); (66995, 67001);
  (67003, 67004); (68736, 68786); (68800, 68850); (71840, 71903); (93760, 93823); (119808, 119892);
  (119894, 119964); (119966, 119967); (119970, 119970); (119973, 119974); (119977, 119980); (119982, 119993);
  (119995, 119995); (119997, 120003); (120005, 120069); (120071, 120074); (120077, 120084); (120086, 120092);
  (120094, 120121); (120123, 120126); (120128, 120132); (120134, 120134); (120138, 120144); (120146, 120485);
  (120488, 120512); (120514, 120538); (120540, 120570); (120572, 120596); (120598, 120628); (120630, 120654);
  (120656, 120686); (120688, 120712); (120714, 120744); (120746, 120770); (120772, 120779); (122624, 122633);
  (122635, 122654); (125184, 125251); (127280, 127305); (127312, 127337); (127344, 127369)].

Definition mem (c : N) (l : list N) : bool := existsb (N.eqb c) l.

Definition in_ranges (c : N) (ranges : list (N * N)) : bool :=
  existsb (λ r, (fst r <=? c) && (c <=? snd r)) ranges.

Fixpoint assoc (c : N) (table : list (N * list N)) : option (list N) :=
  match table with
  | [] => None
  | (k, v) :: table' => if N.eqb c k then Some v else assoc c table'
  end.

(** [str.isspace] on one character. *)
Definition is_space (c : N) : bool := mem c whitespace.

(** What [str.upper] and [str.lower] put in the place of one character;
    capital sigma is left to [lower]. *)
Definition upper_char (c : N) : list N :=
  match assoc c upper_table with Some l => l | None => [c] end.

Definition lower_char (c : N) : list N :=
  match assoc c lower_table with Some l => l | None => [c] end.

Definition case_ignorable (c : N) : bool := in_ranges c case_ignorable_ranges.
Definition cased (c : N) : bool := in_ranges c cased_ranges.

(** [a == b] on strings *)
Fixpoint eqb (a b : list N) : bool :=
  match a, b with
  | [], [] => true
  | x :: a', y :: b' => N.eqb x y && eqb a' b'
  | _, _ => false
  end.

(** [s.upper()] *)
Fixpoint upper (s : list N) : list N :=
  match s with
  | [] => []
  | c :: s' => upper_char c ++ upper s'
  end.

(** Whether the first character of [s] that is not case-ignorable is
    cased. *)
Fixpoint followed_by_cased (s : list N) : bool :=
  match s with
  | [] => false
  | c :: s' => if case_ignorable c then followed_by_cased s' else cased c
  end.

(** [s.lower()].  A capital sigma (931) becomes the final sigma (962) when a
    cased character comes before it and none comes after it, case-ignorable
    characters skipped, and the small sigma (963) otherwise.  [after_cased]
    tells whether the last character read that is not case-ignorable was
    cased. *)
Fixpoint lower_from (after_cased : bool) (s : list N) : list N :=
  match s with
  | [] => []
  | c :: s' =>
      (if N.eqb c 931
       then [if after_cased && negb (followed_by_cased s') then 962 else 963]
       else lower_char c)
      ++ lower_from (if case_ignorable c then after_cased else cased c) s'
  end.

Definition lower (s : list N) : list N := lower_from false s.

(** [s.lstrip()], [s.rstrip()], [s.strip()] *)
Fixpoint lstrip (s : list N) : list N :=
  match s with
  | [] => []
  | c :: s' => if is_space c then lstrip s' else s
  end.

Fixpoint rstrip (s : list N) : list N :=
  match s with
  | [] => []
  | c :: s' =>
      match rstrip s' with
      | [] => if is_space c then [] else [c]
      | r => c :: r
      end
  end.

Definition strip (s : list N) : list N := lstrip (rstrip s).

(** [s.startswith(p)] *)
Fixpoint startswith (p s : list N) : bool :=
  match p, s with
  | [], _ => true
  | a :: p', b :: s' => if N.eqb a b then startswith p' s' else false
  | _ :: _, [] => false
  end.

(** [s.split()]: the maximal runs of non-whitespace characters.  [tok] is
    the run being read. *)
Fixpoint split_from (tok : list N) (s : list N) : list (list N) :=
  match s with
  | [] => if eqb tok [] then [] else [tok]
  | c :: s' =>
      if is_space c
      then (if eqb tok [] then split_from [] s' else tok :: split_from [] s')
      else split_from (tok ++ [c]) s'
  end.

Definition split (s : list N) : list (list N) := split_from [] s.

(** [s.split(':', 1)] when it yields two parts: the text before the first
    colon and the text after it; [None] when [s] has no colon (the list
    has one element, and unpacking it into two names raises). *)
Fixpoint split_colon (s : list N) : option (list N * list N) :=
  match s with
  | [] => None
  | c :: s' =>
      if N.eqb c 58 then Some ([], s')
      else match split_colon s' with
           | Some (k, v) => Some (c :: k, v)
           | None => None
           end
  end.

(** The value of a decimal digit of any script. *)
Fixpoint digit_in (c : N) (zeros : list N) : option Z :=
  match zeros with
  | [] => None
  | z :: zeros' =>
      if (z <=? c) && (c <=? z + 9) then Some (Z.of_N (c - z)) else digit_in c zeros'
  end.

Definition digit_val (c : N) : option Z := digit_in c digit_zeros.

(** The whitespace that [int] skips around a number: TAB, LF, VT, FF, CR
    and the space, and the whitespace beyond ASCII; not the separators FS,
    GS, RS and US. *)
Definition int_space (c : N) : bool :=
  ((9 <=? c) && (c <=? 13)) || N.eqb c 32 || ((127 <=? c) && is_space c).

Fixpoint int_lstrip (s : list N) : list N :=
  match s with
  | [] => []
  | c :: s' => if int_space c then int_lstrip s' else s
  end.

Fixpoint int_rstrip (s : list N) : list N :=
  match s with
  | [] => []
  | c :: s' =>
      match int_rstrip s' with
      | [] => if int_space c then [] else [c]
      | r => c :: r
      end
  end.

(** The digits of a decimal literal; single underscores may separate
    digits.  [prev] tells whether the previous character was a digit,
    [count] is the number of digits read. *)
Fixpoint digits_from (acc : Z) (count : nat) (prev : bool) (s : list N)
  : option (Z * nat) :=
  match s with
  | [] => if prev then Some (acc, count) else None
  | c :: s' =>
      match digit_val c with
      | Some d => digits_from (10 * acc + d)%Z (S count) true s'
      | None =>
          if N.eqb c 95 && prev then digits_from acc count false s' else None
      end
  end.

(** The most digits that [int] converts ([sys.int_info.default_max_str_digits]). *)
Definition max_str_digits : nat := 4300.

Definition magnitude (s : list N) : option Z :=
  match digits_from 0%Z 0%nat false s with
  | Some (n, count) => if (count <=? max_str_digits)%nat then Some n else None
  | None => None
  end.

(** [int(s)] in base ten: surrounding whitespace, an optional sign, then
    digits.  [None] stands for the [ValueError]. *)
Definition int (s : list N) : option Z :=
  match int_lstrip (int_rstrip s) with
  | 45 :: d => Z.opp <$> magnitude d
  | 43 :: d => magnitude d
  | d => magnitude d
  end.

End PyStr.

(** A Python [str]: the list of its code points. *)
Abbreviation str := (list N).

(** ** Values, requests and the world *)

(** A JSON-capable Python value as the payloads hold them.  A Python [float]
    is an IEEE 754 binary64 number. *)
Inductive json : Type :=
| JStr (s : str)
| JInt (n : Z)
| JFloat (x : spec_float).

(** One call into [requests]: [requests.post(url, json=payload, headers=h)]
    or [requests.get(url)]. *)
Inductive request : Type :=
| Post (url : str) (payload : gmap str json) (headers : gmap str str)
| Get (url : str).

(** What a call into [requests] gives back: a response object, of which the
    source reads [status_code] and [text], or an exception (no connection, a
    payload that cannot be encoded, ...). *)
Inductive reply : Type :=
| Response (status_code : Z) (text : str)
| Failure.

(** The exceptions of the model. *)
Inductive exn : Type := IndexError | ValueError | RequestException.

(** [fs]: the regular files and their contents; [out]: the lines printed so
    far, oldest first; [sent]: the calls into [requests] so far, oldest
    first; [resets]: how many times [reset_databases] was entered (ghost). *)
Record world : Type := World {
  fs : gmap str str;
  out : list str;
  sent : list request;
  resets : nat
}.

Definition set_fs (f : gmap str str → gmap str str) (w : world) : world :=
  World (f (fs w)) (out w) (sent w) (resets w).

(** The result of running a piece of code: it returns [a] or raises [e],
    each time in a new world. *)
Inductive outcome (A : Type) : Type :=
| Ok (a : A) (w : world)
| Raise (e : exn) (w : world).
Arguments Ok {A} a w.
Arguments Raise {A} e w.

Definition world_of {A} (o : outcome A) : world :=
  match o with Ok _ w => w | Raise _ w => w end.

Definition raises {A} (o : outcome A) : bool :=
  match o with Ok _ _ => false | Raise _ _ => true end.

Definition M (A : Type) : Type := world → outcome A.

Definition ret {A} (a : A) : M A := λ w, Ok a w.
Definition raise {A} (e : exn) : M A := λ w, Raise e w.
Definition bind {A B} (m : M A) (k : A → M B) : M B :=
  λ w, match m w with
       | Ok a w' => k a w'
       | Raise e w' => Raise e w'
       end.

(** [try: body except Exception as e: handler] *)
Definition try_except {A} (body : M A) (handler : exn → M A) : M A :=
  λ w, match body w with
       | Ok a w' => Ok a w'
       | Raise e w' => handler e w'
       end.

Declare Scope py_scope.
Delimit Scope py_scope with py.
Notation "x <~ m ;; k" := (bind m (λ x, k))
  (at level 100, m at next level, right associativity) : py_scope.
Notation "m ;;; k" := (bind m (λ _, k))
  (at level 100, right associativity) : py_scope.
Local Open Scope py_scope.

(** A partial pure operation raises [e] where it is undefined. *)
Definition lift {A} (e : exn) (o : option A) : M A :=
  match o with Some a => ret a | None => raise e end.

(** [for x in l: body] *)
Fixpoint for_each {A} (l : list A) (body : A → M unit) : M unit :=
  match l with
  | [] => ret tt
  | x :: l' => body x ;;; for_each l' body
  end.

Definition print (line : str) : M unit :=
  λ w, Ok tt (World (fs w) (out w ++ [line]) (sent w) (resets w)).

Definition os_path_exists (p : str) : M bool :=
  λ w, Ok (bool_decide (is_Some (fs w !! p))) w.

Definition os_remove (p : str) : M unit :=
  λ w, Ok tt (set_fs (delete p) w).

(** [with open(p, 'w') as f: f.write(content)]; [open(p, 'w').close()] is
    the case of an empty [content]. *)
Definition open_write (p content : str) : M unit :=
  λ w, Ok tt (set_fs (<[p := content]>) w).

(** [os.makedirs(d, exist_ok=True)]: directories are not recorded. *)
Definition os_makedirs (d : str) : M unit := ret tt.

(** [os.path.dirname] of a relative path: the text before the last slash. *)
Fixpoint os_path_dirname (p : str) : str :=
  match p with
  | [] => []
  | c :: p' =>
      if existsb (N.eqb 47%N) p'
      then c :: os_path_dirname p'
      else []
  end.

(** Entering [reset_databases] (ghost). *)
Definition enter_reset : M unit :=
  λ w, Ok tt (World (fs w) (out w) (sent w) (S (resets w))).

(** Sample services for the examples: one that answers every call with
    status 200 and one that cannot be reached. *)
Definition ok_server (history : list request) (r : request) : reply := Response 200 "{}".
Definition down_server (history : list request) (r : request) : reply := Failure.
Definition no_float (s : str) : option spec_float := None.
Definition DQ : str := [34%N].
Definition LF : str := [10%N].

(** ** The program *)

(** The object that [WorkloadParser.__init__] builds. *)
Record WorkloadParser : Type := {
  order_service_url : str;
  restart_flag_file : str
}.

(** [__init__], given the [ip] and [port] entries of [OrderService] in the
    configuration file, as text. *)
Definition init (ip port : str) : WorkloadParser :=
  {| order_service_url := "http://" ++ ip ++ ":" ++ port;
     restart_flag_file := "restart_flag.txt" |}.

Definition db_files : list str :=
  [ "compiled/UserService/users.txt";
    "compiled/ProductService/products.txt";
    "compiled/OrderService/orders.txt" ].

(** A dictionary display [{k1: v1, ...}]. *)
Definition dict {V} (l : list (str * V)) : gmap str V := list_to_map l.

(** [for arg in args: key, value = arg.split(':', 1); payload[key] = value];
    [None] when some [arg] has no colon. *)
Fixpoint update_fields (payload : gmap str json) (args : list str)
  : option (gmap str json) :=
  match args with
  | [] => Some payload
  | arg :: rest =>
      match PyStr.split_colon arg with
      | Some (key, value) => update_fields (<[key := JStr value]> payload) rest
      | None => None
      end
  end.

(** The two loop tests of [parse_workload], as the source writes them. *)
Definition is_real (line : str) : bool :=
  negb (PyStr.eqb line []) && negb (PyStr.startswith "#" line)
  && negb (PyStr.startswith "//" line).

Definition is_skipped (line : str) : bool :=
  PyStr.eqb line [] || PyStr.startswith "#" line || PyStr.startswith "//" line.

(** The first loop of [parse_workload]: [None] is Python's [None]. *)
Fixpoint first_real_command (lines : list str) : option str :=
  match lines with
  | [] => None
  | line :: rest => if is_real line then Some line else first_real_command rest
  end.

(** [parts[0].upper()] and [parts[1].lower()] if [len(parts) > 1], else the empty str *)
Definition service_of (parts : list str) : option str :=
  PyStr.upper <$> parts !! 0%nat.

Definition command_of (parts : list str) : str :=
  match parts !! 1%nat with
  | Some p => PyStr.lower p
  | None => []
  end.

Section Parser.

(** [float(s)], [None] for its [ValueError]; the downstream service. *)
Context (float_of_string : str → option spec_float).
Context (server : list request → request → reply).
Context (self : WorkloadParser).

(** [args[i]], [int(...)], [float(...)] *)
Definition index (args : list str) (i : nat) : M str :=
  lift IndexError (args !! i).
Definition to_int (s : str) : M Z := lift ValueError (PyStr.int s).
Definition to_float (s : str) : M spec_float := lift ValueError (float_of_string s).

(** A call into [requests]: it is recorded, then the service answers. *)
Definition call (r : request) : M (Z * str) :=
  λ w, let w' := World (fs w) (out w) (sent w ++ [r]) (resets w) in
       match server (sent w) r with
       | Response status_code text => Ok (status_code, text) w'
       | Failure => Raise RequestException w'
       end.

Definition requests_post (url : str) (payload : gmap str json)
    (headers : gmap str str) : M (Z * str) :=
  call (Post url payload headers).

Definition requests_get (url : str) : M (Z * str) := call (Get url).

(** [if response.status_code == 200: print("Successful: ", response.text)
    else: print("Failed: ", response.text)]; [print] puts one space
    between its two arguments. *)
Definition report (response : Z * str) : M unit :=
  if (response.1 =? 200)%Z
  then print ("Successful: " ++ " " ++ response.2)
  else print ("Failed: " ++ " " ++ response.2).

Definition json_headers : gmap str str :=
  dict [("Content-Type", "application/json")].

(** *** [reset_databases] *)
Definition reset_databases : M unit :=
  enter_reset ;;;
  for_each db_files (λ db_file,
    found <~ os_path_exists db_file ;;
    if found
    then os_remove db_file ;;; print ("Deleted " ++ db_file)
    else print (db_file ++ " not found, skipping.")) ;;;
  for_each db_files (λ db_file,
    os_makedirs (os_path_dirname db_file) ;;;
    open_write db_file [] ;;;
    print ("Recreated fresh database file: " ++ db_file)).

(** *** [handle_user_command]: the bodies of its [try] blocks *)
Definition user_endpoint : str := order_service_url self ++ "/user".

Definition user_create_body (args : list str) : M unit :=
  a0 <~ index args 0 ;; id <~ to_int a0 ;;
  username <~ index args 1 ;;
  email <~ index args 2 ;;
  password <~ index args 3 ;;
  let payload := dict [("command", JStr "create"); ("id", JInt id);
                       ("username", JStr username); ("email", JStr email);
                       ("password", JStr password)] in
  response <~ requests_post user_endpoint payload json_headers ;;
  report response.

Definition user_get_body (args : list str) : M unit :=
  user_id <~ index args 0 ;;
  let endpoint := user_endpoint ++ "/" ++ user_id in
  response <~ requests_get endpoint ;;
  report response.

Definition user_update_body (args : list str) : M unit :=
  a0 <~ index args 0 ;; id <~ to_int a0 ;;
  let payload := dict [("command", JStr "update"); ("id", JInt id)] in
  payload <~ lift ValueError (update_fields payload (drop 1 args)) ;;
  response <~ requests_post user_endpoint payload json_headers ;;
  report response.

Definition user_delete_body (args : list str) : M unit :=
  a0 <~ index args 0 ;; id <~ to_int a0 ;;
  username <~ index args 1 ;;
  email <~ index args 2 ;;
  password <~ index args 3 ;;
  let payload := dict [("command", JStr "delete"); ("id", JInt id);
                       ("username", JStr username); ("email", JStr email);
                       ("password", JStr password)] in
  response <~ requests_post user_endpoint payload json_headers ;;
  report response.

Definition failed_placeholder : M unit := print "Failed:  {}".

Definition handle_user_command (command : str) (args : list str) : M unit :=
  if PyStr.eqb command "create" then
    try_except (user_create_body args) (λ _, failed_placeholder)
  else if PyStr.eqb command "get" then
    try_except (user_get_body args) (λ _, failed_placeholder)
  else if PyStr.eqb command "update" then
    try_except (user_update_body args) (λ _, failed_placeholder)
  else if PyStr.eqb command "delete" then
    try_except (user_delete_body args) (λ _, failed_placeholder)
  else ret tt.

(** *** [handle_product_command] *)
Definition product_endpoint : str := order_service_url self ++ "/product".

Definition product_create_body (args : list str) : M unit :=
  a0 <~ index args 0 ;; id <~ to_int a0 ;;
  name <~ index args 1 ;;
  description <~ index args 2 ;;
  a3 <~ index args 3 ;; price <~ to_float a3 ;;
  a4 <~ index args 4 ;; quantity <~ to_int a4 ;;
  let payload := dict [("command", JStr "create"); ("id", JInt id);
                       ("name", JStr name); ("description", JStr description);
                       ("price", JFloat price); ("quantity", JInt quantity)] in
  response <~ requests_post product_endpoint payload json_headers ;;
  report response.

Definition product_info_body (args : list str) : M unit :=
  product_id <~ index args 0 ;;
  let endpoint := product_endpoint ++ "/" ++ product_id in
  response <~ requests_get endpoint ;;
  report response.

Definition product_update_body (args : list str) : M unit :=
  a0 <~ index args 0 ;; id <~ to_int a0 ;;
  let payload := dict [("command", JStr "update"); ("id", JInt id)] in
  payload <~ lift ValueError (update_fields payload (drop 1 args)) ;;
  response <~ requests_post product_endpoint payload json_headers ;;
  report response.

Definition product_delete_body (args : list str) : M unit :=
  a0 <~ index args 0 ;; id <~ to_int a0 ;;
  name <~ index args 1 ;;
  a2 <~ index args 2 ;; price <~ to_float a2 ;;
  a3 <~ index args 3 ;; quantity <~ to_int a3 ;;
  let payload := dict [("command", JStr "delete"); ("id", JInt id);
                       ("name", JStr name); ("price", JFloat price);
                       ("quantity", JInt quantity)] in
  response <~ requests_post product_endpoint payload json_headers ;;
  report response.

Definition handle_product_command (command : str) (args : list str) : M unit :=
  if PyStr.eqb command "create" then
    try_except (product_create_body args) (λ _, failed_placeholder)
  else if PyStr.eqb command "info" then
    try_except (product_info_body args) (λ _, failed_placeholder)
  else if PyStr.eqb command "update" then
    try_except (product_update_body args) (λ _, failed_placeholder)
  else if PyStr.eqb command "delete" then
    try_except (product_delete_body args) (λ _, failed_placeholder)
  else ret tt.

(** *** [handle_order_command] *)
Definition order_endpoint : str := order_service_url self ++ "/order".

Definition order_place_body (args : list str) : M unit :=
  a0 <~ index args 0 ;; product_id <~ to_int a0 ;;
  a1 <~ index args 1 ;; user_id <~ to_int a1 ;;
  a2 <~ index args 2 ;; quantity <~ to_int a2 ;;
  let payload := dict [("command", JStr "place order"); ("product_id", JInt product_id);
                       ("user_id", JInt user_id); ("quantity", JInt quantity)] in
  response <~ requests_post order_endpoint payload json_headers ;;
  report response.

Definition invalid_request : M unit :=
  print ("Failed: {" ++ DQ ++ "status" ++ DQ ++ ":" ++ DQ ++ "Invalid Request" ++ DQ ++ "}").

Definition handle_order_command (command : str) (args : list str) : M unit :=
  if PyStr.eqb command "place" then
    try_except (order_place_body args) (λ _, invalid_request)
  else ret tt.

(** *** [process_command] *)
Definition process_command (line : str) : M unit :=
  let parts := PyStr.split line in
  match service_of parts with
  | None => ret tt
  | Some service =>
      let command := command_of parts in
      if PyStr.eqb service "USER" then handle_user_command command (drop 2 parts)
      else if PyStr.eqb service "PRODUCT" then handle_product_command command (drop 2 parts)
      else if PyStr.eqb service "ORDER" then handle_order_command command (drop 2 parts)
      else ret tt
  end.

(** *** [parse_workload] *)

(** The body of the second loop, for one stripped line. *)
Definition run_line (line : str) : M unit :=
  if is_skipped line then ret tt
  else if PyStr.eqb line "shutdown" then
    print "Shutdown command detected" ;;;
    found <~ os_path_exists (restart_flag_file self) ;;
    if found
    then os_remove (restart_flag_file self) ;;;
         print "Removed restart flag file due to shutdown"
    else ret tt
  else if PyStr.eqb line "restart" then
    print "Restart command detected, keeping existing database"
  else process_command line.

(** Lines 23 to 44: the reset decision and the creation of the flag. *)
Definition startup (lines : list str) : M unit :=
  let first_real_command := first_real_command lines in
  let restart_command :=
    bool_decide (first_real_command = Some "restart") in
  found <~ os_path_exists (restart_flag_file self) ;;
  (if negb found && negb restart_command
   then print "No restart flag found and first command is not restart. Deleting all database files..." ;;;
        reset_databases
   else ret tt) ;;;
  found <~ os_path_exists (restart_flag_file self) ;;
  (if negb found
   then open_write (restart_flag_file self) "Flag indicating that services have been started" ;;;
        print "Created restart flag file"
   else ret tt).

(** [workload] holds the lines of the workload file as [f.readlines()]
    returns them. *)
Definition parse_workload (workload : list str) : M unit :=
  let lines := map PyStr.strip workload in
  startup lines ;;;
  for_each lines run_line.

End Parser.

(** ** Notions used to state the properties *)

(** A stripped line that the driver ignores: empty, or a comment. *)
Definition ignorable (line : str) : Prop :=
  line = [] ∨ (∃ rest, line = "#" ++ rest) ∨ (∃ rest, line = "//" ++ rest).

(** [l] is the first line of [lines] that is neither blank nor a comment. *)
Definition first_real_line_is (lines : list str) (l : str) : Prop :=
  ∃ pre post, lines = pre ++ l :: post ∧ Forall ignorable pre ∧ ¬ ignorable l.

(** The last line of the file that the second loop does not skip. *)
Definition last_processed (workload : list str) : option str :=
  last (filter (λ l, is_real l = true) (map PyStr.strip workload)).

Definition all_space (s : str) : Prop :=
  Forall (λ c, PyStr.is_space c = true) s.

Definition has_colon (s : str) : bool :=
  existsb (N.eqb 58%N) s.

Definition is_ascii_letter (c : N) : bool :=
  (((65 <=? c) && (c <=? 90)) || ((97 <=? c) && (c <=? 122)))%N.

Definition ascii_letters : list N := map N.of_nat (seq 65 26 ++ seq 97 26).


(** The same ASCII letter in the other case; any other character is
    unchanged. *)
Definition swapcase_char (c : N) : N :=
  if ((97 <=? c) && (c <=? 122))%N then (c - 32)%N
  else if ((65 <=? c) && (c <=? 90))%N then (c + 32)%N
  else c.

(** Changing the case of [c] changes nothing in what the string primitives
    make of it. *)
Definition case_blind (c : N) : bool :=
  PyStr.eqb (PyStr.upper_char (swapcase_char c)) (PyStr.upper_char c)
  && PyStr.eqb (PyStr.lower_char (swapcase_char c)) (PyStr.lower_char c)
  && Bool.eqb (PyStr.is_space (swapcase_char c)) (PyStr.is_space c)
  && Bool.eqb (PyStr.case_ignorable (swapcase_char c)) (PyStr.case_ignorable c)
  && Bool.eqb (PyStr.cased (swapcase_char c)) (PyStr.cased c)
  && Bool.eqb (N.eqb (swapcase_char c) 931) (N.eqb c 931).



(** What the two kinds of [except] clause print. *)
Definition generic_failure : str := "Failed:  {}".
Definition structured_failure : str :=
  "Failed: {" ++ DQ ++ "status" ++ DQ ++ ":" ++ DQ ++ "Invalid Request" ++ DQ ++ "}".

(** The dispatch table of the specification: the [try] block that a
    normalized service and action select, and what its [except] prints. *)
Definition try_block (float_of_string : str → option spec_float)
    (server : list request → request → reply) (self : WorkloadParser)
    (service command : str) : option ((list str → M unit) * str) :=
  let generic := generic_failure in
  let structured := structured_failure in
  if PyStr.eqb service "USER" then
    if PyStr.eqb command "create" then Some (user_create_body server self, generic)
    else if PyStr.eqb command "get" then Some (user_get_body server self, generic)
    else if PyStr.eqb command "update" then Some (user_update_body server self, generic)
    else if PyStr.eqb command "delete" then Some (user_delete_body server self, generic)
    else None
  else if PyStr.eqb service "PRODUCT" then
    if PyStr.eqb command "create" then Some (product_create_body float_of_string server self, generic)
    else if PyStr.eqb command "info" then Some (product_info_body server self, generic)
    else if PyStr.eqb command "update" then Some (product_update_body server self, generic)
    else if PyStr.eqb command "delete" then Some (product_delete_body float_of_string server self, generic)
    else None
  else if PyStr.eqb service "ORDER" then
    if PyStr.eqb command "place" then Some (order_place_body server self, structured)
    else None
  else None.

(** The (service, action) pairs of the dispatch table. *)
Definition dispatch_table : list (str * str) :=
  [ ("USER", "create"); ("USER", "get"); ("USER", "update"); ("USER", "delete");
    ("PRODUCT", "create"); ("PRODUCT", "info"); ("PRODUCT", "update");
    ("PRODUCT", "delete"); ("ORDER", "place") ].

(** A piece of code that leaves the files and the reset count alone,
    whether it returns or raises. *)
Definition keeps_files {A} (m : M A) : Prop :=
  ∀ w, fs (world_of (m w)) = fs w ∧ resets (world_of (m w)) = resets w.

(** The value that the update loop leaves under [key]: that of the last
    argument with this key, if there is one. *)
Fixpoint last_value (key : str) (args : list str) : option str :=
  match args with
  | [] => None
  | arg :: rest =>
      match last_value key rest with
      | Some v => Some v
      | None =>
          match PyStr.split_colon arg with
          | Some (k, v) => if PyStr.eqb k key then Some v else None
          | None => None
          end
      end
  end.

Definition empty_world : world := World ∅ [] [] 0.

(** A world in which the flag file is there. *)
Definition started_world : world :=
  World {[ "restart_flag.txt" := "Flag indicating that services have been started" ]} [] [] 0.

Definition sample_parser : WorkloadParser := init "127.0.0.1" "14000".

(** Sample workloads, as [readlines] returns them. *)
Definition shutdown_then_get : list str :=
  ["shutdown" ++ LF; "user get 1" ++ LF].

Definition scenario_A : list str := ["user create 1 alice a@x.com pw" ++ LF].
Definition scenario_B : list str := ["restart" ++ LF; "product info 5" ++ LF].
Definition scenario_C : list str := ["order place 10 20 3" ++ LF].
Definition scenario_D : list str := ["shutdown" ++ LF].

(** ** Notions for the further properties *)

(** The request of USER create and USER delete: [verb] is the value of the
    [command] field. *)
Definition user_record_request (self : WorkloadParser) (verb : str)
    (args : list str) : option request :=
  a0 ← args !! 0%nat; id ← PyStr.int a0;
  username ← args !! 1%nat; email ← args !! 2%nat; password ← args !! 3%nat;
  Some (Post (user_endpoint self)
          (dict [("command", JStr verb); ("id", JInt id); ("username", JStr username);
                 ("email", JStr email); ("password", JStr password)])
          json_headers).

(** The request of USER get and PRODUCT info. *)
Definition lookup_request (endpoint : str) (args : list str) : option request :=
  id ← args !! 0%nat; Some (Get (endpoint ++ "/" ++ id)).

(** The request of USER update and PRODUCT update. *)
Definition update_request (endpoint : str) (args : list str) : option request :=
  a0 ← args !! 0%nat; id ← PyStr.int a0;
  payload ← update_fields (dict [("command", JStr "update"); ("id", JInt id)]) (drop 1 args);
  Some (Post endpoint payload json_headers).

Definition product_create_request (float_of_string : str → option spec_float)
    (self : WorkloadParser) (args : list str) : option request :=
  a0 ← args !! 0%nat; id ← PyStr.int a0;
  name ← args !! 1%nat; description ← args !! 2%nat;
  a3 ← args !! 3%nat; price ← float_of_string a3;
  a4 ← args !! 4%nat; quantity ← PyStr.int a4;
  Some (Post (product_endpoint self)
          (dict [("command", JStr "create"); ("id", JInt id); ("name", JStr name);
                 ("description", JStr description); ("price", JFloat price);
                 ("quantity", JInt quantity)])
          json_headers).

Definition product_delete_request (float_of_string : str → option spec_float)
    (self : WorkloadParser) (args : list str) : option request :=
  a0 ← args !! 0%nat; id ← PyStr.int a0;
  name ← args !! 1%nat;
  a2 ← args !! 2%nat; price ← float_of_string a2;
  a3 ← args !! 3%nat; quantity ← PyStr.int a3;
  Some (Post (product_endpoint self)
          (dict [("command", JStr "delete"); ("id", JInt id); ("name", JStr name);
                 ("price", JFloat price); ("quantity", JInt quantity)])
          json_headers).

Definition order_place_request (self : WorkloadParser) (args : list str) : option request :=
  a0 ← args !! 0%nat; product_id ← PyStr.int a0;
  a1 ← args !! 1%nat; user_id ← PyStr.int a1;
  a2 ← args !! 2%nat; quantity ← PyStr.int a2;
  Some (Post (order_endpoint self)
          (dict [("command", JStr "place order"); ("product_id", JInt product_id);
                 ("user_id", JInt user_id); ("quantity", JInt quantity)])
          json_headers).

(** The request that an entry of the dispatch table builds from the
    arguments; [None] when the arguments do not fit. *)
Definition planned_request (float_of_string : str → option spec_float)
    (self : WorkloadParser) (service command : str) (args : list str)
  : option request :=
  if PyStr.eqb service "USER" then
    if PyStr.eqb command "create" then user_record_request self "create" args
    else if PyStr.eqb command "get" then lookup_request (user_endpoint self) args
    else if PyStr.eqb command "update" then update_request (user_endpoint self) args
    else if PyStr.eqb command "delete" then user_record_request self "delete" args
    else None
  else if PyStr.eqb service "PRODUCT" then
    if PyStr.eqb command "create" then product_create_request float_of_string self args
    else if PyStr.eqb command "info" then lookup_request (product_endpoint self) args
    else if PyStr.eqb command "update" then update_request (product_endpoint self) args
    else if PyStr.eqb command "delete" then product_delete_request float_of_string self args
    else None
  else if PyStr.eqb service "ORDER" then
    if PyStr.eqb command "place" then order_place_request self args else None
  else None.

(** What the dispatcher does with a line: nothing, a report of failure
    without any call, or one call. *)
Inductive plan : Type :=
| NoOp
| Reject (msg : str)
| Send (req : request) (msg : str).

Definition plan_of (float_of_string : str → option spec_float)
    (self : WorkloadParser) (line : str) : plan :=
  match service_of (PyStr.split line) with
  | None => NoOp
  | Some service =>
      let command := command_of (PyStr.split line) in
      if bool_decide ((service, command) ∈ dispatch_table) then
        let msg := if PyStr.eqb service "ORDER" then structured_failure
                   else generic_failure in
        match planned_request float_of_string self service command
                (drop 2 (PyStr.split line)) with
        | Some req => Send req msg
        | None => Reject msg
        end
      else NoOp
  end.

(** The world after a call [req] whose outcome is reported by [line]. *)
Definition after_call (req : request) (line : str) (w : world) : world :=
  World (fs w) (out w ++ [line]) (sent w ++ [req]) (resets w).

Definition execute (server : list request → request → reply) (p : plan) : M unit :=
  λ w, match p with
       | NoOp => Ok tt w
       | Reject msg => Ok tt (World (fs w) (out w ++ [msg]) (sent w) (resets w))
       | Send req msg =>
           match server (sent w) req with
           | Response status_code text =>
               Ok tt (after_call req
                        ((if (status_code =? 200)%Z then "Successful: " else "Failed: ")
                         ++ " " ++ text) w)
           | Failure => Ok tt (after_call req msg w)
           end
       end.

(** [body] builds the request [o] and, if there is one, calls and reports. *)
Definition follows (server : list request → request → reply) (body : M unit)
    (o : option request) : Prop :=
  ∀ w, match o with
       | Some req => body w = (response <~ call server req ;; report response) w
       | None => ∃ e, body w = Raise e w
       end.
(** A stripped line that the second loop hands to [process_command]. *)
Definition is_dispatched (line : str) : bool :=
  negb (is_skipped line) && negb (PyStr.eqb line "shutdown")
  && negb (PyStr.eqb line "restart").

(** The call that a stripped line of the workload leads to, if any. *)
Definition planned_call (float_of_string : str → option spec_float)
    (self : WorkloadParser) (line : str) : option request :=
  if is_dispatched line then
    match plan_of float_of_string self line with
    | Send req _ => Some req
    | _ => None
    end
  else None.

(** The calls of a whole workload, in file order. *)
Definition planned_calls (float_of_string : str → option spec_float)
    (self : WorkloadParser) (workload : list str) : list request :=
  omap (planned_call float_of_string self) (map PyStr.strip workload).

Definition url_of (req : request) : str :=
  match req with
  | Post url _ _ => url
  | Get url => url
  end.

(** The line that reports a response. *)
Definition report_line (status_code : Z) (text : str) : str :=
  (if (status_code =? 200)%Z then "Successful: " else "Failed: ") ++ " " ++ text.

(** Whether [reset_databases] runs, as [startup] decides it. *)
Definition resets_now (lines : list str) (w : world) : bool :=
  negb (bool_decide (is_Some (fs w !! "restart_flag.txt")))
  && negb (bool_decide (first_real_command lines = Some "restart")).

Definition flag_text : str := "Flag indicating that services have been started".

Definition no_space (s : str) : Prop :=
  Forall (λ c, PyStr.is_space c = false) s.
(** A token: not empty, and free of whitespace. *)
Definition is_word (t : str) : Prop := t ≠ [] ∧ no_space t.

(** [" ".join(l)] *)
Fixpoint unwords (l : list str) : str :=
  match l with
  | [] => []
  | t :: l' => t ++ match l' with [] => [] | _ => " " ++ unwords l' end
  end.

(** ** Properties of the string primitives *)

Lemma append_nil_l (s : str) : [] ++ s = s.
Proof. reflexivity. Qed.

Lemma append_cons (c : N) (s t : str) : (c :: s) ++ t = c :: (s ++ t).
Proof. reflexivity. Qed.

Lemma append_nil_r (s : str) : s ++ [] = s.
Proof. apply app_nil_r. Qed.

Lemma append_assoc (a b c : str) : (a ++ b) ++ c = a ++ (b ++ c).
Proof. symmetry. apply app_assoc. Qed.

Lemma eqb_spec (a b : str) : reflect (a = b) (PyStr.eqb a b).
Proof.
  revert b. induction a as [|x a IH]; intros [|y b]; cbn [PyStr.eqb];
    try (constructor; congruence).
  destruct (N.eqb_spec x y) as [->|Hxy]; cbn [andb].
  - destruct (IH b) as [->|Hab]; constructor; congruence.
  - constructor. congruence.
Qed.

Lemma eqb_eq (a b : str) : PyStr.eqb a b = true ↔ a = b.
Proof. destruct (eqb_spec a b); split; congruence. Qed.

Lemma eqb_refl (a : str) : PyStr.eqb a a = true.
Proof. now destruct (eqb_spec a a). Qed.

Lemma all_space_nil : all_space [].
Proof. constructor. Qed.

Lemma all_space_cons c s : all_space (c :: s) ↔ PyStr.is_space c = true ∧ all_space s.
Proof.
  unfold all_space. split.
  - intros H; inversion H; subst; auto.
  - intros [Hc Hs]; constructor; auto.
Qed.

Lemma rstrip_all_space s : all_space s → PyStr.rstrip s = [].
Proof.
  induction s as [|c s IH]; intros H; cbn [PyStr.rstrip]; [reflexivity|].
  apply all_space_cons in H as [Hc Hs]. now rewrite (IH Hs), Hc.
Qed.

Lemma rstrip_append_space s b : all_space b → PyStr.rstrip (s ++ b) = PyStr.rstrip s.
Proof.
  intros Hb. induction s as [|c s IH].
  - rewrite append_nil_l. now apply rstrip_all_space.
  - rewrite append_cons. cbn [PyStr.rstrip]. now rewrite IH.
Qed.

Lemma lstrip_append_space a s : all_space a → PyStr.lstrip (a ++ s) = PyStr.lstrip s.
Proof.
  induction a as [|c a IH]; intros H; [reflexivity|].
  apply all_space_cons in H as [Hc Ha]. rewrite append_cons. cbn [PyStr.lstrip].
  rewrite Hc. now apply IH.
Qed.

Lemma rstrip_space_append a s :
  all_space a →
  PyStr.rstrip (a ++ s) =
    match PyStr.rstrip s with [] => [] | r => a ++ r end.
Proof.
  induction a as [|c a IH]; intros H.
  - rewrite append_nil_l. now destruct (PyStr.rstrip s).
  - apply all_space_cons in H as [Hc Ha]. rewrite append_cons. cbn [PyStr.rstrip].
    rewrite (IH Ha).
    destruct (PyStr.rstrip s) as [|d r]; [now rewrite Hc|].
    rewrite append_cons. now destruct a.
Qed.

Lemma strip_pad a s b : all_space a → all_space b → PyStr.strip (a ++ s ++ b) = PyStr.strip s.
Proof.
  intros Ha Hb. unfold PyStr.strip.
  rewrite <- append_assoc, (rstrip_append_space _ b Hb), (rstrip_space_append a s Ha).
  destruct (PyStr.rstrip s) as [|c r] eqn:E; [reflexivity|].
  now apply lstrip_append_space.
Qed.

Lemma strip_all_space s : all_space s → PyStr.strip s = [].
Proof. intros H. unfold PyStr.strip. now rewrite rstrip_all_space. Qed.

Lemma rstrip_first_nonspace c s :
  PyStr.is_space c = false → ∃ r, PyStr.rstrip (c :: s) = c :: r.
Proof.
  intros Hc. cbn [PyStr.rstrip]. destruct (PyStr.rstrip s) as [|d r].
  - rewrite Hc. now exists [].
  - now exists (d :: r).
Qed.

Lemma strip_first_nonspace c s :
  PyStr.is_space c = false → ∃ r, PyStr.strip (c :: s) = c :: r.
Proof.
  intros Hc. unfold PyStr.strip.
  destruct (rstrip_first_nonspace c s Hc) as [r ->]. cbn [PyStr.lstrip].
  rewrite Hc. now exists r.
Qed.

(** ** The monad, step by step *)

Lemma run_bind {A B} (m : M A) (k : A → M B) w :
  bind m k w = match m w with Ok a w' => k a w' | Raise e w' => Raise e w' end.
Proof. reflexivity. Qed.
Lemma run_ret {A} (a : A) w : ret a w = Ok a w.
Proof. reflexivity. Qed.
Lemma run_raise {A} e w : @raise A e w = Raise e w.
Proof. reflexivity. Qed.
Lemma run_try {A} (body : M A) h w :
  try_except body h w = match body w with Ok a w' => Ok a w' | Raise e w' => h e w' end.
Proof. reflexivity. Qed.
Lemma run_print s w : print s w = Ok tt (World (fs w) (out w ++ [s]) (sent w) (resets w)).
Proof. reflexivity. Qed.
Lemma run_exists p w : os_path_exists p w = Ok (bool_decide (is_Some (fs w !! p))) w.
Proof. reflexivity. Qed.
Lemma run_remove p w : os_remove p w = Ok tt (World (delete p (fs w)) (out w) (sent w) (resets w)).
Proof. reflexivity. Qed.
Lemma run_open p c w : open_write p c w = Ok tt (World (<[p := c]> (fs w)) (out w) (sent w) (resets w)).
Proof. reflexivity. Qed.
Lemma run_makedirs d w : os_makedirs d w = Ok tt w.
Proof. reflexivity. Qed.
Lemma run_enter w : enter_reset w = Ok tt (World (fs w) (out w) (sent w) (S (resets w))).
Proof. reflexivity. Qed.
Lemma run_for_nil {A} (body : A → M unit) w : for_each [] body w = Ok tt w.
Proof. reflexivity. Qed.
Lemma run_for_cons {A} (x : A) l (body : A → M unit) w :
  for_each (x :: l) body w
  = match body x w with Ok _ w' => for_each l body w' | Raise e w' => Raise e w' end.
Proof. reflexivity. Qed.

Create Rewrite HintDb py_run.
#[local] Hint Rewrite @run_bind @run_ret @run_raise @run_try run_print run_exists
  run_remove run_open run_makedirs run_enter @run_for_nil @run_for_cons : py_run.

Ltac run := repeat (autorewrite with py_run; cbn [fs out sent resets world_of raises]).

(** ** The reset action *)

Lemma remove_loop_spec (l : list str) : ∀ w,
  ∃ msgs,
    for_each l (λ db_file,
      found <~ os_path_exists db_file ;;
      if found
      then os_remove db_file ;;; print ("Deleted " ++ db_file)
      else print (db_file ++ " not found, skipping.")) w
    = Ok tt (World (foldl (λ g p, delete p g) (fs w) l) (out w ++ msgs) (sent w) (resets w)).
Proof.
  induction l as [|p l IH]; intros [f o s r].
  - exists []. run. now rewrite app_nil_r.
  - rewrite run_for_cons. run.
    case_bool_decide as Hp; run.
    + destruct (IH (World (delete p f) (o ++ ["Deleted " ++ p]) s r)) as [msgs ->]; simpl.
      exists (("Deleted " ++ p) :: msgs). now rewrite <- app_assoc.
    + destruct (IH (World f (o ++ [p ++ " not found, skipping."]) s r)) as [msgs ->]; simpl.
      exists ((p ++ " not found, skipping.") :: msgs). rewrite <- app_assoc. simpl.
      rewrite (delete_id f p); [reflexivity|].
      destruct (f !! p) eqn:E; [|reflexivity]. exfalso; apply Hp; eauto.
Qed.

Lemma create_loop_spec (l : list str) : ∀ w,
  ∃ msgs,
    for_each l (λ db_file,
      os_makedirs (os_path_dirname db_file) ;;;
      open_write db_file [] ;;;
      print ("Recreated fresh database file: " ++ db_file)) w
    = Ok tt (World (foldl (λ g p, <[p := []]> g) (fs w) l) (out w ++ msgs) (sent w) (resets w)).
Proof.
  induction l as [|p l IH]; intros [f o s r].
  - exists []. run. now rewrite app_nil_r.
  - rewrite run_for_cons. run.
    destruct (IH (World (<[p := []]> f) (o ++ ["Recreated fresh database file: " ++ p]) s r)) as [msgs ->]; simpl.
    exists (("Recreated fresh database file: " ++ p) :: msgs). now rewrite <- app_assoc.
Qed.

Lemma lookup_delete_loop (l : list str) : ∀ (f : gmap str str) k,
  foldl (λ g p, delete p g) f l !! k = if bool_decide (k ∈ l) then None else f !! k.
Proof.
  induction l as [|p l IH]; intros f k; cbn [foldl].
  - case_bool_decide as H; [by apply elem_of_nil in H | reflexivity].
  - rewrite IH, lookup_delete.
    destruct (decide (p = k)) as [->|Hp].
    + rewrite (bool_decide_eq_true_2 (k ∈ k :: l)) by (by left). now case_bool_decide.
    + destruct (bool_decide (k ∈ l)) eqn:E.
      * apply bool_decide_eq_true_1 in E. rewrite bool_decide_eq_true_2; [done | by right].
      * apply bool_decide_eq_false_1 in E. rewrite bool_decide_eq_false_2; [done|].
        intros [Hk|Hk]%elem_of_cons; [by subst | done].
Qed.

Lemma lookup_create_loop (l : list str) : ∀ (f : gmap str str) k,
  foldl (λ g p, <[p := []]> g) f l !! k
  = if bool_decide (k ∈ l) then Some [] else f !! k.
Proof.
  induction l as [|p l IH]; intros f k; cbn [foldl].
  - case_bool_decide as H; [by apply elem_of_nil in H | reflexivity].
  - rewrite IH, lookup_insert.
    destruct (decide (p = k)) as [->|Hp].
    + rewrite (bool_decide_eq_true_2 (k ∈ k :: l)) by (by left). now case_bool_decide.
    + destruct (bool_decide (k ∈ l)) eqn:E.
      * apply bool_decide_eq_true_1 in E. rewrite bool_decide_eq_true_2; [done | by right].
      * apply bool_decide_eq_false_1 in E. rewrite bool_decide_eq_false_2; [done|].
        intros [Hk|Hk]%elem_of_cons; [by subst | done].
Qed.

Lemma reset_databases_spec w :
  ∃ w1, reset_databases w = Ok tt w1
    ∧ (∀ p, fs w1 !! p = if bool_decide (p ∈ db_files) then Some [] else fs w !! p)
    ∧ sent w1 = sent w ∧ resets w1 = S (resets w)
    ∧ ∃ msgs, out w1 = out w ++ msgs.
Proof.
  unfold reset_databases. rewrite run_bind, run_enter, run_bind.
  destruct (remove_loop_spec db_files (World (fs w) (out w) (sent w) (S (resets w)))) as [m1 ->].
  match goal with |- context [for_each _ _ ?w'] => destruct (create_loop_spec db_files w') as [m2 ->] end.
  eexists; split; [reflexivity|]. cbn [fs out sent resets]. repeat split.
  - intros p. rewrite lookup_create_loop, lookup_delete_loop. now case_bool_decide.
  - exists (m1 ++ m2). now rewrite app_assoc.
Qed.

(** C4 (idempotent reset).  From any state of the files, [reset_databases]
    returns, and running it again returns with the same files: the three
    database files exist and are empty, and every other path is as before. *)
Theorem reset_idempotent (w : world) :
  ∃ w1 w2,
    reset_databases w = Ok tt w1 ∧ reset_databases w1 = Ok tt w2
    ∧ fs w2 = fs w1
    ∧ fs w1 !! "compiled/UserService/users.txt" = Some []
    ∧ fs w1 !! "compiled/ProductService/products.txt" = Some []
    ∧ fs w1 !! "compiled/OrderService/orders.txt" = Some []
    ∧ (∀ p, p ∉ db_files → fs w1 !! p = fs w !! p).
Proof.
  destruct (reset_databases_spec w) as (w1 & E1 & L1 & _).
  destruct (reset_databases_spec w1) as (w2 & E2 & L2 & _).
  exists w1, w2. repeat split; try assumption.
  - apply map_eq. intros p. rewrite L2, L1. now case_bool_decide.
  - now rewrite L1.
  - now rewrite L1.
  - now rewrite L1.
  - intros p Hp. rewrite L1. now rewrite bool_decide_eq_false_2.
Qed.

(** ** Real lines *)

Lemma startswith_spec p s : PyStr.startswith p s = true ↔ ∃ rest, s = p ++ rest.
Proof.
  revert s. induction p as [|a p IH]; intros s; simpl.
  - split; [intros _; now exists s | reflexivity].
  - destruct s as [|b s].
    + split; [discriminate | intros [rest H]; discriminate].
    + destruct (N.eqb_spec a b) as [->|Hab].
      * rewrite IH. split; intros [rest H]; exists rest.
        -- now rewrite ?append_cons, H.
        -- rewrite ?append_cons in H. now injection H.
      * split; [discriminate|]. intros [rest H]. rewrite ?append_cons in H.
        injection H as -> _. congruence.
Qed.

Lemma is_real_spec line : is_real line = true ↔ ¬ ignorable line.
Proof.
  unfold is_real, ignorable.
  rewrite !andb_true_iff, !negb_true_iff.
  rewrite <- !not_true_iff_false, !startswith_spec, eqb_eq. tauto.
Qed.

Lemma is_real_false line : is_real line = false → ignorable line.
Proof.
  unfold is_real, ignorable. intros H.
  destruct (eqb_spec line []) as [E|_]; [now left|].
  destruct (PyStr.startswith "#" line) eqn:E1.
  - right; left. now apply startswith_spec.
  - destruct (PyStr.startswith "//" line) eqn:E2; [|discriminate].
    right; right. now apply startswith_spec.
Qed.

Lemma is_skipped_real line : is_skipped line = negb (is_real line).
Proof.
  unfold is_skipped, is_real.
  destruct (PyStr.eqb line []), (PyStr.startswith "#" line),
    (PyStr.startswith "//" line); reflexivity.
Qed.

Lemma first_real_command_spec lines l :
  first_real_command lines = Some l ↔ first_real_line_is lines l.
Proof.
  unfold first_real_line_is. induction lines as [|x lines IH]; simpl.
  - split; [discriminate|]. intros (pre & post & H & _). now destruct pre.
  - destruct (is_real x) eqn:Ex.
    + split.
      * intros [= ->]. exists [], lines. repeat split; [constructor|].
        now apply is_real_spec.
      * intros (pre & post & H & Hpre & Hl). destruct pre as [|y pre].
        -- now injection H as ->.
        -- injection H as -> _. apply Forall_cons in Hpre as [Hy _].
           apply is_real_spec in Ex. contradiction.
    + rewrite IH. split.
      * intros (pre & post & -> & Hpre & Hl). exists (x :: pre), post.
        repeat split; [|assumption]. constructor; [|assumption].
        now apply is_real_false.
      * intros (pre & post & H & Hpre & Hl). destruct pre as [|y pre].
        -- injection H as -> _. apply is_real_spec in Hl. congruence.
        -- injection H as -> ->. apply Forall_cons in Hpre as [_ Hpre].
           now exists pre, post.
Qed.


(** ** The dispatcher leaves the files alone and never raises *)

Lemma keeps_ret {A} (a : A) : keeps_files (ret a).
Proof. now intros w. Qed.
Lemma keeps_raise {A} e : keeps_files (@raise A e).
Proof. now intros w. Qed.
Lemma keeps_lift {A} e (o : option A) : keeps_files (lift e o).
Proof. destruct o; [apply keeps_ret | apply keeps_raise]. Qed.
Lemma keeps_print s : keeps_files (print s).
Proof. now intros w. Qed.
Lemma keeps_bind {A B} (m : M A) (k : A → M B) :
  keeps_files m → (∀ a, keeps_files (k a)) → keeps_files (bind m k).
Proof.
  intros Hm Hk w. rewrite run_bind. specialize (Hm w).
  destruct (m w) as [a w1|e w1]; simpl in *; [|assumption].
  destruct (Hk a w1) as [H1 H2]. destruct Hm as [H3 H4]. split; congruence.
Qed.
Lemma keeps_index args i : keeps_files (index args i).
Proof. apply keeps_lift. Qed.
Lemma keeps_to_int s : keeps_files (to_int s).
Proof. apply keeps_lift. Qed.
Lemma keeps_to_float flt s : keeps_files (to_float flt s).
Proof. apply keeps_lift. Qed.
Lemma keeps_call server r : keeps_files (call server r).
Proof. intros w. unfold call. now destruct (server (sent w) r). Qed.
Lemma keeps_report r : keeps_files (report r).
Proof. unfold report. destruct (_ =? _)%Z; apply keeps_print. Qed.

Create HintDb py_keeps.
#[local] Hint Resolve keeps_ret keeps_raise keeps_lift keeps_print keeps_index
  keeps_to_int keeps_to_float keeps_call keeps_report : py_keeps.
#[local] Hint Extern 2 (keeps_files (bind _ _)) => apply keeps_bind; [|intros ?] : py_keeps.
#[local] Hint Extern 1 (keeps_files (requests_post _ _ _ _)) => apply keeps_call : py_keeps.
#[local] Hint Extern 1 (keeps_files (requests_get _ _)) => apply keeps_call : py_keeps.

Lemma try_block_keeps flt server self service command body msg args :
  try_block flt server self service command = Some (body, msg) →
  keeps_files (body args).
Proof.
  unfold try_block. intros H.
  repeat match type of H with
         | (if ?b then _ else _) = _ => destruct b
         end; try discriminate; injection H as <- _;
  unfold user_create_body, user_get_body, user_update_body, user_delete_body,
    product_create_body, product_info_body, product_update_body,
    product_delete_body, order_place_body; auto 30 with py_keeps.
Qed.

Lemma process_command_dispatch flt server self line :
  process_command flt server self line =
    match service_of (PyStr.split line) with
    | None => ret tt
    | Some service =>
        match try_block flt server self service (command_of (PyStr.split line)) with
        | Some (body, msg) =>
            try_except (body (drop 2 (PyStr.split line))) (λ _, print msg)
        | None => ret tt
        end
    end.
Proof.
  unfold process_command, try_block, handle_user_command, handle_product_command,
    handle_order_command.
  destruct (service_of (PyStr.split line)) as [service|]; [|reflexivity].
  repeat match goal with
         | |- context [PyStr.eqb ?a ?b] => destruct (PyStr.eqb a b)
         end; reflexivity.
Qed.

Lemma try_print_ok (body : M unit) msg w :
  keeps_files body →
  ∃ w', try_except body (λ _, print msg) w = Ok tt w'
        ∧ fs w' = fs w ∧ resets w' = resets w.
Proof.
  intros H. rewrite run_try. specialize (H w).
  destruct (body w) as [[] w1|e w1]; simpl in H.
  - now exists w1.
  - eexists; split; [apply run_print|]. assumption.
Qed.

Lemma process_command_ok flt server self line w :
  ∃ w', process_command flt server self line w = Ok tt w'
        ∧ fs w' = fs w ∧ resets w' = resets w.
Proof.
  rewrite process_command_dispatch.
  destruct (service_of _) as [service|]; [|now exists w].
  destruct (try_block _ _ _ _ _) as [[body msg]|] eqn:E; [|now exists w].
  apply try_print_ok. eapply try_block_keeps; eassumption.
Qed.

(** ** The replay driver *)

Section Driver.
Context (flt : str → option spec_float).
Context (server : list request → request → reply).
Context (ip port : str).

Lemma run_line_spec line w :
  ∃ w', run_line flt server (init ip port) line w = Ok tt w'
    ∧ resets w' = resets w
    ∧ fs w' = (if PyStr.eqb line "shutdown"
               then delete "restart_flag.txt" (fs w) else fs w).
Proof.
  unfold run_line.
  destruct (eqb_spec line "shutdown") as [->|Hs].
  - change (is_skipped "shutdown") with false. cbn [restart_flag_file init]. run.
    case_bool_decide as Hf; run.
    + eexists; repeat split.
    + eexists; repeat split. simpl. symmetry. apply delete_id.
      destruct (fs w !! "restart_flag.txt") eqn:E; [|reflexivity].
      exfalso; apply Hf; eauto.
  - destruct (is_skipped line); [now exists w|].
    destruct (PyStr.eqb line "restart").
    + eexists; split; [apply run_print|]. now split.
    + destruct (process_command_ok flt server (init ip port) line w) as (w' & E & H1 & H2).
      now exists w'.
Qed.

Lemma for_each_app {A} (l1 l2 : list A) (body : A → M unit) w :
  for_each (l1 ++ l2) body w =
    match for_each l1 body w with
    | Ok _ w1 => for_each l2 body w1
    | Raise e w1 => Raise e w1
    end.
Proof.
  revert w. induction l1 as [|x l1 IH]; intros w; [reflexivity|].
  rewrite <- app_comm_cons, !run_for_cons.
  destruct (body x w) as [[] w1|e w1]; [apply IH | reflexivity].
Qed.

Lemma loop_spec lines w :
  ∃ w', for_each lines (run_line flt server (init ip port)) w = Ok tt w'
    ∧ resets w' = resets w
    ∧ fs w' = (if bool_decide ("shutdown" ∈ lines)
               then delete "restart_flag.txt" (fs w) else fs w).
Proof.
  revert w. induction lines as [|l lines IH]; intros w.
  - exists w. repeat split.
  - rewrite run_for_cons.
    destruct (run_line_spec l w) as (w1 & -> & R1 & F1).
    destruct (IH w1) as (w2 & -> & R2 & F2).
    exists w2. split; [reflexivity|]. split; [congruence|].
    rewrite F2, F1.
    destruct (eqb_spec l "shutdown") as [->|Hl].
    + rewrite (bool_decide_eq_true_2 (_ ∈ _ :: _)) by (by left).
      case_bool_decide; [apply delete_delete_eq | reflexivity].
    + destruct (bool_decide ("shutdown" ∈ lines)) eqn:E.
      * apply bool_decide_eq_true_1 in E. rewrite bool_decide_eq_true_2; [done | by right].
      * apply bool_decide_eq_false_1 in E. rewrite bool_decide_eq_false_2; [done|].
        intros [Hk|Hk]%elem_of_cons; [by subst | done].
Qed.

Lemma flag_not_db : "restart_flag.txt" ∉ db_files.
Proof. unfold db_files. intros H. repeat (apply elem_of_cons in H as [H|H]; [discriminate|]). by apply elem_of_nil in H. Qed.

Lemma startup_spec lines w :
  ∃ w1, startup (init ip port) lines w = Ok tt w1
    ∧ is_Some (fs w1 !! "restart_flag.txt")
    ∧ sent w1 = sent w
    ∧ resets w1 =
        (if bool_decide (is_Some (fs w !! "restart_flag.txt"))
         then resets w
         else if bool_decide (first_real_command lines = Some "restart")
              then resets w else S (resets w)).
Proof.
  unfold startup. cbn [restart_flag_file init]. run.
  case_bool_decide as Hf; cbn [negb andb]; run.
  - rewrite bool_decide_eq_true_2 by assumption. cbn [negb]. run.
    eexists; repeat split. assumption.
  - case_bool_decide as Hr; cbn [negb]; run.
    + rewrite bool_decide_eq_false_2 by assumption. cbn [negb]. run.
      eexists; split; [reflexivity|]. cbn. repeat split.
      rewrite lookup_insert_eq. eauto.
    + match goal with |- context [reset_databases ?w0] =>
        destruct (reset_databases_spec w0) as (w1 & -> & L & S1 & R1 & _) end.
      cbn [fs out sent resets] in *. run.
      rewrite L, (bool_decide_eq_false_2 _ flag_not_db).
      rewrite bool_decide_eq_false_2 by assumption. cbn [negb]. run.
      eexists; split; [reflexivity|]. cbn [fs out sent resets]. repeat split; try assumption.
      rewrite lookup_insert_eq. eauto.
Qed.

Lemma parse_workload_run workload w :
  ∃ w1 w',
    startup (init ip port) (map PyStr.strip workload) w = Ok tt w1
    ∧ for_each (map PyStr.strip workload) (run_line flt server (init ip port)) w1 = Ok tt w'
    ∧ parse_workload flt server (init ip port) workload w = Ok tt w'.
Proof.
  destruct (startup_spec (map PyStr.strip workload) w) as (w1 & E1 & _).
  destruct (loop_spec (map PyStr.strip workload) w1) as (w' & E2 & _).
  exists w1, w'. repeat split; try assumption.
  unfold parse_workload. now rewrite run_bind, E1.
Qed.

(** C1 (reset policy).  Every run of [parse_workload] completes, and it
    enters [reset_databases] (once) if and only if the flag file is absent
    when the run starts and the first line that is neither blank nor a
    comment is not [restart]; lines are compared after [strip].  When the
    file has no such line the second condition holds, so the reset runs
    whenever the flag is absent.  Otherwise the reset is not entered. *)
Theorem reset_policy workload w :
  ∃ w', parse_workload flt server (init ip port) workload w = Ok tt w'
    ∧ (resets w' = S (resets w)
       ↔ fs w !! "restart_flag.txt" = None
         ∧ ¬ first_real_line_is (map PyStr.strip workload) "restart")
    ∧ (resets w' = resets w
       ↔ ¬ (fs w !! "restart_flag.txt" = None
            ∧ ¬ first_real_line_is (map PyStr.strip workload) "restart")).
Proof.
  destruct (parse_workload_run workload w) as (w1 & w' & E1 & E2 & E).
  destruct (startup_spec (map PyStr.strip workload) w) as (w1' & E1' & _ & _ & R1).
  rewrite E1 in E1'. injection E1' as <-.
  destruct (loop_spec (map PyStr.strip workload) w1) as (w'' & E2' & R2 & _).
  rewrite E2 in E2'. injection E2' as <-.
  exists w'. split; [assumption|]. rewrite R2, R1.
  rewrite <- first_real_command_spec, eq_None_not_Some.
  repeat case_bool_decide; split; split; try tauto; try lia.
Qed.

(** C2 (flag lifecycle), amended.  After a run the flag file exists if and
    only if no line of the workload is a [shutdown] line: the flag is only
    created before the loop, so a [shutdown] anywhere leaves it absent at
    the end, whatever follows.  And every [shutdown] line, at any position,
    leaves the file system as it was less the flag file. *)
Theorem flag_lifecycle workload w :
  ∃ w', parse_workload flt server (init ip port) workload w = Ok tt w'
    ∧ (is_Some (fs w' !! "restart_flag.txt")
       ↔ ∀ l, l ∈ workload → PyStr.strip l ≠ "shutdown")
    ∧ ∀ pre l post,
        workload = pre ++ l :: post → PyStr.strip l = "shutdown" →
        ∃ w1 w2,
          (startup (init ip port) (map PyStr.strip workload) ;;;
           for_each (map PyStr.strip pre) (run_line flt server (init ip port))) w = Ok tt w1
          ∧ run_line flt server (init ip port) (PyStr.strip l) w1 = Ok tt w2
          ∧ fs w2 = delete "restart_flag.txt" (fs w1)
          ∧ for_each (map PyStr.strip post) (run_line flt server (init ip port)) w2 = Ok tt w'.
Proof.
  destruct (parse_workload_run workload w) as (w0 & w' & E1 & E2 & E).
  exists w'. split; [assumption|]. split.
  - destruct (startup_spec (map PyStr.strip workload) w) as (w0' & E1' & F0 & _).
    rewrite E1 in E1'. injection E1' as <-.
    destruct (loop_spec (map PyStr.strip workload) w0) as (w'' & E2' & _ & F).
    rewrite E2 in E2'. injection E2' as <-.
    rewrite F. case_bool_decide as Hs.
    + rewrite lookup_delete_eq. split; [intros []; discriminate|].
      intros H. apply list_elem_of_fmap in Hs as (l & Hl & Hin).
      exfalso. now apply (H l).
    + split; [|intros _; assumption].
      intros _ l Hin Hl. apply Hs. apply list_elem_of_fmap. now exists l.
  - intros pre l post -> Hl.
    rewrite map_app, for_each_app in E2. cbn [map] in E2.
    destruct (loop_spec (map PyStr.strip pre) w0) as (w1 & Epre & _).
    rewrite Epre, run_for_cons in E2.
    destruct (run_line_spec (PyStr.strip l) w1) as (w2 & El & _ & F2).
    rewrite El in E2. rewrite Hl in F2. cbn in F2.
    exists w1, w2. repeat split; try assumption.
    now rewrite run_bind, E1.
Qed.

Lemma first_real_skip x l y :
  is_real l = false →
  first_real_command (x ++ l :: y) = first_real_command (x ++ y).
Proof.
  intros Hl. induction x as [|z x IH]; simpl; [now rewrite Hl|].
  now rewrite IH.
Qed.

Lemma loop_skip x l y w :
  is_skipped l = true →
  for_each (x ++ l :: y) (run_line flt server (init ip port)) w
  = for_each (x ++ y) (run_line flt server (init ip port)) w.
Proof.
  intros Hl. rewrite !for_each_app.
  destruct (for_each x _ w) as [[] w1|e w1]; [|reflexivity].
  rewrite run_for_cons. unfold run_line at 1. now rewrite Hl.
Qed.

Lemma startup_first_real lines lines' w :
  first_real_command lines = first_real_command lines' →
  startup (init ip port) lines w = startup (init ip port) lines' w.
Proof. intros H. unfold startup. now rewrite H. Qed.

Lemma parse_workload_skip pre l post w :
  is_skipped (PyStr.strip l) = true →
  parse_workload flt server (init ip port) (pre ++ l :: post) w
  = parse_workload flt server (init ip port) (pre ++ post) w.
Proof.
  intros Hl. unfold parse_workload. rewrite !map_app. cbn [map].
  rewrite !run_bind.
  rewrite (startup_first_real _ (map PyStr.strip pre ++ map PyStr.strip post)).
  - destruct (startup _ _ w) as [[] w1|e w1]; [|reflexivity].
    now apply loop_skip.
  - apply first_real_skip. rewrite is_skipped_real in Hl.
    now destruct (is_real (PyStr.strip l)).
Qed.

Lemma parse_workload_strip pre l l' post w :
  PyStr.strip l = PyStr.strip l' →
  parse_workload flt server (init ip port) (pre ++ l :: post) w
  = parse_workload flt server (init ip port) (pre ++ l' :: post) w.
Proof.
  intros Hl. unfold parse_workload. rewrite !map_app. cbn [map]. now rewrite Hl.
Qed.

Lemma strip_cons_nonspace c s :
  PyStr.is_space c = false → PyStr.strip (c :: s) = c :: PyStr.rstrip s.
Proof.
  intros Hc. unfold PyStr.strip. cbn [PyStr.rstrip].
  destruct (PyStr.rstrip s) as [|d r]; rewrite ?Hc; cbn [PyStr.lstrip]; now rewrite Hc.
Qed.

Lemma strip_lpad a s : all_space a → PyStr.strip (a ++ s) = PyStr.strip s.
Proof.
  intros Ha. rewrite <- (append_nil_r s) at 1.
  apply strip_pad; [assumption | apply all_space_nil].
Qed.

(** C10 (lines are stripped).  Whitespace [a] before and [b] after a line
    changes nothing in the run; a line of whitespace only, and a comment
    with whitespace before its marker, are ignored as if they were not in
    the file; a padded [restart] that is the first real line prevents the
    reset; a padded [shutdown] deletes the flag file. *)
Theorem lines_are_stripped (a b : str) (pre post : list str) (w : world) :
  all_space a → all_space b →
  (∀ l, parse_workload flt server (init ip port) (pre ++ (a ++ l ++ b) :: post) w
        = parse_workload flt server (init ip port) (pre ++ l :: post) w)
  ∧ parse_workload flt server (init ip port) (pre ++ a :: post) w
    = parse_workload flt server (init ip port) (pre ++ post) w
  ∧ (∀ text, parse_workload flt server (init ip port) (pre ++ (a ++ "#" ++ text) :: post) w
             = parse_workload flt server (init ip port) (pre ++ post) w)
  ∧ (∀ text, parse_workload flt server (init ip port) (pre ++ (a ++ "//" ++ text) :: post) w
             = parse_workload flt server (init ip port) (pre ++ post) w)
  ∧ (Forall (λ l, ignorable (PyStr.strip l)) pre →
     resets (world_of (parse_workload flt server (init ip port)
                         (pre ++ (a ++ "restart" ++ b) :: post) w)) = resets w)
  ∧ fs (world_of (parse_workload flt server (init ip port)
                    (pre ++ (a ++ "shutdown" ++ b) :: post) w)) !! "restart_flag.txt" = None.
Proof.
  intros Ha Hb. repeat apply conj.
  - intros l. apply parse_workload_strip. now apply strip_pad.
  - apply parse_workload_skip. now rewrite strip_all_space.
  - intros text. apply parse_workload_skip.
    rewrite strip_lpad by assumption.
    change ("#" ++ text) with (35%N :: text).
    now rewrite strip_cons_nonspace.
  - intros text. apply parse_workload_skip.
    rewrite strip_lpad by assumption.
    change ("//" ++ text) with (47%N :: 47%N :: text).
    rewrite strip_cons_nonspace by reflexivity.
    cbn [PyStr.rstrip]. now destruct (PyStr.rstrip text).
  - intros Hpre.
    destruct (parse_workload_run (pre ++ (a ++ "restart" ++ b) :: post) w)
      as (w1 & w' & E1 & E2 & ->).
    destruct (startup_spec (map PyStr.strip (pre ++ (a ++ "restart" ++ b) :: post)) w)
      as (w1' & E1' & _ & _ & R1).
    rewrite E1 in E1'. injection E1' as <-.
    destruct (loop_spec (map PyStr.strip (pre ++ (a ++ "restart" ++ b) :: post)) w1)
      as (w'' & E2' & R2 & _).
    rewrite E2 in E2'. injection E2' as <-.
    cbn [world_of]. rewrite R2, R1.
    rewrite (bool_decide_eq_true_2 (first_real_command _ = _)); [now case_bool_decide|].
    apply first_real_command_spec.
    exists (map PyStr.strip pre), (map PyStr.strip post). repeat split.
    + rewrite map_app. cbn [map]. now rewrite strip_pad.
    + now apply Forall_fmap.
    + now apply is_real_spec.
  - destruct (parse_workload_run (pre ++ (a ++ "shutdown" ++ b) :: post) w)
      as (w1 & w' & E1 & E2 & ->).
    destruct (loop_spec (map PyStr.strip (pre ++ (a ++ "shutdown" ++ b) :: post)) w1)
      as (w'' & E2' & _ & F).
    rewrite E2 in E2'. injection E2' as <-.
    cbn [world_of]. rewrite F, bool_decide_eq_true_2; [apply lookup_delete_eq|].
    rewrite map_app. cbn [map]. rewrite strip_pad by assumption.
    apply elem_of_app. right. now left.
Qed.
End Driver.



(** ** The dispatch table *)

Section Dispatcher.
Context (flt : str → option spec_float).
Context (server : list request → request → reply).
Context (ip port : str).

Lemma try_block_table service command :
  (service, command) ∉ dispatch_table →
  try_block flt server (init ip port) service command = None.
Proof.
  intros H. unfold try_block.
  repeat match goal with
         | |- context [PyStr.eqb ?a ?b] =>
             destruct (eqb_spec a b); subst
         end; try reflexivity;
  exfalso; apply H; unfold dispatch_table; apply list_elem_of_In; simpl; tauto.
Qed.

Lemma try_block_msg service command body msg :
  try_block flt server (init ip port) service command = Some (body, msg) →
  (service, command) ∈ dispatch_table
  ∧ msg = (if PyStr.eqb service "ORDER" then structured_failure else generic_failure).
Proof.
  unfold try_block. intros H.
  repeat match type of H with
         | context [PyStr.eqb ?a ?b] =>
             destruct (eqb_spec a b); subst
         end; try discriminate; injection H as _ <-;
  (split; [unfold dispatch_table; apply list_elem_of_In; simpl; tauto | reflexivity]).
Qed.

Lemma run_line_dispatched line w :
  is_skipped line = false → line ≠ "shutdown" → line ≠ "restart" →
  run_line flt server (init ip port) line w
  = process_command flt server (init ip port) line w.
Proof.
  intros H1 H2 H3. unfold run_line. rewrite H1.
  destruct (eqb_spec line "shutdown"); [contradiction|].
  destruct (eqb_spec line "restart"); [contradiction|]. reflexivity.
Qed.

(** C3 (exceptions are caught).  Take a dispatched line whose service and
    action select a [try] block of the dispatch table, and let that block
    raise any exception [e] (from [int] or [float], from building the
    payload, or from the call into [requests]).  Then [process_command]
    returns normally after printing one line that does not depend on [e]:
    the placeholder [Failed:  {}], or the structured body for ORDER place;
    and the loop goes on with the remaining lines and does not raise. *)
Theorem exceptions_are_caught line rest w service body msg e w1 :
  is_skipped line = false → line ≠ "shutdown" → line ≠ "restart" →
  service_of (PyStr.split line) = Some service →
  try_block flt server (init ip port) service (command_of (PyStr.split line))
    = Some (body, msg) →
  body (drop 2 (PyStr.split line)) w = Raise e w1 →
  process_command flt server (init ip port) line w
    = Ok tt (World (fs w1) (out w1 ++ [msg]) (sent w1) (resets w1))
  ∧ msg = (if PyStr.eqb service "ORDER" then structured_failure else generic_failure)
  ∧ for_each (line :: rest) (run_line flt server (init ip port)) w
    = for_each rest (run_line flt server (init ip port))
        (World (fs w1) (out w1 ++ [msg]) (sent w1) (resets w1))
  ∧ raises (for_each (line :: rest) (run_line flt server (init ip port)) w) = false.
Proof.
  intros H1 H2 H3 Hs Hb He.
  assert (Hp : process_command flt server (init ip port) line w
               = Ok tt (World (fs w1) (out w1 ++ [msg]) (sent w1) (resets w1))).
  { rewrite process_command_dispatch, Hs, Hb, run_try, He. apply run_print. }
  assert (Hl : for_each (line :: rest) (run_line flt server (init ip port)) w
    = for_each rest (run_line flt server (init ip port))
        (World (fs w1) (out w1 ++ [msg]) (sent w1) (resets w1))).
  { now rewrite run_for_cons, run_line_dispatched, Hp. }
  repeat split; try assumption.
  - now apply try_block_msg in Hb as [_ ->].
  - rewrite Hl.
    destruct (loop_spec flt server ip port rest
                (World (fs w1) (out w1 ++ [msg]) (sent w1) (resets w1))) as (w' & -> & _).
    reflexivity.
Qed.

(** C7 (unknown command is a no-op).  A dispatched line whose normalized
    (service, action) pair is not in the dispatch table, be it for an
    unknown service or an unknown action of a known one, changes nothing:
    no call, no printed line, no exception. *)
Theorem unknown_command_is_noop line w :
  is_skipped line = false → line ≠ "shutdown" → line ≠ "restart" →
  (∀ service, service_of (PyStr.split line) = Some service →
              (service, command_of (PyStr.split line)) ∉ dispatch_table) →
  process_command flt server (init ip port) line w = Ok tt w
  ∧ run_line flt server (init ip port) line w = Ok tt w.
Proof.
  intros H1 H2 H3 H.
  assert (Hp : process_command flt server (init ip port) line w = Ok tt w).
  { rewrite process_command_dispatch.
    destruct (service_of (PyStr.split line)) as [service|]; [|reflexivity].
    now rewrite (try_block_table _ _ (H service eq_refl)). }
  split; [assumption|]. now rewrite run_line_dispatched.
Qed.
End Dispatcher.

(** ** The handlers *)

Lemma split_colon_none a : PyStr.split_colon a = None ↔ has_colon a = false.
Proof.
  unfold has_colon. induction a as [|c a IH]; [simpl; tauto|].
  cbn [PyStr.split_colon existsb].
  rewrite (N.eqb_sym 58%N c).
  destruct (N.eqb c 58%N); cbn [orb]; [split; discriminate|].
  rewrite <- IH. destruct (PyStr.split_colon a) as [[k v]|]; split; congruence.
Qed.

Lemma update_fields_none p args a :
  a ∈ args → has_colon a = false → update_fields p args = None.
Proof.
  intros Hin Ha. apply split_colon_none in Ha.
  revert p. induction args as [|x args IH]; intros p; [by apply elem_of_nil in Hin|].
  simpl. apply elem_of_cons in Hin as [<-|Hin].
  - now rewrite Ha.
  - destruct (PyStr.split_colon x) as [[k v]|]; [now apply IH | reflexivity].
Qed.

Lemma update_fields_lookup args : ∀ p,
  Forall (λ a, has_colon a = true) args →
  ∃ p', update_fields p args = Some p'
    ∧ ∀ key, p' !! key = match last_value key args with
                         | Some v => Some (JStr v)
                         | None => p !! key
                         end.
Proof.
  induction args as [|x args IH]; intros p H.
  - exists p. now split.
  - apply Forall_cons in H as [Hx H]. simpl.
    destruct (PyStr.split_colon x) as [[k v]|] eqn:E.
    + destruct (IH (<[k := JStr v]> p) H) as (p' & -> & L).
      exists p'. split; [reflexivity|]. intros key. rewrite L.
      destruct (last_value key args); [reflexivity|].
      rewrite lookup_insert.
      destruct (eqb_spec k key) as [->|Hk].
      * now rewrite decide_True.
      * now rewrite decide_False.
    + apply split_colon_none in E. congruence.
Qed.

Section Handlers.
Context (flt : str → option spec_float).
Context (server : list request → request → reply).
Context (ip port : str).

Lemma run_lift_some {A} e (a : A) w : lift e (Some a) w = Ok a w.
Proof. reflexivity. Qed.
Lemma run_lift_none {A} e w : lift e (@None A) w = Raise e w.
Proof. reflexivity. Qed.

Lemma run_call r w :
  call server r w =
    match server (sent w) r with
    | Response status_code text =>
        Ok (status_code, text) (World (fs w) (out w) (sent w ++ [r]) (resets w))
    | Failure => Raise RequestException (World (fs w) (out w) (sent w ++ [r]) (resets w))
    end.
Proof. reflexivity. Qed.

Lemma report_sent r w : ∃ w', report r w = Ok tt w' ∧ sent w' = sent w.
Proof. unfold report. destruct (_ =? _)%Z; eexists; split; reflexivity. Qed.

(** C9 (update fails atomically).  When some argument after the id of a
    USER or PRODUCT update has no colon, the [try] block raises before any
    call into [requests]: the world is unchanged at that point, and the
    handler returns after printing [Failed:  {}] only. *)
Theorem update_without_colon_sends_nothing (args : list str) (a : str) w :
  a ∈ drop 1 args → has_colon a = false →
  user_update_body server (init ip port) args w = Raise ValueError w
  ∧ product_update_body server (init ip port) args w = Raise ValueError w
  ∧ handle_user_command server (init ip port) "update" args w
    = Ok tt (World (fs w) (out w ++ ["Failed:  {}"]) (sent w) (resets w))
  ∧ handle_product_command flt server (init ip port) "update" args w
    = Ok tt (World (fs w) (out w ++ ["Failed:  {}"]) (sent w) (resets w)).
Proof.
  intros Hin Ha.
  assert (Hu : user_update_body server (init ip port) args w = Raise ValueError w).
  { unfold user_update_body, index, to_int.
    destruct args as [|a0 args]; [by apply elem_of_nil in Hin|].
    cbn [lookup list_lookup]. rewrite run_bind, run_lift_some, run_bind.
    destruct (PyStr.int a0) as [n|]; [|reflexivity].
    rewrite run_lift_some, run_bind.
    now rewrite (update_fields_none _ _ a Hin Ha). }
  assert (Hp : product_update_body server (init ip port) args w = Raise ValueError w).
  { unfold product_update_body, index, to_int.
    destruct args as [|a0 args]; [by apply elem_of_nil in Hin|].
    cbn [lookup list_lookup]. rewrite run_bind, run_lift_some, run_bind.
    destruct (PyStr.int a0) as [n|]; [|reflexivity].
    rewrite run_lift_some, run_bind.
    now rewrite (update_fields_none _ _ a Hin Ha). }
  repeat split; try assumption.
  - unfold handle_user_command. cbn [PyStr.eqb N.eqb Pos.eqb andb].
    now rewrite run_try, Hu.
  - unfold handle_product_command. cbn [PyStr.eqb N.eqb Pos.eqb andb].
    now rewrite run_try, Hp.
Qed.

Lemma get_body_run (endpoint : str) w :
  (response <~ requests_get server endpoint ;; report response) w
  = match server (sent w) (Get endpoint) with
    | Response status_code text =>
        report (status_code, text)
          (World (fs w) (out w) (sent w ++ [Get endpoint]) (resets w))
    | Failure =>
        Raise RequestException (World (fs w) (out w) (sent w ++ [Get endpoint]) (resets w))
    end.
Proof.
  rewrite run_bind. unfold requests_get. rewrite run_call.
  now destruct (server (sent w) (Get endpoint)).
Qed.

Lemma get_body_facts (endpoint : str) (body : M unit) w :
  body w = (response <~ requests_get server endpoint ;; report response) w →
  sent (world_of (try_except body (λ _, failed_placeholder) w)) = sent w ++ [Get endpoint]
  ∧ (raises (body w) = true ↔ server (sent w) (Get endpoint) = Failure).
Proof.
  intros E. rewrite run_try, E, get_body_run.
  destruct (server (sent w) (Get endpoint)) as [c t|].
  - destruct (report_sent (c, t) (World (fs w) (out w) (sent w ++ [Get endpoint]) (resets w)))
      as (w' & -> & Hs).
    split; [exact Hs|]. cbn [raises]. split; discriminate.
  - split; [reflexivity|]. now split.
Qed.

(** C8 (lookups use the raw id), amended.  With at least one argument,
    USER get and PRODUCT info issue one GET to the service path followed
    by the first argument as it stands, with no coercion; their [try]
    block raises exactly when that call into [requests] fails, so the
    [except] branch is reachable, but only through the call. *)
Theorem lookup_sends_raw_id (a0 : str) (rest : list str) w :
  sent (world_of (handle_user_command server (init ip port) "get" (a0 :: rest) w))
    = sent w ++ [Get (order_service_url (init ip port) ++ "/user/" ++ a0)]
  ∧ (raises (user_get_body server (init ip port) (a0 :: rest) w) = true
     ↔ server (sent w) (Get (order_service_url (init ip port) ++ "/user/" ++ a0)) = Failure)
  ∧ sent (world_of (handle_product_command flt server (init ip port) "info" (a0 :: rest) w))
    = sent w ++ [Get (order_service_url (init ip port) ++ "/product/" ++ a0)]
  ∧ (raises (product_info_body server (init ip port) (a0 :: rest) w) = true
     ↔ server (sent w) (Get (order_service_url (init ip port) ++ "/product/" ++ a0)) = Failure).
Proof.
  assert (Hu : user_get_body server (init ip port) (a0 :: rest) w
               = (response <~ requests_get server
                    (order_service_url (init ip port) ++ "/user/" ++ a0) ;;
                  report response) w).
  { unfold user_get_body, index, user_endpoint. cbn [lookup list_lookup].
    rewrite run_bind, run_lift_some. cbv zeta. now rewrite append_assoc. }
  assert (Hp : product_info_body server (init ip port) (a0 :: rest) w
               = (response <~ requests_get server
                    (order_service_url (init ip port) ++ "/product/" ++ a0) ;;
                  report response) w).
  { unfold product_info_body, index, product_endpoint. cbn [lookup list_lookup].
    rewrite run_bind, run_lift_some. cbv zeta. now rewrite append_assoc. }
  apply get_body_facts in Hu as [Hu1 Hu2]. apply get_body_facts in Hp as [Hp1 Hp2].
  split; [exact Hu1|]. split; [exact Hu2|]. split; [exact Hp1 | exact Hp2].
Qed.

(** C5 (USER update payload), amended.  For a USER update line whose first
    argument reads as the integer [n] and whose remaining arguments all
    contain a colon, one POST goes to the user endpoint.  Its payload holds,
    under each key, the raw value of the last argument with that key, and
    otherwise [command = "update"] and [id = n]: a later argument replaces
    an earlier field with the same key, [command] and [id] included. *)
Theorem user_update_payload (line t0 t1 a0 : str) (rest : list str) (n : Z) w :
  PyStr.split line = t0 :: t1 :: a0 :: rest →
  PyStr.upper t0 = "USER" → PyStr.lower t1 = "update" →
  PyStr.int a0 = Some n →
  Forall (λ a, has_colon a = true) rest →
  ∃ payload,
    sent (world_of (process_command flt server (init ip port) line w))
      = sent w ++ [Post (order_service_url (init ip port) ++ "/user") payload
                        {[ "Content-Type" := "application/json" ]}]
    ∧ (∀ key, payload !! key =
         match last_value key rest with
         | Some v => Some (JStr v)
         | None => if PyStr.eqb key "command" then Some (JStr "update")
                   else if PyStr.eqb key "id" then Some (JInt n)
                   else None
         end)
    ∧ (last_value "command" rest = None → payload !! "command" = Some (JStr "update"))
    ∧ (last_value "id" rest = None → payload !! "id" = Some (JInt n)).
Proof.
  intros Hsplit Ht0 Ht1 Hn Hrest.
  destruct (update_fields_lookup rest
              (dict [("command", JStr "update"); ("id", JInt n)]) Hrest)
    as (payload & Hp & L).
  assert (Hbase : ∀ key, (dict [("command", JStr "update"); ("id", JInt n)] : gmap str json) !! key
            = if PyStr.eqb key "command" then Some (JStr "update")
              else if PyStr.eqb key "id" then Some (JInt n) else None).
  { intros key. unfold dict. cbn [list_to_map foldr uncurry fst snd].
    rewrite !lookup_insert, lookup_empty.
    destruct (eqb_spec key "command") as [->|H1].
    - now rewrite decide_True.
    - rewrite decide_False by congruence.
      destruct (eqb_spec key "id") as [->|H2].
      + now rewrite decide_True.
      + now rewrite decide_False by congruence. }
  exists payload. split; [|split; [|split]].
  - unfold process_command, service_of, command_of. rewrite Hsplit.
    cbn [lookup list_lookup fmap option_fmap option_map drop]. rewrite Ht0, Ht1.
    cbn [PyStr.eqb N.eqb Pos.eqb andb].
    unfold handle_user_command. cbn [PyStr.eqb N.eqb Pos.eqb andb].
    rewrite run_try. unfold user_update_body, index, to_int.
    cbn [lookup list_lookup drop]. change (drop 0 rest) with rest.
    rewrite run_bind, run_lift_some, run_bind, Hn, run_lift_some. cbv zeta.
    rewrite run_bind, Hp, run_lift_some, run_bind.
    unfold requests_post. rewrite run_call.
    destruct (server _ _) as [c t|]; [|reflexivity].
    match goal with |- context [report ?r ?w0] =>
      destruct (report_sent r w0) as (w' & -> & Hs) end.
    exact Hs.
  - intros key. now rewrite L, Hbase.
  - intros H. now rewrite L, H, Hbase.
  - intros H. now rewrite L, H, Hbase.
Qed.
End Handlers.

(** ** Tokenization *)

Lemma letter_in c : is_ascii_letter c = true → In c ascii_letters.
Proof.
  unfold is_ascii_letter, ascii_letters. intros H.
  rewrite <- (N2Nat.id c). apply in_map. apply in_or_app.
  apply orb_true_iff in H as [H|H]; apply andb_true_iff in H as [H1 H2];
    apply N.leb_le in H1; apply N.leb_le in H2; [left | right]; apply in_seq; lia.
Qed.

Lemma swapcase_other c : is_ascii_letter c = false → swapcase_char c = c.
Proof.
  unfold is_ascii_letter, swapcase_char. intros H.
  apply orb_false_iff in H as [H1 H2]. now rewrite H2, H1.
Qed.

Lemma case_blind_letters : forallb case_blind ascii_letters = true.
Proof. vm_compute. reflexivity. Qed.

Lemma case_blind_all c : case_blind c = true.
Proof.
  destruct (is_ascii_letter c) eqn:E.
  - apply letter_in in E. revert c E. apply forallb_forall, case_blind_letters.
  - unfold case_blind. rewrite (swapcase_other c E), !eqb_refl, !Bool.eqb_reflx.
    reflexivity.
Qed.

Lemma case_blind_facts c :
  PyStr.upper_char (swapcase_char c) = PyStr.upper_char c
  ∧ PyStr.lower_char (swapcase_char c) = PyStr.lower_char c
  ∧ PyStr.is_space (swapcase_char c) = PyStr.is_space c
  ∧ PyStr.case_ignorable (swapcase_char c) = PyStr.case_ignorable c
  ∧ PyStr.cased (swapcase_char c) = PyStr.cased c
  ∧ N.eqb (swapcase_char c) 931 = N.eqb c 931.
Proof.
  pose proof (case_blind_all c) as H. unfold case_blind in H.
  repeat (apply andb_true_iff in H as [H ?]).
  repeat split;
    first [now apply eqb_eq | now apply Bool.eqb_prop].
Qed.


Lemma lower_swapcase c : PyStr.lower_char (swapcase_char c) = PyStr.lower_char c.
Proof. destruct (case_blind_facts c) as (_ & H & _). exact H. Qed.






















(** ** Further properties: the dispatcher as a plan *)

Ltac follow_step :=
  rewrite run_bind;
  lazymatch goal with
  | |- context [lift _ ?o ?w] => destruct o eqn:?
  end;
  cbn [lift mbind option_bind]; rewrite ?run_ret, ?run_raise.

Ltac follow_body :=
  intros w; repeat follow_step; try reflexivity; try (eexists; reflexivity).

Section Plan.
Context (flt : str → option spec_float).
Context (server : list request → request → reply).
Context (ip port : str).

Lemma user_create_follows args :
  follows server (user_create_body server (init ip port) args)
    (user_record_request (init ip port) "create" args).
Proof.
  unfold follows, user_create_body, user_record_request, index, to_int, requests_post.
  follow_body.
Qed.

Lemma user_delete_follows args :
  follows server (user_delete_body server (init ip port) args)
    (user_record_request (init ip port) "delete" args).
Proof.
  unfold follows, user_delete_body, user_record_request, index, to_int, requests_post.
  follow_body.
Qed.

Lemma user_get_follows args :
  follows server (user_get_body server (init ip port) args)
    (lookup_request (user_endpoint (init ip port)) args).
Proof.
  unfold follows, user_get_body, lookup_request, index, requests_get.
  follow_body.
Qed.

Lemma product_info_follows args :
  follows server (product_info_body server (init ip port) args)
    (lookup_request (product_endpoint (init ip port)) args).
Proof.
  unfold follows, product_info_body, lookup_request, index, requests_get.
  follow_body.
Qed.

Lemma user_update_follows args :
  follows server (user_update_body server (init ip port) args)
    (update_request (user_endpoint (init ip port)) args).
Proof.
  unfold follows, user_update_body, update_request, index, to_int, requests_post.
  follow_body.
Qed.

Lemma product_update_follows args :
  follows server (product_update_body server (init ip port) args)
    (update_request (product_endpoint (init ip port)) args).
Proof.
  unfold follows, product_update_body, update_request, index, to_int, requests_post.
  follow_body.
Qed.

Lemma product_create_follows args :
  follows server (product_create_body flt server (init ip port) args)
    (product_create_request flt (init ip port) args).
Proof.
  unfold follows, product_create_body, product_create_request, index, to_int,
    to_float, requests_post.
  follow_body.
Qed.

Lemma product_delete_follows args :
  follows server (product_delete_body flt server (init ip port) args)
    (product_delete_request flt (init ip port) args).
Proof.
  unfold follows, product_delete_body, product_delete_request, index, to_int,
    to_float, requests_post.
  follow_body.
Qed.

Lemma order_place_follows args :
  follows server (order_place_body server (init ip port) args)
    (order_place_request (init ip port) args).
Proof.
  unfold follows, order_place_body, order_place_request, index, to_int, requests_post.
  follow_body.
Qed.

Lemma try_block_follows service command body msg args :
  try_block flt server (init ip port) service command = Some (body, msg) →
  follows server (body args) (planned_request flt (init ip port) service command args).
Proof.
  unfold try_block, planned_request. intros H.
  repeat match type of H with
         | context [PyStr.eqb ?a ?b] => destruct (PyStr.eqb a b)
         end; try discriminate; injection H as <- _;
  auto using user_create_follows, user_delete_follows, user_get_follows,
    product_info_follows, user_update_follows, product_update_follows,
    product_create_follows, product_delete_follows, order_place_follows.
Qed.

Lemma try_block_none service command :
  try_block flt server (init ip port) service command = None →
  (service, command) ∉ dispatch_table.
Proof.
  intros H Hin. apply list_elem_of_In in Hin. unfold dispatch_table in Hin.
  cbn [In] in Hin.
  repeat (destruct Hin as [[= <- <-]|Hin]; [discriminate H|]). exact Hin.
Qed.

Lemma follows_execute body o msg w :
  follows server body o →
  try_except body (λ _, print msg) w
  = execute server (match o with Some req => Send req msg | None => Reject msg end) w.
Proof.
  intros H. specialize (H w). rewrite run_try. destruct o as [req|].
  - rewrite H, run_bind. unfold call, execute, after_call.
    destruct (server (sent w) req) as [c t|]; [|reflexivity].
    unfold report. cbn [fst snd]. now destruct (c =? 200)%Z.
  - destruct H as [e ->]. reflexivity.
Qed.

Lemma process_command_execute line w :
  process_command flt server (init ip port) line w
  = execute server (plan_of flt (init ip port) line) w.
Proof.
  rewrite process_command_dispatch. unfold plan_of.
  destruct (service_of (PyStr.split line)) as [service|]; [|reflexivity].
  destruct (try_block flt server (init ip port) service (command_of (PyStr.split line)))
    as [[body msg]|] eqn:E.
  - destruct (try_block_msg _ _ _ _ _ _ _ _ E) as [Hin ->].
    rewrite bool_decide_eq_true_2 by assumption.
    apply follows_execute. eapply try_block_follows. exact E.
  - rewrite bool_decide_eq_false_2; [reflexivity|].
    eapply try_block_none; exact E.
Qed.
End Plan.

Lemma remove_loop_log (l : list str) : ∀ w,
  NoDup l →
  for_each l (λ db_file,
    found <~ os_path_exists db_file ;;
    if found
    then os_remove db_file ;;; print ("Deleted " ++ db_file)
    else print (db_file ++ " not found, skipping.")) w
  = Ok tt (World (foldl (λ g p, delete p g) (fs w) l)
             (out w ++ map (λ p, if bool_decide (is_Some (fs w !! p))
                                 then "Deleted " ++ p
                                 else p ++ " not found, skipping.") l)
             (sent w) (resets w)).
Proof.
  induction l as [|p l IH]; intros [f o s r] Hnd.
  - run. cbn [map foldl]. now rewrite app_nil_r.
  - apply NoDup_cons in Hnd as [Hp Hnd].
    rewrite run_for_cons. run. cbn [map foldl].
    assert (Hmap : ∀ g : str → str,
              map (λ q, if bool_decide (is_Some (delete p f !! q)) then g q
                        else q ++ " not found, skipping.") l
              = map (λ q, if bool_decide (is_Some (f !! q)) then g q
                          else q ++ " not found, skipping.") l).
    { intros g. apply map_ext_in. intros q Hq. apply list_elem_of_In in Hq.
      rewrite lookup_delete_ne; [reflexivity|]. intros ->. contradiction. }
    case_bool_decide as Hf; run.
    + rewrite IH by assumption. cbn [fs out sent resets].
      rewrite Hmap, <- app_assoc. reflexivity.
    + rewrite IH by assumption. cbn [fs out sent resets].
      rewrite <- app_assoc. cbn [app]. rewrite (delete_id f p); [reflexivity|].
      destruct (f !! p) eqn:E; [|reflexivity]. exfalso; apply Hf; eauto.
Qed.

Lemma create_loop_log (l : list str) : ∀ w,
  for_each l (λ db_file,
    os_makedirs (os_path_dirname db_file) ;;;
    open_write db_file [] ;;;
    print ("Recreated fresh database file: " ++ db_file)) w
  = Ok tt (World (foldl (λ g p, <[p := []]> g) (fs w) l)
             (out w ++ map (λ p, "Recreated fresh database file: " ++ p) l)
             (sent w) (resets w)).
Proof.
  induction l as [|p l IH]; intros [f o s r].
  - run. cbn [map foldl]. now rewrite app_nil_r.
  - rewrite run_for_cons. run. rewrite IH. cbn [fs out sent resets map foldl].
    now rewrite <- app_assoc.
Qed.

Lemma db_files_NoDup : NoDup db_files.
Proof.
  unfold db_files.
  repeat (apply NoDup_cons; split;
          [intros H%list_elem_of_In; cbn [In] in H;
           repeat (destruct H as [H|H]; [discriminate H|]); exact H|]).
  apply NoDup_nil. constructor.
Qed.

(** X10 (the log of a reset).  [reset_databases] prints, for each database
    file in order, [Deleted] if the file existed when the reset started and
    [not found, skipping.] if not, then one [Recreated] line per file; it
    issues no call. *)
Theorem reset_log (w : world) :
  ∃ w1, reset_databases w = Ok tt w1
    ∧ out w1 = out w
        ++ map (λ p, if bool_decide (is_Some (fs w !! p))
                     then "Deleted " ++ p
                     else p ++ " not found, skipping.") db_files
        ++ map (λ p, "Recreated fresh database file: " ++ p) db_files
    ∧ sent w1 = sent w.
Proof.
  unfold reset_databases. rewrite run_bind, run_enter, run_bind.
  rewrite remove_loop_log by apply db_files_NoDup.
  rewrite create_loop_log. eexists; split; [reflexivity|].
  cbn [fs out sent resets]. split; [|reflexivity]. now rewrite <- app_assoc.
Qed.

Section Extras.
Context (flt : str → option spec_float).
Context (server : list request → request → reply).
Context (ip port : str).

(** X1 (the dispatcher as a plan).  [process_command] does what the plan of
    the line says and nothing else: nothing for a line outside the dispatch
    table; one printed failure line and no call when the arguments do not
    fit; otherwise the one call that the arguments determine, followed by one
    printed line: [Successful] with the body for status 200, [Failed] with
    the body for any other status, the failure line when the call raises. *)
Theorem dispatcher_follows_plan line w :
  process_command flt server (init ip port) line w
  = execute server (plan_of flt (init ip port) line) w.
Proof. apply process_command_execute. Qed.

(** X2 (one call, one line).  On every line [process_command] returns
    without raising, leaves the files and the reset count alone, issues at
    most one call and prints at most one line; a call is always followed by
    exactly one printed line. *)
Theorem one_call_one_line line w :
  ∃ w', process_command flt server (init ip port) line w = Ok tt w'
    ∧ fs w' = fs w ∧ resets w' = resets w
    ∧ ((sent w' = sent w ∧ (out w' = out w ∨ ∃ l, out w' = out w ++ [l]))
       ∨ (∃ req l, sent w' = sent w ++ [req] ∧ out w' = out w ++ [l])).
Proof.
  rewrite process_command_execute.
  destruct (plan_of flt (init ip port) line) as [|msg|req msg]; cbn [execute].
  - exists w. repeat split. left. split; [reflexivity | now left].
  - eexists; split; [reflexivity|]. cbn [fs out sent resets]. repeat split.
    left. split; [reflexivity | right; eauto].
  - destruct (server (sent w) req) as [c t|];
      (eexists; split; [reflexivity|]; unfold after_call; cbn [fs out sent resets];
       repeat split; right; eauto).
Qed.

Lemma run_line_planned line w :
  ∃ w', run_line flt server (init ip port) line w = Ok tt w'
    ∧ sent w' = sent w ++ match planned_call flt (init ip port) line with
                          | Some req => [req]
                          | None => []
                          end.
Proof.
  unfold planned_call, is_dispatched.
  destruct (is_skipped line) eqn:Hs.
  - unfold run_line. rewrite Hs. exists w. split; [reflexivity|].
    cbn [negb andb]. now rewrite app_nil_r.
  - destruct (eqb_spec line "shutdown") as [->|H1].
    + cbn [negb andb PyStr.eqb N.eqb Pos.eqb]. rewrite app_nil_r.
      unfold run_line. change (is_skipped "shutdown") with false.
      cbn [restart_flag_file init PyStr.eqb N.eqb Pos.eqb andb]. run.
      case_bool_decide; run; eexists; (split; [reflexivity|]); reflexivity.
    + destruct (eqb_spec line "restart") as [->|H2].
      * eexists. split; [reflexivity|]. cbn [negb andb sent]. now rewrite app_nil_r.
      * rewrite run_line_dispatched by assumption.
        rewrite process_command_execute. cbn [negb andb].
        destruct (plan_of flt (init ip port) line) as [|msg|req msg]; cbn [execute].
        -- exists w. now rewrite app_nil_r.
        -- eexists; split; [reflexivity|]. cbn [sent]. now rewrite app_nil_r.
        -- destruct (server (sent w) req); eexists; (split; [reflexivity|]); reflexivity.
Qed.

Lemma loop_planned lines w :
  ∃ w', for_each lines (run_line flt server (init ip port)) w = Ok tt w'
    ∧ sent w' = sent w ++ omap (planned_call flt (init ip port)) lines.
Proof.
  revert w. induction lines as [|l lines IH]; intros w.
  - exists w. split; [reflexivity|]. now rewrite app_nil_r.
  - rewrite run_for_cons.
    destruct (run_line_planned l w) as (w1 & -> & S1).
    destruct (IH w1) as (w2 & -> & S2).
    exists w2. split; [reflexivity|]. rewrite S2, S1, <- app_assoc. f_equal.
    cbn [omap list_omap]. now destruct (planned_call flt (init ip port) l).
Qed.

(** X3 (the calls of a run).  The calls that a run adds are those planned
    for its dispatched lines, in file order: they depend on the workload
    only, not on what the service answers nor on the files. *)
Theorem calls_of_a_run workload w :
  ∃ w', parse_workload flt server (init ip port) workload w = Ok tt w'
    ∧ sent w' = sent w ++ planned_calls flt (init ip port) workload.
Proof.
  destruct (parse_workload_run flt server ip port workload w) as (w1 & w' & E1 & E2 & E).
  exists w'. split; [assumption|].
  destruct (startup_spec ip port (map PyStr.strip workload) w) as (w1' & E1' & _ & S1 & _).
  rewrite E1 in E1'. injection E1' as <-.
  destruct (loop_planned (map PyStr.strip workload) w1) as (w'' & E2' & S2).
  rewrite E2 in E2'. injection E2' as <-.
  now rewrite S2, S1.
Qed.

Lemma startswith_append p x : PyStr.startswith p (p ++ x) = true.
Proof. apply startswith_spec. now exists x. Qed.

Ltac build_cases H :=
  repeat match type of H with
         | context [?l !! ?i] => destruct (l !! i) eqn:?; cbn [mbind option_bind] in H
         | context [PyStr.int ?a] => destruct (PyStr.int a) eqn:?; cbn [mbind option_bind] in H
         | context [flt ?a] => destruct (flt a) eqn:?; cbn [mbind option_bind] in H
         | context [update_fields ?p ?a] =>
             destruct (update_fields p a) eqn:?; cbn [mbind option_bind] in H
         end;
  try discriminate H.

Lemma endpoint_prefix base name :
  PyStr.startswith (base ++ "/") (base ++ 47%N :: name) = true.
Proof. apply startswith_spec. exists name. now rewrite append_assoc. Qed.

Lemma endpoint_prefix_rest base name rest :
  PyStr.startswith (base ++ "/") ((base ++ 47%N :: name) ++ rest) = true.
Proof. apply startswith_spec. exists (name ++ rest). now rewrite !append_assoc. Qed.

Lemma planned_request_url service command args req :
  planned_request flt (init ip port) service command args = Some req →
  PyStr.startswith (order_service_url (init ip port) ++ "/") (url_of req) = true.
Proof.
  unfold planned_request. intros H.
  repeat match type of H with
         | context [PyStr.eqb ?a ?b] => destruct (PyStr.eqb a b)
         end; try discriminate H;
  unfold user_record_request, lookup_request, update_request, product_create_request,
    product_delete_request, order_place_request, user_endpoint, product_endpoint,
    order_endpoint in H;
  build_cases H; injection H as <-; cbn [url_of];
  first [apply endpoint_prefix | apply endpoint_prefix_rest].
Qed.

Lemma planned_call_url line req :
  planned_call flt (init ip port) line = Some req →
  PyStr.startswith (order_service_url (init ip port) ++ "/") (url_of req) = true.
Proof.
  unfold planned_call, plan_of. destruct (is_dispatched line); [|discriminate].
  destruct (service_of (PyStr.split line)) as [service|]; [|discriminate].
  case_bool_decide; [|discriminate].
  destruct (planned_request _ _ _ _ _) as [r|] eqn:E; [|discriminate].
  intros [= <-]. eapply planned_request_url; exact E.
Qed.

Lemma omap_length_le {A B} (f : A → option B) (l : list A) :
  (length (omap f l) ≤ length l)%nat.
Proof.
  induction l as [|x l IH]; [reflexivity|]. cbn [omap list_omap].
  destruct (f x); cbn [length]; lia.
Qed.

(** X4 (calls stay on the service).  A run issues at most one call per line
    of the workload, and the URL of each starts with the order service URL
    followed by a slash. *)
Theorem calls_stay_on_service workload w :
  ∃ w' calls,
    parse_workload flt server (init ip port) workload w = Ok tt w'
    ∧ sent w' = sent w ++ calls
    ∧ (length calls ≤ length workload)%nat
    ∧ Forall (λ req, PyStr.startswith (order_service_url (init ip port) ++ "/")
                       (url_of req) = true) calls.
Proof.
  destruct (parse_workload_run flt server ip port workload w) as (w1 & w' & E1 & E2 & E).
  exists w', (planned_calls flt (init ip port) workload). split; [assumption|].
  destruct (startup_spec ip port (map PyStr.strip workload) w) as (w1' & E1' & _ & S1 & _).
  rewrite E1 in E1'. injection E1' as <-.
  destruct (loop_planned (map PyStr.strip workload) w1) as (w'' & E2' & S2).
  rewrite E2 in E2'. injection E2' as <-.
  split; [now rewrite S2, S1|]. unfold planned_calls. split.
  - etransitivity; [apply omap_length_le|]. now rewrite length_map.
  - apply Forall_forall. intros req Hin.
    apply list_elem_of_omap in Hin as (line & _ & Hl).
    eapply planned_call_url; exact Hl.
Qed.

(** X5 (USER create and delete).  Both send the same record, with the verb
    as [command], when there are at least four arguments and the first reads
    as an integer; further arguments are ignored.  With fewer arguments or
    an id that is not an integer they only print [Failed:  {}]. *)
Theorem user_record_commands (verb : str) (args : list str) w :
  verb = "create" ∨ verb = "delete" →
  handle_user_command server (init ip port) verb args w
  = execute server
      match args with
      | a0 :: username :: email :: password :: _ =>
          match PyStr.int a0 with
          | Some id =>
              Send (Post (order_service_url (init ip port) ++ "/user")
                      (dict [("command", JStr verb); ("id", JInt id);
                             ("username", JStr username); ("email", JStr email);
                             ("password", JStr password)])
                      {[ "Content-Type" := "application/json" ]})
                "Failed:  {}"
          | None => Reject "Failed:  {}"
          end
      | _ => Reject "Failed:  {}"
      end w.
Proof.
  intros [-> | ->]; unfold handle_user_command; cbn [PyStr.eqb N.eqb Pos.eqb andb];
    unfold failed_placeholder.
  - rewrite (follows_execute server _ _ _ _ (user_create_follows server ip port args)).
    unfold user_record_request.
    destruct args as [|a0 [|a1 [|a2 [|a3 rest]]]]; cbn [lookup list_lookup mbind option_bind];
      try reflexivity; destruct (PyStr.int a0); reflexivity.
  - rewrite (follows_execute server _ _ _ _ (user_delete_follows server ip port args)).
    unfold user_record_request.
    destruct args as [|a0 [|a1 [|a2 [|a3 rest]]]]; cbn [lookup list_lookup mbind option_bind];
      try reflexivity; destruct (PyStr.int a0); reflexivity.
Qed.

(** X6 (PRODUCT create).  It sends when there are at least five arguments,
    of which the first and fifth read as integers and the fourth as a float;
    otherwise it only prints [Failed:  {}]. *)
Theorem product_create_command (args : list str) w :
  handle_product_command flt server (init ip port) "create" args w
  = execute server
      match args with
      | a0 :: name :: description :: a3 :: a4 :: _ =>
          match PyStr.int a0, flt a3, PyStr.int a4 with
          | Some id, Some price, Some quantity =>
              Send (Post (order_service_url (init ip port) ++ "/product")
                      (dict [("command", JStr "create"); ("id", JInt id);
                             ("name", JStr name); ("description", JStr description);
                             ("price", JFloat price); ("quantity", JInt quantity)])
                      {[ "Content-Type" := "application/json" ]})
                "Failed:  {}"
          | _, _, _ => Reject "Failed:  {}"
          end
      | _ => Reject "Failed:  {}"
      end w.
Proof.
  unfold handle_product_command; cbn [PyStr.eqb N.eqb Pos.eqb andb];
    unfold failed_placeholder.
  rewrite (follows_execute server _ _ _ _
             (product_create_follows flt server ip port args)).
  unfold product_create_request.
  destruct args as [|a0 [|a1 [|a2 [|a3 [|a4 rest]]]]]; cbn [lookup list_lookup mbind option_bind];
    try reflexivity;
    destruct (PyStr.int a0); cbn [mbind option_bind]; try reflexivity;
    destruct (flt a3); cbn [mbind option_bind]; try reflexivity;
    destruct (PyStr.int a4); reflexivity.
Qed.

(** X7 (PRODUCT delete).  It takes id, name, price and quantity from the
    first four arguments and sends no description; it sends when the id and
    the quantity read as integers and the price as a float, and otherwise
    only prints [Failed:  {}]. *)
Theorem product_delete_command (args : list str) w :
  handle_product_command flt server (init ip port) "delete" args w
  = execute server
      match args with
      | a0 :: name :: a2 :: a3 :: _ =>
          match PyStr.int a0, flt a2, PyStr.int a3 with
          | Some id, Some price, Some quantity =>
              Send (Post (order_service_url (init ip port) ++ "/product")
                      (dict [("command", JStr "delete"); ("id", JInt id);
                             ("name", JStr name); ("price", JFloat price);
                             ("quantity", JInt quantity)])
                      {[ "Content-Type" := "application/json" ]})
                "Failed:  {}"
          | _, _, _ => Reject "Failed:  {}"
          end
      | _ => Reject "Failed:  {}"
      end w.
Proof.
  unfold handle_product_command; cbn [PyStr.eqb N.eqb Pos.eqb andb];
    unfold failed_placeholder.
  rewrite (follows_execute server _ _ _ _
             (product_delete_follows flt server ip port args)).
  unfold product_delete_request.
  destruct args as [|a0 [|a1 [|a2 [|a3 rest]]]]; cbn [lookup list_lookup mbind option_bind];
    try reflexivity;
    destruct (PyStr.int a0); cbn [mbind option_bind]; try reflexivity;
    destruct (flt a2); cbn [mbind option_bind]; try reflexivity;
    destruct (PyStr.int a3); reflexivity.
Qed.

(** X8 (ORDER place).  It sends when the first three arguments read as
    integers, as product id, user id and quantity; otherwise, and when the
    call raises, it prints the structured failure line. *)
Theorem order_place_command (args : list str) w :
  handle_order_command server (init ip port) "place" args w
  = execute server
      match args with
      | a0 :: a1 :: a2 :: _ =>
          match PyStr.int a0, PyStr.int a1, PyStr.int a2 with
          | Some product_id, Some user_id, Some quantity =>
              Send (Post (order_service_url (init ip port) ++ "/order")
                      (dict [("command", JStr "place order"); ("product_id", JInt product_id);
                             ("user_id", JInt user_id); ("quantity", JInt quantity)])
                      {[ "Content-Type" := "application/json" ]})
                structured_failure
          | _, _, _ => Reject structured_failure
          end
      | _ => Reject structured_failure
      end w.
Proof.
  unfold handle_order_command; cbn [PyStr.eqb N.eqb Pos.eqb andb];
    unfold invalid_request.
  rewrite (follows_execute server _ _ _ _
             (order_place_follows server ip port args)).
  unfold order_place_request.
  destruct args as [|a0 [|a1 [|a2 rest]]]; cbn [lookup list_lookup mbind option_bind];
    try reflexivity;
    destruct (PyStr.int a0); cbn [mbind option_bind]; try reflexivity;
    destruct (PyStr.int a1); cbn [mbind option_bind]; try reflexivity;
    destruct (PyStr.int a2); reflexivity.
Qed.

(** X9 (PRODUCT update payload).  With an integer id and colon-bearing
    fields, PRODUCT update sends one POST to the product endpoint whose
    payload holds, under each key, the value of the last field with that key,
    and otherwise [command = "update"] and the id. *)
Theorem product_update_payload (a0 : str) (rest : list str) (n : Z) w :
  PyStr.int a0 = Some n →
  Forall (λ a, has_colon a = true) rest →
  ∃ payload,
    handle_product_command flt server (init ip port) "update" (a0 :: rest) w
    = execute server
        (Send (Post (order_service_url (init ip port) ++ "/product") payload
                 {[ "Content-Type" := "application/json" ]})
           "Failed:  {}") w
    ∧ ∀ key, payload !! key =
        match last_value key rest with
        | Some v => Some (JStr v)
        | None => if PyStr.eqb key "command" then Some (JStr "update")
                  else if PyStr.eqb key "id" then Some (JInt n)
                  else None
        end.
Proof.
  intros Hn Hrest.
  destruct (update_fields_lookup rest
              (dict [("command", JStr "update"); ("id", JInt n)]) Hrest)
    as (payload & Hp & L).
  exists payload. split.
  - unfold handle_product_command; cbn [PyStr.eqb N.eqb Pos.eqb andb];
      unfold failed_placeholder.
    rewrite (follows_execute server _ _ _ _
               (product_update_follows server ip port (a0 :: rest))).
    unfold update_request. cbn [lookup list_lookup mbind option_bind drop].
    rewrite Hn. cbn [mbind option_bind]. change (drop 0 rest) with rest.
    rewrite Hp. reflexivity.
  - intros key. rewrite L. destruct (last_value key rest); [reflexivity|].
    unfold dict. cbn [list_to_map foldr uncurry fst snd].
    rewrite !lookup_insert, lookup_empty.
    destruct (eqb_spec key "command") as [->|H1].
    + now rewrite decide_True.
    + rewrite decide_False by congruence.
      destruct (eqb_spec key "id") as [->|H2].
      * now rewrite decide_True.
      * now rewrite decide_False by congruence.
Qed.


Lemma startup_files lines w :
  ∃ w1, startup (init ip port) lines w = Ok tt w1
    ∧ resets w1 = (if resets_now lines w then S (resets w) else resets w)
    ∧ ∀ p, fs w1 !! p =
        if PyStr.eqb p "restart_flag.txt"
        then match fs w !! p with Some c => Some c | None => Some flag_text end
        else if resets_now lines w && bool_decide (p ∈ db_files)
             then Some [] else fs w !! p.
Proof.
  unfold startup, resets_now. cbn [restart_flag_file init]. run.
  case_bool_decide as Hf; cbn [negb andb]; run.
  - rewrite bool_decide_eq_true_2 by assumption. cbn [negb]. run.
    eexists; split; [reflexivity|]. split; [reflexivity|]. intros p.
    destruct (eqb_spec p "restart_flag.txt") as [->|Hp]; [|reflexivity].
    destruct Hf as [c ->]. reflexivity.
  - assert (Hnone : fs w !! "restart_flag.txt" = None).
    { destruct (fs w !! "restart_flag.txt") eqn:E; [|reflexivity].
      exfalso; apply Hf; eauto. }
    case_bool_decide as Hr; cbn [negb]; run.
    + rewrite bool_decide_eq_false_2 by assumption. cbn [negb]. run.
      eexists; split; [reflexivity|]. cbn [fs out sent resets]. split; [reflexivity|].
      intros p. rewrite lookup_insert.
      destruct (eqb_spec p "restart_flag.txt") as [->|Hp].
      * rewrite decide_True by reflexivity. now rewrite Hnone.
      * now rewrite decide_False by congruence.
    + match goal with |- context [reset_databases ?w0] =>
        destruct (reset_databases_spec w0) as (w1 & -> & L & S1 & R1 & _) end.
      cbn [fs out sent resets] in *. run.
      rewrite L, (bool_decide_eq_false_2 _ flag_not_db).
      rewrite bool_decide_eq_false_2 by assumption. cbn [negb]. run.
      eexists; split; [reflexivity|]. cbn [fs out sent resets]. split; [assumption|].
      intros p. rewrite lookup_insert.
      destruct (eqb_spec p "restart_flag.txt") as [->|Hp].
      * rewrite decide_True by reflexivity. now rewrite Hnone.
      * rewrite decide_False by congruence. apply L.
Qed.

(** X11 (the files after a run).  After a run the flag file is absent if the
    workload has a [shutdown] line; otherwise it keeps its content if it
    existed and holds the fixed text if not.  The database files are emptied
    exactly when the reset ran; every other path is untouched. *)
Theorem files_after_run workload w :
  ∃ w', parse_workload flt server (init ip port) workload w = Ok tt w'
    ∧ ∀ p, fs w' !! p =
        if PyStr.eqb p "restart_flag.txt"
        then if bool_decide ("shutdown" ∈ map PyStr.strip workload) then None
             else match fs w !! p with Some c => Some c | None => Some flag_text end
        else if resets_now (map PyStr.strip workload) w && bool_decide (p ∈ db_files)
             then Some [] else fs w !! p.
Proof.
  destruct (parse_workload_run flt server ip port workload w) as (w1 & w' & E1 & E2 & E).
  exists w'. split; [assumption|].
  destruct (startup_files (map PyStr.strip workload) w) as (w1' & E1' & _ & F1).
  rewrite E1 in E1'. injection E1' as <-.
  destruct (loop_spec flt server ip port (map PyStr.strip workload) w1) as (w'' & E2' & _ & F2).
  rewrite E2 in E2'. injection E2' as <-.
  intros p. rewrite F2.
  destruct (eqb_spec p "restart_flag.txt") as [->|Hp].
  - case_bool_decide; [apply lookup_delete_eq|].
    rewrite F1. reflexivity.
  - case_bool_decide; [rewrite lookup_delete_ne by congruence|]; rewrite F1;
      destruct (eqb_spec p "restart_flag.txt"); try contradiction; reflexivity.
Qed.

Lemma run_summary workload w :
  ∃ w', parse_workload flt server (init ip port) workload w = Ok tt w'
    ∧ resets w' = (if resets_now (map PyStr.strip workload) w
                   then S (resets w) else resets w)
    ∧ (is_Some (fs w' !! "restart_flag.txt") ↔ "shutdown" ∉ map PyStr.strip workload).
Proof.
  destruct (parse_workload_run flt server ip port workload w) as (w1 & w' & E1 & E2 & E).
  exists w'. split; [assumption|].
  destruct (startup_files (map PyStr.strip workload) w) as (w1' & E1' & R1 & F1).
  rewrite E1 in E1'. injection E1' as <-.
  destruct (loop_spec flt server ip port (map PyStr.strip workload) w1) as (w'' & E2' & R2 & F2).
  rewrite E2 in E2'. injection E2' as <-.
  split; [now rewrite R2, R1|].
  rewrite F2. case_bool_decide as Hs.
  - rewrite lookup_delete_eq. split; [intros []; discriminate | contradiction].
  - split; [intros _; assumption|]. intros _. rewrite F1.
    cbn [PyStr.eqb N.eqb Pos.eqb andb].
    destruct (fs w !! "restart_flag.txt"); eauto.
Qed.

(** X12 (two runs in a row).  The second of two consecutive runs enters the
    reset if and only if the first workload had a [shutdown] line and the
    first real line of the second is not [restart]. *)
Theorem second_run_resets (first second : list str) w :
  ∃ w1 w2,
    parse_workload flt server (init ip port) first w = Ok tt w1
    ∧ parse_workload flt server (init ip port) second w1 = Ok tt w2
    ∧ (resets w2 = S (resets w1)
       ↔ (∃ l, l ∈ first ∧ PyStr.strip l = "shutdown")
         ∧ ¬ first_real_line_is (map PyStr.strip second) "restart")
    ∧ (resets w2 = resets w1
       ↔ ¬ ((∃ l, l ∈ first ∧ PyStr.strip l = "shutdown")
            ∧ ¬ first_real_line_is (map PyStr.strip second) "restart")).
Proof.
  destruct (run_summary first w) as (w1 & E1 & _ & F1).
  destruct (run_summary second w1) as (w2 & E2 & R2 & _).
  exists w1, w2. split; [assumption|]. split; [assumption|].
  assert (Hs : "shutdown" ∈ map PyStr.strip first
               ↔ ∃ l, l ∈ first ∧ PyStr.strip l = "shutdown").
  { rewrite list_elem_of_fmap. split; intros (l & H1 & H2); exists l; now split. }
  rewrite <- Hs, <- first_real_command_spec, R2. unfold resets_now.
  destruct (decide ("shutdown" ∈ map PyStr.strip first)) as [Hin|Hin].
  - rewrite (bool_decide_eq_false_2 (is_Some _)) by (intros H; now apply F1 in H).
    cbn [negb andb]. case_bool_decide; cbn [negb]; split; split; try tauto; try lia.
  - rewrite (bool_decide_eq_true_2 (is_Some _)) by (now apply F1).
    cbn [negb andb]. split; split; try tauto; try lia.
Qed.
End Extras.

Lemma no_space_nil : no_space [].
Proof. constructor. Qed.

Lemma no_space_cons c s : no_space (c :: s) ↔ PyStr.is_space c = false ∧ no_space s.
Proof.
  unfold no_space; simpl. split.
  - intros H; inversion H; subst; auto.
  - intros [Hc Hs]; constructor; auto.
Qed.

Lemma no_space_snoc t c : no_space t → PyStr.is_space c = false → no_space (t ++ [c]).
Proof.
  intros Ht Hc. induction t as [|d t IH].
  - rewrite ?append_nil_l. apply no_space_cons. split; [assumption | apply no_space_nil].
  - rewrite ?append_cons. apply no_space_cons in Ht as [Hd Ht].
    apply no_space_cons. split; [assumption | now apply IH].
Qed.

Lemma eqb_empty_false t : PyStr.eqb t [] = false → t ≠ [].
Proof. intros H ->. discriminate. Qed.

Lemma split_from_words s : ∀ tok, no_space tok → Forall is_word (PyStr.split_from tok s).
Proof.
  induction s as [|c s IH]; intros tok Ht; cbn [PyStr.split_from].
  - destruct (PyStr.eqb tok []) eqn:E; [constructor|].
    repeat constructor; [now apply eqb_empty_false | assumption].
  - destruct (PyStr.is_space c) eqn:Hc.
    + destruct (PyStr.eqb tok []) eqn:E.
      * apply IH, no_space_nil.
      * constructor; [split; [now apply eqb_empty_false | assumption]|].
        apply IH, no_space_nil.
    + apply IH. now apply no_space_snoc.
Qed.

(** X13 (tokens are words).  Every token that the tokenizer yields is
    non-empty and free of whitespace. *)
Theorem tokens_are_words (line : str) : Forall is_word (PyStr.split line).
Proof. apply split_from_words, no_space_nil. Qed.

Lemma split_from_word t : ∀ tok s,
  no_space t → PyStr.split_from tok (t ++ s) = PyStr.split_from (tok ++ t) s.
Proof.
  induction t as [|c t IH]; intros tok s Ht.
  - now rewrite ?append_nil_l, append_nil_r.
  - apply no_space_cons in Ht as [Hc Ht].
    rewrite ?append_cons. cbn [PyStr.split_from]. rewrite Hc, IH by assumption.
    now rewrite append_assoc.
Qed.

Lemma eqb_empty_word t : t ≠ [] → PyStr.eqb t [] = false.
Proof. destruct t; [contradiction | reflexivity]. Qed.

(** X14 (split after join).  Words joined by single spaces are split back
    into the same words. *)
Theorem split_unwords (tokens : list str) :
  Forall is_word tokens → PyStr.split (unwords tokens) = tokens.
Proof.
  unfold PyStr.split. induction 1 as [|t l [Hne Hns] Hl IH]; [reflexivity|].
  cbn [unwords]. rewrite split_from_word, ?append_nil_l by assumption.
  destruct l as [|u l].
  - cbn [PyStr.split_from]. now rewrite eqb_empty_word.
  - rewrite ?append_cons, ?append_nil_l. cbn [PyStr.split_from].
    change (PyStr.is_space 32%N) with true. cbv iota.
    rewrite eqb_empty_word by assumption. now rewrite IH.
Qed.

Lemma split_from_blank s : all_space s → PyStr.split_from [] s = [].
Proof.
  induction s as [|c s IH]; intros H; [reflexivity|].
  apply all_space_cons in H as [Hc Hs]. cbn [PyStr.split_from].
  rewrite Hc. cbn [PyStr.eqb]. now apply IH.
Qed.

(** X15 (blank command).  On a line of whitespace only, [process_command]
    returns at once: the world is unchanged. *)
Theorem blank_command_is_noop flt server self (line : str) w :
  all_space line → process_command flt server self line w = Ok tt w.
Proof.
  intros H. unfold process_command, PyStr.split. now rewrite split_from_blank.
Qed.

(** X16 (splitting a field).  [arg.split(':', 1)] gives [key] and [value]
    exactly when [arg] is [key], a colon and [value] with no colon in [key]:
    the value keeps any further colon. *)
Theorem field_split (s k v : str) :
  PyStr.split_colon s = Some (k, v) ↔ s = k ++ ":" ++ v ∧ has_colon k = false.
Proof.
  revert k. induction s as [|c s IH]; intros k.
  - cbn [PyStr.split_colon]. split; [discriminate|]. intros [H _].
    destruct k; discriminate H.
  - cbn [PyStr.split_colon]. destruct (N.eqb_spec c 58%N) as [->|Hc].
    + split.
      * intros [= <- <-]. now split.
      * intros [H Hk]. destruct k as [|d k].
        -- rewrite ?append_nil_l in H. now injection H as ->.
        -- rewrite ?append_cons in H. injection H as <- _.
           unfold has_colon in Hk. cbn [existsb] in Hk.
           rewrite N.eqb_refl in Hk. discriminate.
    + destruct (PyStr.split_colon s) as [[k' v']|] eqn:E.
      * split.
        -- intros [= <- <-]. destruct (proj1 (IH k') eq_refl) as [-> Hk'].
           split; [now rewrite ?append_cons|].
           unfold has_colon in *. cbn [existsb].
           rewrite Hk'. destruct (N.eqb_spec 58%N c); [congruence | reflexivity].
        -- intros [H Hk]. destruct k as [|d k].
           ++ rewrite ?append_nil_l in H. injection H as -> _. contradiction.
           ++ rewrite ?append_cons in H. injection H as <- Hs.
              unfold has_colon in Hk. cbn [existsb] in Hk.
              apply orb_false_iff in Hk as [_ Hk].
              pose proof (proj2 (IH k) (conj Hs Hk)) as Heq.
              injection Heq as -> ->. reflexivity.
      * split; [discriminate|]. intros [H Hk]. destruct k as [|d k].
        -- rewrite ?append_nil_l in H. injection H as -> _. contradiction.
        -- rewrite ?append_cons in H. injection H as <- Hs.
           unfold has_colon in Hk. cbn [existsb] in Hk.
           apply orb_false_iff in Hk as [_ Hk].
           pose proof (proj2 (IH k) (conj Hs Hk)) as Habs. discriminate Habs.
Qed.

Lemma rstrip_idempotent s : PyStr.rstrip (PyStr.rstrip s) = PyStr.rstrip s.
Proof.
  induction s as [|c s IH]; [reflexivity|]. cbn [PyStr.rstrip].
  destruct (PyStr.rstrip s) as [|d r] eqn:E.
  - destruct (PyStr.is_space c) eqn:Hc; [reflexivity|].
    cbn [PyStr.rstrip]. now rewrite Hc.
  - change (PyStr.rstrip (c :: d :: r))
      with (match PyStr.rstrip (d :: r) with
            | [] => if PyStr.is_space c then [] else [c]
            | r' => c :: r'
            end).
    now rewrite IH.
Qed.

Lemma rstrip_lstrip s : PyStr.rstrip (PyStr.lstrip s) = PyStr.lstrip (PyStr.rstrip s).
Proof.
  induction s as [|c s IH]; [reflexivity|]. cbn [PyStr.lstrip PyStr.rstrip].
  destruct (PyStr.is_space c) eqn:Hc.
  - rewrite IH. destruct (PyStr.rstrip s) as [|d r]; [reflexivity|].
    cbn [PyStr.lstrip]. now rewrite Hc.
  - cbn [PyStr.rstrip]. destruct (PyStr.rstrip s) as [|d r];
      rewrite ?Hc; cbn [PyStr.lstrip]; now rewrite Hc.
Qed.

Lemma lstrip_idempotent s : PyStr.lstrip (PyStr.lstrip s) = PyStr.lstrip s.
Proof.
  induction s as [|c s IH]; [reflexivity|]. cbn [PyStr.lstrip].
  destruct (PyStr.is_space c) eqn:Hc; [assumption|].
  cbn [PyStr.lstrip]. now rewrite Hc.
Qed.

Lemma strip_idempotent s : PyStr.strip (PyStr.strip s) = PyStr.strip s.
Proof.
  unfold PyStr.strip.
  now rewrite rstrip_lstrip, rstrip_idempotent, lstrip_idempotent.
Qed.

(** X17 (stripping beforehand).  A workload whose lines were stripped
    already runs exactly as the original one. *)
Theorem stripping_first_changes_nothing flt server self (workload : list str) w :
  parse_workload flt server self (map PyStr.strip workload) w
  = parse_workload flt server self workload w.
Proof.
  unfold parse_workload. rewrite map_map.
  rewrite (map_ext _ PyStr.strip (λ l, strip_idempotent l)). reflexivity.
Qed.

(** ** Concrete runs *)

Example scenario_A_run :
  ∃ w', parse_workload no_float ok_server sample_parser scenario_A empty_world = Ok tt w'
    ∧ resets w' = 1
    ∧ is_Some (fs w' !! "restart_flag.txt")
    ∧ sent w' = [Post "http://127.0.0.1:14000/user"
                   (dict [("command", JStr "create"); ("id", JInt 1);
                          ("username", JStr "alice"); ("email", JStr "a@x.com");
                          ("password", JStr "pw")])
                   json_headers].
Proof.
  eexists. split; [vm_compute; reflexivity|]. split; [reflexivity|].
  split; [vm_compute; eauto | vm_compute; reflexivity].
Qed.

Example scenario_B_run :
  ∃ w', parse_workload no_float ok_server sample_parser scenario_B empty_world = Ok tt w'
    ∧ resets w' = 0
    ∧ is_Some (fs w' !! "restart_flag.txt")
    ∧ sent w' = [Get "http://127.0.0.1:14000/product/5"].
Proof.
  eexists. split; [vm_compute; reflexivity|]. split; [reflexivity|].
  split; [vm_compute; eauto | vm_compute; reflexivity].
Qed.

Example scenario_C_run :
  ∃ w', parse_workload no_float ok_server sample_parser scenario_C started_world = Ok tt w'
    ∧ resets w' = 0
    ∧ sent w' = [Post "http://127.0.0.1:14000/order"
                   (dict [("command", JStr "place order"); ("product_id", JInt 10);
                          ("user_id", JInt 20); ("quantity", JInt 3)])
                   json_headers].
Proof.
  eexists. split; [vm_compute; reflexivity|]. split; [reflexivity|].
  vm_compute; reflexivity.
Qed.

Example scenario_D_run :
  ∃ w', parse_workload no_float ok_server sample_parser scenario_D started_world = Ok tt w'
    ∧ fs w' !! "restart_flag.txt" = None
    ∧ sent w' = [].
Proof.
  eexists. split; [vm_compute; reflexivity|]. split; vm_compute; reflexivity.
Qed.

Example python_strings :
  PyStr.split ("  user  Create 7 a:b " ++ LF) = ["user"; "Create"; "7"; "a:b"]
  ∧ PyStr.strip ("  res tart " ++ LF) = "res tart"
  ∧ PyStr.int "-1_000" = Some (-1000)%Z ∧ PyStr.int "1__0" = None
  ∧ PyStr.int "_1" = None ∧ PyStr.int "1_" = None ∧ PyStr.int "+007" = Some 7%Z
  ∧ PyStr.int "-" = None ∧ PyStr.int "7x" = None
  ∧ PyStr.split_colon "email:new@x.com:y" = Some ("email", "new@x.com:y")
  ∧ PyStr.upper "User" = "USER" ∧ PyStr.lower "CrEaTe" = "create"
  ∧ os_path_dirname "compiled/UserService/users.txt" = "compiled/UserService".
Proof. repeat split; vm_compute; reflexivity. Qed.

(** Characters outside ASCII: the no-break space (160) is whitespace for
    [strip] and [split]; the long s has S as its upper case and the sharp s
    has two letters; a capital sigma at the end of a word becomes a final
    sigma; [int] reads the decimal digits of any script, skips no
    information separator (28), and refuses more than 4300 digits. *)
Example python_unicode :
  PyStr.strip ("shutdown" ++ [160%N] ++ LF) = "shutdown"
  ∧ PyStr.strip ([160%N; 8195%N] ++ LF) = []
  ∧ PyStr.split ("user" ++ [160%N] ++ "get" ++ [160%N] ++ "5") = ["user"; "get"; "5"]
  ∧ PyStr.upper "uſer" = "USER" ∧ PyStr.upper "straße" = "STRASSE"
  ∧ PyStr.lower "ΑΣ ΣΑ" = "ας σα" ∧ PyStr.lower "PLACE" = "place"
  ∧ PyStr.int "١٢" = Some 12%Z ∧ PyStr.int ([160%N] ++ "-٧" ++ LF) = Some (-7)%Z
  ∧ PyStr.int ([28%N] ++ "5") = None ∧ PyStr.int "²" = None
  ∧ PyStr.int (repeat 48%N 4299 ++ "7") = Some 7%Z
  ∧ PyStr.int (repeat 48%N 4300 ++ "7") = None
  ∧ PyStr.int (repeat 48%N 4299 ++ "_7_") = None.
Proof. repeat split; vm_compute; reflexivity. Qed.

(** The same characters in a workload. *)
Example unicode_lines :
  sent (world_of (process_command no_float ok_server sample_parser "uſer get 1" empty_world))
    = [Get "http://127.0.0.1:14000/user/1"]
  ∧ sent (world_of (process_command no_float ok_server sample_parser
                      ("user" ++ [160%N] ++ "get" ++ [160%N] ++ "5") empty_world))
    = [Get "http://127.0.0.1:14000/user/5"]
  ∧ fs (world_of (parse_workload no_float ok_server sample_parser
                    ["shutdown" ++ [160%N] ++ LF] started_world)) !! "restart_flag.txt" = None
  ∧ resets (world_of (parse_workload no_float ok_server sample_parser
                        [[160%N] ++ LF; [160%N] ++ "restart" ++ LF] empty_world)) = 0%nat
  ∧ process_command no_float ok_server sample_parser
      ("user create " ++ repeat 49%N 4301 ++ " alice a@x.com pw") empty_world
    = Ok tt (World ∅ ["Failed:  {}"] [] 0)
  ∧ sent (world_of (process_command no_float ok_server sample_parser
                      "order place ١٠ ٢٠ ٣" empty_world))
    = [Post "http://127.0.0.1:14000/order"
         (dict [("command", JStr "place order"); ("product_id", JInt 10);
                ("user_id", JInt 20); ("quantity", JInt 3)])
         json_headers].
Proof. repeat split; vm_compute; reflexivity. Qed.

(** A no-break space ends a field of an update, and digits of another
    script give the id. *)
Example unicode_arguments :
  sent (world_of (process_command no_float ok_server sample_parser
                    ("user update 7 a:b" ++ [160%N] ++ "c:d") empty_world))
    = [Post "http://127.0.0.1:14000/user"
         (dict [("command", JStr "update"); ("id", JInt 7); ("a", JStr "b"); ("c", JStr "d")])
         json_headers]
  ∧ sent (world_of (process_command no_float ok_server sample_parser
                      "user create ١ alice a@x.com pw" empty_world))
    = [Post "http://127.0.0.1:14000/user"
         (dict [("command", JStr "create"); ("id", JInt 1); ("username", JStr "alice");
                ("email", JStr "a@x.com"); ("password", JStr "pw")])
         json_headers]
  ∧ process_command no_float ok_server sample_parser
      ("order place " ++ repeat 49%N 4301 ++ " 20 3") empty_world
    = Ok tt (World ∅ [structured_failure] [] 0).
Proof. repeat split; vm_compute; reflexivity. Qed.

(** The three sources of exceptions, and the two kinds of report. *)
Example failure_reports :
  out (world_of (process_command no_float ok_server sample_parser
                   "user create 1 alice" empty_world)) = ["Failed:  {}"]
  ∧ out (world_of (process_command no_float ok_server sample_parser
                     "product create 1 pen blue 2.5 3" empty_world)) = ["Failed:  {}"]
  ∧ out (world_of (process_command no_float down_server sample_parser
                     "user delete 1 alice a@x.com pw" empty_world)) = ["Failed:  {}"]
  ∧ out (world_of (process_command no_float ok_server sample_parser
                     "order place 10 twenty 3" empty_world))
    = ["Failed: {" ++ DQ ++ "status" ++ DQ ++ ":" ++ DQ ++ "Invalid Request" ++ DQ ++ "}"]
  ∧ out (world_of (process_command no_float ok_server sample_parser
                     "order place 10 20 3" empty_world)) = ["Successful:  {}"].
Proof. repeat split; vm_compute; reflexivity. Qed.

(** C2 as stated fails: the last processed line is not [shutdown], and yet
    the flag file is absent after the run. *)
Lemma flag_lifecycle_counterexample :
  last_processed shutdown_then_get = Some "user get 1"
  ∧ ∃ w', parse_workload no_float ok_server sample_parser shutdown_then_get empty_world = Ok tt w'
          ∧ fs w' !! "restart_flag.txt" = None.
Proof.
  split; [vm_compute; reflexivity|].
  eexists. split; [vm_compute; reflexivity | vm_compute; reflexivity].
Qed.

(** C2, amended, on the same workload. *)
Lemma flag_lifecycle_witness :
  ∃ w1 w2,
    run_line no_float ok_server sample_parser (PyStr.strip ("shutdown" ++ LF)) w1 = Ok tt w2
    ∧ fs w2 = delete "restart_flag.txt" (fs w1).
Proof.
  destruct (flag_lifecycle no_float ok_server "127.0.0.1" "14000" shutdown_then_get empty_world)
    as (w' & _ & _ & H).
  destruct (H [] ("shutdown" ++ LF) ["user get 1" ++ LF] eq_refl eq_refl)
    as (w1 & w2 & _ & E & F & _).
  exists w1, w2. split; assumption.
Defined.

(** C3 on a line whose id is not a number. *)
Lemma exceptions_are_caught_witness :
  process_command no_float ok_server sample_parser "user create x" empty_world
    = Ok tt (World ∅ ["Failed:  {}"] [] 0)
  ∧ generic_failure = "Failed:  {}"
  ∧ for_each ["user create x"; "user get 1"] (run_line no_float ok_server sample_parser) empty_world
    = for_each ["user get 1"] (run_line no_float ok_server sample_parser)
        (World ∅ ["Failed:  {}"] [] 0)
  ∧ raises (for_each ["user create x"; "user get 1"]
              (run_line no_float ok_server sample_parser) empty_world) = false.
Proof.
  apply (exceptions_are_caught no_float ok_server "127.0.0.1" "14000"
           "user create x" ["user get 1"] empty_world "USER"
           (user_create_body ok_server sample_parser) generic_failure
           ValueError empty_world);
    [reflexivity | discriminate | discriminate | reflexivity | reflexivity | reflexivity].
Defined.

(** C5 as stated fails: the field [id:8] replaces the integer id. *)
Lemma user_update_payload_counterexample :
  PyStr.split "user update 7 id:8" = ["user"; "update"; "7"; "id:8"]
  ∧ PyStr.int "7" = Some 7%Z
  ∧ has_colon "id:8" = true
  ∧ ∃ payload,
      sent (world_of (process_command no_float ok_server sample_parser
                        "user update 7 id:8" empty_world))
        = [Post "http://127.0.0.1:14000/user" payload json_headers]
      ∧ payload !! "id" = Some (JStr "8")
      ∧ payload !! "id" ≠ Some (JInt 7).
Proof.
  repeat split; try reflexivity.
  eexists. split; [vm_compute; reflexivity|]. split; [vm_compute; reflexivity|].
  vm_compute. discriminate.
Qed.

(** C5, amended, on Scenario E. *)
Lemma user_update_payload_witness :
  ∃ payload,
    sent (world_of (process_command no_float ok_server sample_parser
                      "user update 7 email:new@x.com status:active" empty_world))
      = [Post "http://127.0.0.1:14000/user" payload json_headers]
    ∧ payload !! "command" = Some (JStr "update")
    ∧ payload !! "id" = Some (JInt 7)
    ∧ payload !! "email" = Some (JStr "new@x.com")
    ∧ payload !! "status" = Some (JStr "active").
Proof.
  destruct (user_update_payload no_float ok_server "127.0.0.1" "14000"
              "user update 7 email:new@x.com status:active"
              "user" "update" "7" ["email:new@x.com"; "status:active"] 7 empty_world
              eq_refl eq_refl eq_refl eq_refl)
    as (payload & Hs & Hk & Hc & Hi).
  - repeat constructor.
  - exists payload. split; [exact Hs|]. split; [exact (Hc eq_refl)|].
    split; [exact (Hi eq_refl)|]. split; [exact (Hk "email") | exact (Hk "status")].
Defined.

(** The three spellings of P4. *)
Example P4_spellings :
  (service_of (PyStr.split "user create 1"), command_of (PyStr.split "user create 1"))
    = (Some "USER", "create")
  ∧ (service_of (PyStr.split "USER CREATE 1"), command_of (PyStr.split "USER CREATE 1"))
    = (Some "USER", "create")
  ∧ (service_of (PyStr.split "User Create 1"), command_of (PyStr.split "User Create 1"))
    = (Some "USER", "create")
  ∧ (service_of (PyStr.split "shutdown"), command_of (PyStr.split "shutdown"))
    = (Some "SHUTDOWN", [])
  ∧ (service_of (PyStr.split "uſer Get"), command_of (PyStr.split "uſer Get"))
    = (Some "USER", "get").
Proof. repeat split; vm_compute; reflexivity. Qed.


(** C7 on the line of P5. *)
Lemma unknown_command_is_noop_witness :
  process_command no_float ok_server sample_parser "FOO bar baz" empty_world = Ok tt empty_world
  ∧ run_line no_float ok_server sample_parser "FOO bar baz" empty_world = Ok tt empty_world.
Proof.
  apply (unknown_command_is_noop no_float ok_server "127.0.0.1" "14000" "FOO bar baz" empty_world);
    [reflexivity | discriminate | discriminate |].
  intros service [= <-]. intros H%list_elem_of_In. vm_compute in H.
  repeat (destruct H as [H|H]; [discriminate H|]). exact H.
Defined.

(** C8 as stated fails: with one argument and a service that cannot be
    reached, the [try] block raises and the [except] branch prints. *)
Lemma lookup_sends_raw_id_counterexample :
  user_get_body down_server sample_parser ["42"] empty_world
    = Raise RequestException (World ∅ [] [Get "http://127.0.0.1:14000/user/42"] 0)
  ∧ handle_user_command down_server sample_parser "get" ["42"] empty_world
    = Ok tt (World ∅ ["Failed:  {}"] [Get "http://127.0.0.1:14000/user/42"] 0).
Proof. split; reflexivity. Qed.

(** C9 on an update whose last argument has no colon. *)
Lemma update_without_colon_sends_nothing_witness :
  user_update_body ok_server sample_parser ["7"; "email:a@x.com"; "status"] empty_world
    = Raise ValueError empty_world
  ∧ product_update_body ok_server sample_parser ["7"; "email:a@x.com"; "status"] empty_world
    = Raise ValueError empty_world
  ∧ handle_user_command ok_server sample_parser "update" ["7"; "email:a@x.com"; "status"] empty_world
    = Ok tt (World ∅ ["Failed:  {}"] [] 0)
  ∧ handle_product_command no_float ok_server sample_parser "update"
      ["7"; "email:a@x.com"; "status"] empty_world
    = Ok tt (World ∅ ["Failed:  {}"] [] 0).
Proof.
  apply (update_without_colon_sends_nothing no_float ok_server "127.0.0.1" "14000"
           ["7"; "email:a@x.com"; "status"] "status" empty_world);
    [right; left | reflexivity].
Defined.

(** C10 on padded control words after a comment. *)
Lemma lines_are_stripped_witness :
  resets (world_of (parse_workload no_float ok_server sample_parser
                      ["# first run" ++ LF; "  " ++ "restart" ++ " " ++ LF] empty_world)) = 0
  ∧ fs (world_of (parse_workload no_float ok_server sample_parser
                    ["# first run" ++ LF; "  " ++ "shutdown" ++ " " ++ LF] empty_world))
      !! "restart_flag.txt" = None.
Proof.
  destruct (lines_are_stripped no_float ok_server "127.0.0.1" "14000"
              "  " (" " ++ LF) ["# first run" ++ LF] [] empty_world)
    as (_ & _ & _ & _ & Hr & Hs).
  - repeat constructor.
  - repeat constructor.
  - split; [apply Hr | exact Hs].
    constructor; [|constructor]. right; left. now exists " first run".
Defined.

(** X5 on a delete with one argument too many. *)
Lemma user_record_commands_witness :
  handle_user_command ok_server sample_parser "delete" ["3"; "bob"; "b@x.com"; "pw"; "extra"] empty_world
  = execute ok_server
      (Send (Post "http://127.0.0.1:14000/user"
               (dict [("command", JStr "delete"); ("id", JInt 3); ("username", JStr "bob");
                      ("email", JStr "b@x.com"); ("password", JStr "pw")])
               {[ "Content-Type" := "application/json" ]})
         "Failed:  {}") empty_world.
Proof.
  exact (user_record_commands ok_server "127.0.0.1" "14000" "delete"
           ["3"; "bob"; "b@x.com"; "pw"; "extra"] empty_world (or_intror eq_refl)).
Defined.

(** X9 on an update that gives the price twice. *)
Lemma product_update_payload_witness :
  ∃ payload,
    handle_product_command no_float ok_server sample_parser "update"
      ["5"; "price:9.5"; "name:pen"; "price:10"] empty_world
    = execute ok_server
        (Send (Post "http://127.0.0.1:14000/product" payload
                 {[ "Content-Type" := "application/json" ]})
           "Failed:  {}") empty_world
    ∧ payload !! "price" = Some (JStr "10")
    ∧ payload !! "id" = Some (JInt 5).
Proof.
  destruct (product_update_payload no_float ok_server "127.0.0.1" "14000"
              "5" ["price:9.5"; "name:pen"; "price:10"] 5 empty_world eq_refl)
    as (payload & E & L).
  - repeat constructor.
  - exists payload. split; [exact E|]. split; [exact (L "price") | exact (L "id")].
Defined.

(** X14 on the tokens of Scenario C. *)
Lemma split_unwords_witness :
  PyStr.split (unwords ["order"; "place"; "10"; "20"; "3"]) = ["order"; "place"; "10"; "20"; "3"].
Proof.
  apply split_unwords.
  repeat (constructor; [split; [discriminate | repeat constructor]|]). constructor.
Defined.

(** X15 on a line of spaces. *)
Lemma blank_command_is_noop_witness :
  process_command no_float ok_server sample_parser ("   " ++ LF) empty_world = Ok tt empty_world.
Proof.
  apply blank_command_is_noop. repeat constructor.
Defined.
